(** * UAE property finder: the table loader and the query engine of
    [notebooks/app.py], embedded and verified.

    The application reads one CSV file into a pandas [DataFrame]
    ([load_and_clean_data]) and answers four look-ups over it ([search_name],
    [search_id], [search_phone], [search_property]).  This file gives

    - the values a table holds and the Python operations the code applies to
      them (float arithmetic and [round], [str], [==], truth values);
    - the pandas operations the code calls ([df[c]], [df[c] = s], [rename],
      [s == v], [m1 | m2], [df[mask]], [apply], [astype(str)],
      [str.endswith], [to_datetime]);
    - the functions of [app.py], statement by statement;
    - the properties of the loader and of the query engine. *)

From Stdlib Require Import ZArith String Ascii List Bool Floats Lia DecimalString.
Import ListNotations.

Set Warnings "-inexact-float".

Local Open Scope string_scope.
Local Open Scope list_scope.
Local Open Scope Z_scope.

(* ===================================================================== *)
(** * Python values *)
(* ===================================================================== *)

Module Py.

(** ** Floats

    Python's [float] is IEEE 754 binary64, as are Rocq's primitive floats:
    [*] is [PrimFloat.mul], [==] is [PrimFloat.eqb] (a NaN equals nothing,
    [0.0 == -0.0]). *)

(** The binary64 number nearest to [n / d] (ties to even), with sign [sign]:
    what reading a decimal literal does. *)
Definition nearest_float (sign : bool) (n d : positive) : float :=
  SF2Prim (SFdiv prec emax (S754_finite sign n 0) (S754_finite false d 0)).

(** [float(z)] for an integer [z]. *)
Definition float_of_Z (z : Z) : float :=
  match z with
  | Z0 => PrimFloat.zero
  | Zpos p => nearest_float false p 1
  | Zneg p => nearest_float true p 1
  end.

(** [n / d] rounded to the nearest integer, halves to the even one
    ([0 <= n], [0 < d]). *)
Definition div_half_even (n d : Z) : Z :=
  let q := n / d in
  match 2 * (n mod d) ?= d with
  | Lt => q
  | Gt => q + 1
  | Eq => if Z.even q then q else q + 1
  end.

(** [round(x, 2)]: the exact value of [x] is rounded to two decimals (halves
    to even) and the resulting decimal is read back as a float.  NaN, the
    infinities and the floats that are integers round to themselves. *)
Definition round2 (x : float) : float :=
  match Prim2SF x with
  | S754_finite s m e =>
      if 0 <=? e then x
      else match div_half_even (Zpos m * 100) (2 ^ (- e)) with
           | Zpos k => nearest_float s k 100
           | _ => if s then neg_zero else PrimFloat.zero
           end
  | _ => x
  end.

(** [bool(x)] of a float: every float but the two zeros is true. *)
Definition float_truth (x : float) : bool := negb (x =? 0)%float.

(** ** Text *)

(** [str(z)] of an integer. *)
Definition str_of_Z (z : Z) : string := NilZero.string_of_int (Z.to_int z).

(** [s.endswith(t)]: [t] is one of the suffixes of [s]. *)
Fixpoint endswith (s t : string) : bool :=
  (s =? t)%string ||
  match s with
  | EmptyString => false
  | String _ s' => endswith s' t
  end.

(** [bool(s)] of a string. *)
Definition str_truth (s : string) : bool :=
  match s with
  | EmptyString => false
  | String _ _ => true
  end.

(** *** [repr] of a float

    The shortest decimal that reads back as the same float, the nearest one
    to the float when several have that length; printed in positional
    notation when the decimal point falls within [-4 < decpt <= 16], with an
    exponent otherwise. *)

(** The exact value [m * 2^e] of a positive finite float, as a fraction. *)
Definition frac_of (m : positive) (e : Z) : Z * Z :=
  if 0 <=? e then (Zpos m * 2 ^ e, 1) else (Zpos m, 2 ^ (- e)).

Fixpoint decpt_up (fuel : nat) (n d k : Z) : Z :=
  match fuel with
  | O => k
  | S fuel' => if n <? d then k else decpt_up fuel' n (d * 10) (k + 1)
  end.

Fixpoint decpt_down (fuel : nat) (n d k : Z) : Z :=
  match fuel with
  | O => k
  | S fuel' => if d <=? n then k else decpt_down fuel' (n * 10) d (k - 1)
  end.

(** The [k] with [10^(k-1) <= n/d < 10^k]; binary64 needs [|k| <= 324]. *)
Definition decpt (n d : Z) : Z :=
  if d <=? n then decpt_up 400 n d 0 else decpt_down 400 n d 1.

(** The float read from the decimal [c * 10^(-p)]. *)
Definition float_of_decimal (c p : Z) : float :=
  match (if 0 <=? p then (c, 10 ^ p) else (c * 10 ^ (- p), 1)) with
  | (Zpos n, Zpos d) => nearest_float false n d
  | _ => PrimFloat.zero
  end.

(** With [nd] digits: the two [nd]-digit decimals around [n/d]; the search
    stops at the first length at which one of them reads back as [x]. *)
Fixpoint shortest (fuel : nat) (x : float) (n d k nd : Z) : Z * Z :=
  let p := nd - k in
  let '(a, b) := if 0 <=? p then (n * 10 ^ p, d) else (n, d * 10 ^ (- p)) in
  let lo := a / b in
  let hi := lo + 1 in
  let pick_hi :=
    match 2 * a ?= (2 * lo + 1) * b with
    | Lt => false
    | Gt => true
    | Eq => Z.odd lo
    end in
  match fuel with
  | O => (if pick_hi then hi else lo, p)
  | S fuel' =>
      let oklo := (float_of_decimal lo p =? x)%float in
      let okhi := (float_of_decimal hi p =? x)%float in
      if oklo && okhi then (if pick_hi then hi else lo, p)
      else if oklo then (lo, p)
      else if okhi then (hi, p)
      else shortest fuel' x n d k (nd + 1)
  end.

Fixpoint strip_zeros (fuel : nat) (c p : Z) : Z * Z :=
  match fuel with
  | O => (c, p)
  | S fuel' =>
      if (c mod 10 =? 0) && negb (c =? 0)
      then strip_zeros fuel' (c / 10) (p - 1)
      else (c, p)
  end.

Definition zeros (n : Z) : string :=
  string_of_list_ascii (repeat "0"%char (Z.to_nat n)).

Definition format_repr (c p : Z) : string :=
  let ds := str_of_Z c in
  let nd := Z.of_nat (String.length ds) in
  let dp := nd - p in
  if (-4 <? dp) && (dp <=? 16) then
    if dp <=? 0 then "0." ++ zeros (- dp) ++ ds
    else if nd <=? dp then ds ++ zeros (dp - nd) ++ ".0"
    else substring 0 (Z.to_nat dp) ds ++ "."
         ++ substring (Z.to_nat dp) (Z.to_nat (nd - dp)) ds
  else
    let ex := dp - 1 in
    substring 0 1 ds
    ++ (if 1 <? nd then "." ++ substring 1 (Z.to_nat (nd - 1)) ds else "")
    ++ "e" ++ (if ex <? 0 then "-" else "+")
    ++ (if Z.abs ex <? 10 then "0" else "") ++ str_of_Z (Z.abs ex).

(** [str(x)] (and [repr(x)]) of a float. *)
Definition float_repr (x : float) : string :=
  match Prim2SF x with
  | S754_nan => "nan"
  | S754_infinity s => if s then "-inf" else "inf"
  | S754_zero s => if s then "-0.0" else "0.0"
  | S754_finite s m e =>
      let '(n, d) := frac_of m e in
      let '(c, p) := shortest 17 (abs x) n d (decpt n d) 1 in
      let '(c, p) := strip_zeros 400 c p in
      (if s then "-" else "") ++ format_repr c p
  end.

End Py.

(* ===================================================================== *)
(** * Exceptions *)
(* ===================================================================== *)

(** The exceptions the modelled code can meet.  [OSError] stands for every
    failure of [pd.read_csv] other than a missing file (no permission, a
    directory, a file that is not CSV). *)
Inductive exn : Type :=
| FileNotFoundError
| OSError
| KeyError (label : string)
| ValueError
| TypeError.

(** A Python computation: it returns a value or raises. *)
Inductive outcome (A : Type) : Type :=
| Ret (a : A)
| Raise (e : exn).

Arguments Ret {A} a.
Arguments Raise {A} e.

Definition bind {A B : Type} (m : outcome A) (k : A -> outcome B) : outcome B :=
  match m with
  | Ret a => k a
  | Raise e => Raise e
  end.

Declare Scope py_scope.
Delimit Scope py_scope with py.
Notation "x <- m ;; k" := (bind m (fun x => k))
  (at level 61, m at next level, right associativity) : py_scope.
Local Open Scope py_scope.

(** [[f(x) for x in l]], raising at the first element on which [f] raises. *)
Fixpoint traverse {A B : Type} (f : A -> outcome B) (l : list A) : outcome (list B) :=
  match l with
  | [] => Ret []
  | x :: l' => y <- f x ;; ys <- traverse f l' ;; Ret (y :: ys)
  end.

(** The value a computation returns ([d] when it raises). *)
Definition value {A : Type} (d : A) (m : outcome A) : A :=
  match m with
  | Ret a => a
  | Raise _ => d
  end.

(* ===================================================================== *)
(** * pandas: cells, series and frames *)
(* ===================================================================== *)

(** One entry of a table.  [pd.read_csv] yields text, integers and floats; a
    missing entry is the float NaN.  [pd.to_datetime] yields instants, in
    nanoseconds since the epoch, [Datetime None] being [NaT]. *)
Inductive cell : Type :=
| Str (s : string)
| Int (z : Z)
| Float (f : float)
| Datetime (t : option Z).

(** The missing value [np.nan]. *)
Definition NaN : cell := Float nan.

(** [pd.isna(c)]. *)
Definition isna (c : cell) : bool :=
  match c with
  | Float f => is_nan f
  | Datetime None => true
  | _ => false
  end.

(** What pandas does with dates is not code of this repository and depends
    on the text conventions of the data: it is a parameter of the model.
    [parse_datetime c] is what [pd.to_datetime] makes of one present value
    that is not yet an instant: [Some t] for the instant (or [NaT]) it
    denotes, [None] when it raises.  [datetime_text t] is the text of an
    instant. *)
Class DateConventions : Type := {
  parse_datetime : cell -> option (option Z);
  datetime_text : option Z -> string
}.

Definition Series : Type := list cell.
Definition Mask : Type := list bool.
Definition Row : Type := list cell.

(** A frame: the column labels, and the rows; the [i]-th cell of a row
    belongs to the [i]-th label, a row shorter than the header is missing
    its last cells. *)
Record DataFrame : Type := mkFrame {
  columns : list string;
  rows : list Row
}.

(** [pd.DataFrame()]. *)
Definition empty_frame : DataFrame := mkFrame [] [].

(** [len(df)]. *)
Definition len (df : DataFrame) : nat := length (rows df).

(** The position of the first label equal to [c]. *)
Fixpoint index_of (c : string) (l : list string) : option nat :=
  match l with
  | [] => None
  | c' :: l' =>
      if (c' =? c)%string then Some O
      else match index_of c l' with
           | Some i => Some (S i)
           | None => None
           end
  end.

(** [c in df.columns]. *)
Definition has_column (df : DataFrame) (c : string) : bool :=
  match index_of c (columns df) with
  | Some _ => true
  | None => false
  end.

Definition has_columns (df : DataFrame) (cs : list string) : bool :=
  forallb (has_column df) cs.

(** No label occurs twice.  [pd.read_csv] makes the labels of the file
    distinct; under a repeated label [df[c]] is a frame, not a series, which
    this model does not cover. *)
Fixpoint distinct (l : list string) : bool :=
  match l with
  | [] => true
  | c :: l' => negb (existsb (String.eqb c) l') && distinct l'
  end.

Definition unique_columns (df : DataFrame) : bool := distinct (columns df).

(** The cell of row [r] at position [i]. *)
Definition cell_at (i : nat) (r : Row) : cell := nth i r NaN.

(** The cell of row [r] of [df] under label [c] (missing when [df] has no
    such column). *)
Definition get (df : DataFrame) (c : string) (r : Row) : cell :=
  match index_of c (columns df) with
  | Some i => cell_at i r
  | None => NaN
  end.

(** [df[c]]: the column, or [KeyError]. *)
Definition getitem (df : DataFrame) (c : string) : outcome Series :=
  match index_of c (columns df) with
  | Some i => Ret (map (cell_at i) (rows df))
  | None => Raise (KeyError c)
  end.

(** Row [r] with its cell at position [i] replaced by [v]. *)
Fixpoint set_cell (i : nat) (v : cell) (r : Row) : Row :=
  match i, r with
  | O, [] => [v]
  | O, _ :: r' => v :: r'
  | S i', [] => NaN :: set_cell i' v []
  | S i', x :: r' => x :: set_cell i' v r'
  end.

(** The position of column [c] in [df]: where it is, or the first free
    position when [df] has no such column. *)
Definition position (df : DataFrame) (c : string) : nat :=
  match index_of c (columns df) with
  | Some i => i
  | None => length (columns df)
  end.

(** [df[c] = s]: column [c] is replaced, or added as the last column. *)
Definition setitem (df : DataFrame) (c : string) (s : Series) : DataFrame :=
  mkFrame (if has_column df c then columns df else columns df ++ [c])
          (map (fun rv => set_cell (position df c) (snd rv) (fst rv))
               (combine (rows df) s)).

(** [df.rename(columns=m)]: a label in [m] is replaced, any other is kept;
    a label of [m] that the frame does not have is ignored. *)
Fixpoint lookup (m : list (string * string)) (c : string) : option string :=
  match m with
  | [] => None
  | (k, v) :: m' => if (k =? c)%string then Some v else lookup m' c
  end.

Definition renamed (m : list (string * string)) (c : string) : string :=
  match lookup m c with
  | Some c' => c'
  | None => c
  end.

Definition rename (m : list (string * string)) (df : DataFrame) : DataFrame :=
  mkFrame (map (renamed m) (columns df)) (rows df).

(** [m1 | m2] on two masks of one frame. *)
Definition mask_or (m1 m2 : Mask) : Mask :=
  map (fun p => orb (fst p) (snd p)) (combine m1 m2).

(** [df[mask]]: the rows whose mask entry is true, the columns unchanged. *)
Fixpoint keep {A : Type} (m : Mask) (l : list A) : list A :=
  match m, l with
  | b :: m', x :: l' => if b then x :: keep m' l' else keep m' l'
  | _, _ => []
  end.

Definition loc (df : DataFrame) (m : Mask) : DataFrame :=
  mkFrame (columns df) (keep m (rows df)).

(** The rows of [df] that satisfy [p]: the frame the properties refer to. *)
Definition select (df : DataFrame) (p : Row -> bool) : DataFrame :=
  mkFrame (columns df) (filter p (rows df)).

(** [df[cs]] for labels [cs] that [df] has: the projection, in the order of
    [cs]. *)
Definition project (df : DataFrame) (cs : list string) : DataFrame :=
  mkFrame cs (map (fun r => map (fun c => get df c r) cs) (rows df)).

(** [df.empty]: no row or no column. *)
Definition frame_empty (df : DataFrame) : bool :=
  match rows df, columns df with
  | [], _ => true
  | _, [] => true
  | _, _ => false
  end.

(** ** Comparisons of a column with a scalar

    A comparison with a value of another type, with [None] or with a missing
    entry is false, never an error. *)

(** [c == v] for text [v]; [None] when the scalar is Python's [None]. *)
Definition eq_str (v : option string) (c : cell) : bool :=
  match c, v with
  | Str s, Some s' => (s =? s')%string
  | _, _ => false
  end.

(** [c == v] for a float [v]; an integer cell is compared as a float. *)
Definition eq_float (v : float) (c : cell) : bool :=
  match c with
  | Float f => (f =? v)%float
  | Int z => (Py.float_of_Z z =? v)%float
  | _ => false
  end.

(** [c == t] for an instant [t]; [NaT] equals nothing. *)
Definition eq_datetime (t : option Z) (c : cell) : bool :=
  match c, t with
  | Datetime (Some t1), Some t2 => (t1 =? t2)%Z
  | _, _ => false
  end.

(** [s == v], entry by entry. *)
Definition series_eq (p : cell -> bool) (s : Series) : Mask := map p s.

Section WithDates.

Context {dates : DateConventions}.

(** [astype(str)] of one entry: [str] of the value, so the missing float
    becomes the text [nan] (pandas up to 2.x, in which text columns have the
    dtype [object] that [convert_data.py] tests for). *)
Definition astype_str (c : cell) : string :=
  match c with
  | Str s => s
  | Int z => Py.str_of_Z z
  | Float f => Py.float_repr f
  | Datetime t => datetime_text t
  end.

(** [s.astype(str).str.endswith(v, na=False)]: after [astype(str)] no entry
    is missing any more, so [na=False] has nothing left to exclude. *)
Definition str_endswith (v : string) (s : Series) : Mask :=
  map (fun c => Py.endswith (astype_str c) v) s.

(** [pd.to_datetime] on one entry: an instant stays, a missing entry becomes
    [NaT], anything else is parsed or raises. *)
Definition to_datetime_cell (c : cell) : outcome cell :=
  match c with
  | Datetime t => Ret (Datetime t)
  | _ =>
      if isna c then Ret (Datetime None)
      else match parse_datetime c with
           | Some t => Ret (Datetime t)
           | None => Raise ValueError
           end
  end.

(** [pd.to_datetime(s)] on a column: it raises as soon as one entry does. *)
Definition to_datetime (s : Series) : outcome Series :=
  traverse to_datetime_cell s.

End WithDates.

(* ===================================================================== *)
(** * notebooks/app.py *)
(* ===================================================================== *)

Section App.

Context {dates : DateConventions}.

(** ** [load_and_clean_data] *)

(** [rename_map]: the headers of the source file and their canonical names. *)
Definition rename_map : list (string * string) :=
  [ ("Regis", "reg_date");
    ("ProcedureValue", "procedure_value");
    ("Master Project", "master_project");
    ("Master Project Land", "master_project_land");
    ("Project", "project");
    ("Project Lnd", "project_land");
    ("Building No", "building_no");
    ("BuildingNameEn", "building_name_en");
    ("Size", "size_sqmt");
    ("UnitNumber", "unit_number");
    ("DmSubNo", "dm_sub_no");
    ("PropertyTypeEn", "property_type_en");
    ("LandNumber", "land_number");
    ("ProcedurePartyTypeNameEn", "procedure_type");
    ("NameEn", "name_en");
    ("Mobile", "mobile");
    ("ProcedureNameEn", "procedure_name");
    ("CountryNameEn", "country");
    ("IdNumber", "id_number");
    ("UaeIdNumber", "uae_id_number");
    ("BirthDate", "birth_date") ].

(** The float a numeric entry stands for in an arithmetic operation; text
    and instants are not numbers. *)
Definition number (x : cell) : option float :=
  match x with
  | Float f => Some f
  | Int z => Some (Py.float_of_Z z)
  | Str _ => None
  | Datetime _ => None
  end.

(** [lambda x: round(x * 10.76391, 2)] on one entry of the size column; text
    cannot be multiplied by a float. *)
Definition sqft_of (x : cell) : outcome cell :=
  match number x with
  | Some f => Ret (Float (Py.round2 (f * 10.76391)%float))
  | None => Raise TypeError
  end.

(** [load_and_clean_data()].  The file system is the argument: [read_csv] is
    what [pd.read_csv(file_path)] does at the time of the call, the raw frame
    or the exception it raises. *)
Definition load_and_clean_data (read_csv : outcome DataFrame) : outcome (option DataFrame) :=
  match read_csv with
  | Raise FileNotFoundError => Ret None
  | Raise e => Raise e
  | Ret df =>
      let df := rename rename_map df in
      reg <- getitem df "reg_date" ;;
      reg <- to_datetime reg ;;
      let df := setitem df "reg_date" reg in
      size <- getitem df "size_sqmt" ;;
      sqft <- traverse sqft_of size ;;
      let df := setitem df "size_sqft" sqft in
      Ret (Some df)
  end.

(** ** The search functions *)

(** [search_name(name, df)]. *)
Definition search_name (name : string) (df : DataFrame) : outcome DataFrame :=
  name_en <- getitem df "name_en" ;;
  Ret (loc df (series_eq (eq_str (Some name)) name_en)).

(** [search_id(_id, df)]. *)
Definition search_id (_id : string) (df : DataFrame) : outcome DataFrame :=
  id_number <- getitem df "id_number" ;;
  uae_id_number <- getitem df "uae_id_number" ;;
  Ret (loc df (mask_or (series_eq (eq_str (Some _id)) id_number)
                       (series_eq (eq_str (Some _id)) uae_id_number))).

(** [search_phone(mobile, df)]. *)
Definition search_phone (mobile : string) (df : DataFrame) : outcome DataFrame :=
  col <- getitem df "mobile" ;;
  Ret (loc df (series_eq (eq_str (Some mobile)) col)).

(** A value given for the date filter: a date object (its instant), or text. *)
Inductive datelike : Type :=
| DateObj (t : Z)
| DateText (s : string).

(** [bool(d)]: a date object is true, text is true unless empty. *)
Definition date_truth (d : datelike) : bool :=
  match d with
  | DateObj _ => true
  | DateText s => Py.str_truth s
  end.

(** [pd.to_datetime(d)] on a scalar. *)
Definition to_datetime_scalar (d : datelike) : outcome (option Z) :=
  match d with
  | DateObj t => Ret (Some t)
  | DateText s =>
      match parse_datetime (Str s) with
      | Some t => Ret t
      | None => Raise ValueError
      end
  end.

(** [search_property], lines 77 to 83: the rows in which one of the five
    columns equals [property_name]. *)
Definition identity_stage (property_name : option string) (df : DataFrame) : outcome DataFrame :=
  master_project <- getitem df "master_project" ;;
  master_project_land <- getitem df "master_project_land" ;;
  project <- getitem df "project" ;;
  project_land <- getitem df "project_land" ;;
  building_name_en <- getitem df "building_name_en" ;;
  Ret (loc df
         (mask_or
            (mask_or
               (mask_or
                  (mask_or (series_eq (eq_str property_name) master_project)
                           (series_eq (eq_str property_name) master_project_land))
                  (series_eq (eq_str property_name) project))
               (series_eq (eq_str property_name) project_land))
            (series_eq (eq_str property_name) building_name_en))).

(** Lines 85 and 86: [if size_sqmt: ...]. *)
Definition filter_size_sqmt (size_sqmt : option float) (all_matches : DataFrame) : outcome DataFrame :=
  match size_sqmt with
  | Some v =>
      if Py.float_truth v then
        col <- getitem all_matches "size_sqmt" ;;
        Ret (loc all_matches (series_eq (eq_float v) col))
      else Ret all_matches
  | None => Ret all_matches
  end.

(** Lines 88 and 89: [if size_sqft: ...]. *)
Definition filter_size_sqft (size_sqft : option float) (all_matches : DataFrame) : outcome DataFrame :=
  match size_sqft with
  | Some v =>
      if Py.float_truth v then
        col <- getitem all_matches "size_sqft" ;;
        Ret (loc all_matches (series_eq (eq_float v) col))
      else Ret all_matches
  | None => Ret all_matches
  end.

(** Lines 91 to 94: [if transaction_date: ...]. *)
Definition filter_transaction_date (transaction_date : option datelike) (all_matches : DataFrame) : outcome DataFrame :=
  match transaction_date with
  | Some d =>
      if date_truth d then
        t <- to_datetime_scalar d ;;
        col <- getitem all_matches "reg_date" ;;
        Ret (loc all_matches (series_eq (eq_datetime t) col))
      else Ret all_matches
  | None => Ret all_matches
  end.

(** Lines 96 to 98: [if unit_number: ...]. *)
Definition filter_unit_number (unit_number : option string) (all_matches : DataFrame) : outcome DataFrame :=
  match unit_number with
  | Some v =>
      if Py.str_truth v then
        col <- getitem all_matches "unit_number" ;;
        Ret (loc all_matches (str_endswith v col))
      else Ret all_matches
  | None => Ret all_matches
  end.

(** [search_property(property_name, df, size_sqmt, size_sqft,
    transaction_date, unit_number)]. *)
Definition search_property (property_name : option string) (df : DataFrame)
    (size_sqmt size_sqft : option float) (transaction_date : option datelike)
    (unit_number : option string) : outcome DataFrame :=
  all_matches <- identity_stage property_name df ;;
  all_matches <- filter_size_sqmt size_sqmt all_matches ;;
  all_matches <- filter_size_sqft size_sqft all_matches ;;
  all_matches <- filter_transaction_date transaction_date all_matches ;;
  all_matches <- filter_unit_number unit_number all_matches ;;
  Ret all_matches.

(** ** [main] *)

Inductive search_mode : Type :=
| NameSearch
| IDSearch
| PhoneSearch
| PropertySearch.

(** The state of the widgets during one run of the script: the mode chosen
    in the sidebar, the text typed in the mode's key field, whether the
    mode's Search button is pressed, and the widgets of the property
    filters. *)
Record widgets : Type := {
  search_type : search_mode;
  key_input : string;
  button : bool;
  enable_sqmt : bool;
  sqmt : float;
  enable_sqft : bool;
  sqft : float;
  enable_date : bool;
  trans_date : Z;
  unit_no : string
}.

(** What a run writes on the page. *)
Inductive element : Type :=
| StError (msg : string)
| StWarning (msg : string)
| StSuccess (found : nat)
| StDataframe (df : DataFrame)
| StInfo (msg : string).

Definition desired_columns : list string :=
  [ "reg_date"; "procedure_value"; "master_project"; "master_project_land";
    "project"; "project_land"; "building_no"; "building_name_en"; "size_sqmt";
    "unit_number"; "dm_sub_no"; "property_type_en"; "land_number"; "procedure_type";
    "name_en"; "mobile"; "procedure_name"; "country"; "id_number"; "uae_id_number";
    "birth_date"; "size_sqft" ].

(** Lines 123 to 193: the search of the chosen mode, when its button is
    pressed: the results and the warning, if any. *)
Definition run_search (ui : widgets) (df : DataFrame) : outcome (DataFrame * list element) :=
  match search_type ui with
  | NameSearch =>
      if Py.str_truth (key_input ui)
      then results <- search_name (key_input ui) df ;; Ret (results, [])
      else Ret (empty_frame, [StWarning "Please enter a name."])
  | IDSearch =>
      if Py.str_truth (key_input ui)
      then results <- search_id (key_input ui) df ;; Ret (results, [])
      else Ret (empty_frame, [StWarning "Please enter an ID."])
  | PhoneSearch =>
      if Py.str_truth (key_input ui)
      then results <- search_phone (key_input ui) df ;; Ret (results, [])
      else Ret (empty_frame, [StWarning "Please enter a phone number."])
  | PropertySearch =>
      if Py.str_truth (key_input ui) then
        let _sqmt := if enable_sqmt ui then Some (sqmt ui) else None in
        let _sqft := if enable_sqft ui then Some (sqft ui) else None in
        let _date := if enable_date ui then Some (DateObj (trans_date ui)) else None in
        let _unit := if Py.str_truth (unit_no ui) then Some (unit_no ui) else None in
        results <- search_property (Some (key_input ui)) df _sqmt _sqft _date _unit ;;
        Ret (results, [])
      else Ret (empty_frame, [StWarning "Property Name is required for this search."])
  end.

(** Lines 196 to 215: the results section. *)
Definition display (results : DataFrame) : list element :=
  if negb (frame_empty results) then
    let cols_to_display := filter (has_column results) desired_columns in
    [StSuccess (len results); StDataframe (project results cols_to_display)]
  else [StInfo "No matching records found."].

(** [main()]: what one run of the script shows, or the exception that ends
    it. *)
Definition main (read_csv : outcome DataFrame) (ui : widgets) : outcome (list element) :=
  df <- load_and_clean_data read_csv ;;
  match df with
  | None =>
      Ret [StError "Could not load data. Please ensure 'data/cleaned_data/uae_realestate_old_cleaned.csv' exists."]
  | Some df =>
      if button ui then
        found <- run_search ui df ;;
        Ret (snd found ++ display (fst found))
      else Ret []
  end.

End App.

(* ===================================================================== *)
(** * ISO dates: the conventions of the examples *)
(* ===================================================================== *)

(** The examples of this file write dates as [YYYY-MM-DD].  Under these
    conventions such a text denotes its day at midnight, an integer denotes
    that many nanoseconds after the epoch, and nothing else is a date. *)
Module Iso.

Definition digit (a : ascii) : option Z :=
  let n := Z.of_N (N_of_ascii a) - 48 in
  if (0 <=? n) && (n <=? 9) then Some n else None.

Fixpoint decimal (l : list ascii) (acc : Z) : option Z :=
  match l with
  | [] => Some acc
  | a :: l' =>
      match digit a with
      | Some n => decimal l' (10 * acc + n)
      | None => None
      end
  end.

Definition leap (y : Z) : bool :=
  ((y mod 4 =? 0) && negb (y mod 100 =? 0)) || (y mod 400 =? 0).

Definition days_in_month (y m : Z) : Z :=
  if m =? 2 then (if leap y then 29 else 28)
  else if (m =? 4) || (m =? 6) || (m =? 9) || (m =? 11) then 30
  else 31.

(** The number of days from 1970-01-01 to the day [y]-[m]-[d]. *)
Definition days_from_civil (y m d : Z) : Z :=
  let y' := if m <=? 2 then y - 1 else y in
  let era := y' / 400 in
  let yoe := y' - era * 400 in
  let doy := (153 * (if 2 <? m then m - 3 else m + 9) + 2) / 5 + d - 1 in
  let doe := yoe * 365 + yoe / 4 - yoe / 100 + doy in
  era * 146097 + doe - 719468.

(** The day [(y, m, d)] that is [z] days after 1970-01-01. *)
Definition civil_from_days (z : Z) : Z * Z * Z :=
  let z := z + 719468 in
  let era := z / 146097 in
  let doe := z - era * 146097 in
  let yoe := (doe - doe / 1460 + doe / 36524 - doe / 146096) / 365 in
  let doy := doe - (365 * yoe + yoe / 4 - yoe / 100) in
  let mp := (5 * doy + 2) / 153 in
  let d := doy - (153 * mp + 2) / 5 + 1 in
  let m := if mp <? 10 then mp + 3 else mp - 9 in
  ((if m <=? 2 then yoe + era * 400 + 1 else yoe + era * 400), m, d).

Definition ns_per_day : Z := 86400 * 1000000000.

Definition parse_date (s : string) : option Z :=
  match list_ascii_of_string s with
  | [y1; y2; y3; y4; "-"%char; m1; m2; "-"%char; d1; d2] =>
      match decimal [y1; y2; y3; y4] 0, decimal [m1; m2] 0, decimal [d1; d2] 0 with
      | Some y, Some m, Some d =>
          if (1 <=? m) && (m <=? 12) && (1 <=? d) && (d <=? days_in_month y m)
          then Some (days_from_civil y m d * ns_per_day)
          else None
      | _, _, _ => None
      end
  | _ => None
  end.

Definition parse (c : cell) : option (option Z) :=
  match c with
  | Str s =>
      match parse_date s with
      | Some t => Some (Some t)
      | None => None
      end
  | Int z => Some (Some z)
  | _ => None
  end.

Definition pad (width : nat) (z : Z) : string :=
  let s := Py.str_of_Z z in
  string_of_list_ascii (repeat "0"%char (width - String.length s)) ++ s.

Definition text (t : option Z) : string :=
  match t with
  | None => "NaT"
  | Some t =>
      let '(y, m, d) := civil_from_days (t / ns_per_day) in
      let secs := (t mod ns_per_day) / 1000000000 in
      pad 4 y ++ "-" ++ pad 2 m ++ "-" ++ pad 2 d ++ " "
      ++ pad 2 (secs / 3600) ++ ":" ++ pad 2 (secs / 60 mod 60) ++ ":" ++ pad 2 (secs mod 60)
  end.

#[export] Instance conventions : DateConventions := {
  parse_datetime := parse;
  datetime_text := text
}.

End Iso.

(* ===================================================================== *)
(** * The rows a search keeps: the predicates of the properties *)
(* ===================================================================== *)

(** The labels a search reads. *)
Definition identity_columns : list string :=
  ["master_project"; "master_project_land"; "project"; "project_land"; "building_name_en"].

Definition property_columns : list string :=
  identity_columns ++ ["size_sqmt"; "size_sqft"; "reg_date"; "unit_number"].

(** A table with distinct labels that has the columns [cs]. *)
Definition table_with (cs : list string) (df : DataFrame) : bool :=
  unique_columns df && has_columns df cs.

(** The frame with the columns of [df] and no row. *)
Definition no_rows (df : DataFrame) : DataFrame := mkFrame (columns df) [].

Definition name_match (df : DataFrame) (name : string) (r : Row) : bool :=
  eq_str (Some name) (get df "name_en" r).

Definition id_match (df : DataFrame) (_id : string) (r : Row) : bool :=
  eq_str (Some _id) (get df "id_number" r) || eq_str (Some _id) (get df "uae_id_number" r).

Definition phone_match (df : DataFrame) (mobile : string) (r : Row) : bool :=
  eq_str (Some mobile) (get df "mobile" r).

Definition identity_match (df : DataFrame) (property_name : option string) (r : Row) : bool :=
  eq_str property_name (get df "master_project" r)
  || eq_str property_name (get df "master_project_land" r)
  || eq_str property_name (get df "project" r)
  || eq_str property_name (get df "project_land" r)
  || eq_str property_name (get df "building_name_en" r).

(** A size filter on column [c]: in force when its value is true. *)
Definition size_match (df : DataFrame) (c : string) (size : option float) (r : Row) : bool :=
  match size with
  | Some v => if Py.float_truth v then eq_float v (get df c r) else true
  | None => true
  end.

(** The date filter, given the instant [t] its value was converted to
    ([None] when the filter is not in force). *)
Definition date_match (df : DataFrame) (t : option (option Z)) (r : Row) : bool :=
  match t with
  | Some t => eq_datetime t (get df "reg_date" r)
  | None => true
  end.

Section Predicates.

Context {dates : DateConventions}.

(** The conversion of the date filter: [Ret None] when the filter is not in
    force, [Ret (Some t)] when it is, the exception when the value is not a
    date. *)
Definition date_filter (transaction_date : option datelike) : outcome (option (option Z)) :=
  match transaction_date with
  | Some d => if date_truth d then t <- to_datetime_scalar d ;; Ret (Some t) else Ret None
  | None => Ret None
  end.

(** The text of a unit number ends with [v]. *)
Definition unit_ends_with (df : DataFrame) (v : string) (r : Row) : bool :=
  Py.endswith (astype_str (get df "unit_number" r)) v.

Definition unit_match (df : DataFrame) (unit_number : option string) (r : Row) : bool :=
  match unit_number with
  | Some v => if Py.str_truth v then unit_ends_with df v r else true
  | None => true
  end.

Definition property_match (df : DataFrame) (property_name : option string)
    (size_sqmt size_sqft : option float) (t : option (option Z))
    (unit_number : option string) (r : Row) : bool :=
  identity_match df property_name r
  && size_match df "size_sqmt" size_sqmt r
  && size_match df "size_sqft" size_sqft r
  && date_match df t r
  && unit_match df unit_number r.

(** An entry of the date column on which [pd.to_datetime] raises. *)
Definition unparseable (c : cell) : bool :=
  match c with
  | Datetime _ => false
  | _ => negb (isna c) && match parse_datetime c with Some _ => false | None => true end
  end.

End Predicates.

(** An entry of the size column that [round(x * 10.76391, 2)] accepts. *)
Definition numeric (c : cell) : bool :=
  match number c with
  | Some _ => true
  | None => false
  end.

Section Normalized.

Context {dates : DateConventions}.

(** The table [load_and_clean_data] builds from the raw frame, row by row:
    [df] is the raw frame under its canonical labels. *)
Definition reg_date_of (df : DataFrame) (r : Row) : cell :=
  value NaN (to_datetime_cell (get df "reg_date" r)).

Definition size_sqft_of (df : DataFrame) (r : Row) : cell :=
  value NaN (sqft_of (get df "size_sqmt" r)).

(** The frame after line 56, [df['reg_date'] = pd.to_datetime(df['reg_date'])],
    when every date is one. *)
Definition with_dates (df : DataFrame) : DataFrame :=
  mkFrame (columns df)
          (map (fun r => set_cell (position df "reg_date") (reg_date_of df r) r) (rows df)).

Definition normalize_row (df : DataFrame) (r : Row) : Row :=
  set_cell (position df "size_sqft") (size_sqft_of df r)
    (set_cell (position df "reg_date") (reg_date_of df r) r).

Definition normalized (raw : DataFrame) : DataFrame :=
  let df := rename rename_map raw in
  mkFrame (if has_column df "size_sqft" then columns df else columns df ++ ["size_sqft"])
          (map (normalize_row df) (rows raw)).

(** The date column is there and every date is one. *)
Definition dates_ok (raw : DataFrame) : bool :=
  let df := rename rename_map raw in
  has_column df "reg_date"
  && forallb (fun r => negb (unparseable (get df "reg_date" r))) (rows raw).

(** The raw frames the loader accepts: the date and the size columns are
    there, every date is one, every size is a number. *)
Definition loadable (raw : DataFrame) : bool :=
  let df := rename rename_map raw in
  has_column df "reg_date"
  && forallb (fun r => negb (unparseable (get df "reg_date" r))) (rows raw)
  && has_column df "size_sqmt"
  && forallb (fun r => numeric (get df "size_sqmt" r)) (rows raw).

End Normalized.

(* ===================================================================== *)
(** * A sample file *)
(* ===================================================================== *)

(** Three transactions under the headers of the source file, as
    [pd.read_csv] returns them, and the table the loader builds from them;
    the properties below are exercised on it. *)
Module Sample.

#[local] Existing Instance Iso.conventions.

Definition john : Row :=
  [ Str "2020-01-15"; Int 1500000; Str "DUBAI MARINA"; NaN; Str "OCEAN HEIGHTS"; NaN;
    Str "P1"; Str "OCEAN HEIGHTS"; Float 100; Str "A-3-0601"; NaN; Str "Unit"; Int 45;
    Str "Buyer"; Str "JOHN SMITH"; Str "971-50-1112233"; Str "Sell";
    Str "United Kingdom"; Str "X"; Str "Y"; Str "1980-05-01" ].

Definition daoud : Row :=
  [ Str "2021-03-02"; Int 980000; Str "DUBAI MARINA"; NaN; Str "MARINA GATE"; NaN;
    Str "7"; Str "MARINA GATE 1"; Float 50.5; NaN; NaN; Str "Unit"; Int 12;
    Str "Seller"; Str "DAOUD YAQUB"; Str "971-50-6544384"; Str "Sell";
    Str "Jordan"; Str "530946649"; NaN; NaN ].

Definition jane : Row :=
  [ NaN; Int 2100000; NaN; Str "PALM JUMEIRAH"; NaN; Str "PALM VIEWS";
    Str "B2"; NaN; Float 120; Str "B-12-0610"; NaN; Str "Unit"; Int 7;
    Str "Buyer"; Str "JANE DOE"; Str "971-55-0000000"; Str "Sell";
    Str "France"; Str "Q7"; Str "784-1990-1234567-1"; Str "1990-11-30" ].

Definition raw : DataFrame := mkFrame (map fst rename_map) [john; daoud; jane].

(** The canonical table of the sample, and its first row. *)
Definition table : DataFrame := normalized raw.

Definition john_row : Row := normalize_row (rename rename_map raw) john.

(** The file without its [Size] column. *)
Definition raw_without_size : DataFrame :=
  mkFrame ["Regis"; "NameEn"] [[Str "2020-01-15"; Str "JOHN SMITH"]].

(** A file with only the two columns the loader computes with. *)
Definition raw_minimal : DataFrame :=
  mkFrame ["Regis"; "Size"] [[Str "2020-01-15"; Float 100]; [NaN; Float 50.5]].

(** A table in which a project has the empty text as its name, as a caller
    can build it (or read it with [keep_default_na=False]). *)
Definition unnamed_project : Row :=
  [ Datetime None; NaN; NaN; NaN; Str ""; NaN; NaN; NaN; Float 80; Str "12" ].

Definition table_with_blank : DataFrame :=
  mkFrame [ "reg_date"; "master_project"; "master_project_land"; "building_no"; "project";
            "project_land"; "building_name_en"; "size_sqft"; "size_sqmt"; "unit_number" ]
          [unnamed_project].

(** The widgets of a property search with the size filter ticked and its
    field left at [0.0]. *)
Definition ocean_heights_size_zero : widgets :=
  {| search_type := PropertySearch; key_input := "OCEAN HEIGHTS"; button := true;
     enable_sqmt := true; sqmt := 0; enable_sqft := false; sqft := 0;
     enable_date := false; trans_date := 0; unit_no := "" |}.

End Sample.

(* ===================================================================== *)
(** * Sub-tables, and more sample files *)
(* ===================================================================== *)

(** [l1] is [l2] with some elements left out, the others in their order. *)
Inductive Subseq {A : Type} : list A -> list A -> Prop :=
| Subseq_nil : Subseq [] []
| Subseq_skip (x : A) (l1 l2 : list A) : Subseq l1 l2 -> Subseq l1 (x :: l2)
| Subseq_keep (x : A) (l1 l2 : list A) : Subseq l1 l2 -> Subseq (x :: l1) (x :: l2).

(** [res] has the columns of [df] and some of its rows, in their order. *)
Definition subtable (res df : DataFrame) : Prop :=
  columns res = columns df /\ Subseq (rows res) (rows df).

(** The entry is text. *)
Definition is_text (c : cell) : bool :=
  match c with
  | Str _ => true
  | _ => false
  end.

Module Cases.

#[local] Existing Instance Iso.conventions.

(** A table whose two ID columns were read as numbers. *)
Definition numeric_ids : DataFrame :=
  mkFrame ["name_en"; "id_number"; "uae_id_number"]
          [ [Str "DAOUD YAQUB"; Int 530946649; NaN];
            [Str "JANE DOE"; Int 12345; Float 784199012345671] ].

(** A file one of whose sizes is text. *)
Definition raw_text_size : DataFrame :=
  mkFrame ["Regis"; "Size"] [[Str "2020-01-15"; Float 100]; [Str "2021-03-02"; Str "50 sqm"]].

(** The table of a file that has the date and the size columns only. *)
Definition minimal_table : DataFrame := normalized Sample.raw_minimal.

(** The second row of the sample table: its unit number is missing. *)
Definition daoud_row : Row := normalize_row (rename rename_map Sample.raw) Sample.daoud.

(** The third row of the sample table: its date is missing. *)
Definition jane_row : Row := normalize_row (rename rename_map Sample.raw) Sample.jane.

(** A file as [pd.read_csv] returns it at the start of [convert_data.py]: a
    column of text with a missing entry, and a column of numbers. *)
Definition raw_units : DataFrame :=
  mkFrame ["Unit Number"; "Size"] [[Str "A-3-0601"; Float 100]; [NaN; Float 50.5]].

(** A name search for JOHN SMITH, and one with nothing typed. *)
Definition name_search_john : widgets :=
  {| search_type := NameSearch; key_input := "JOHN SMITH"; button := true;
     enable_sqmt := false; sqmt := 0; enable_sqft := false; sqft := 0;
     enable_date := false; trans_date := 0; unit_no := "" |}.

Definition name_search_blank : widgets :=
  {| search_type := NameSearch; key_input := ""; button := true;
     enable_sqmt := false; sqmt := 0; enable_sqft := false; sqft := 0;
     enable_date := false; trans_date := 0; unit_no := "" |}.

(** A property search for MARINA GATE with [an] typed in the unit number
    field. *)
Definition marina_gate_unit_an : widgets :=
  {| search_type := PropertySearch; key_input := "MARINA GATE"; button := true;
     enable_sqmt := false; sqmt := 0; enable_sqft := false; sqft := 0;
     enable_date := false; trans_date := 0; unit_no := "an" |}.

End Cases.

(** The columns every search of the page reads. *)
Definition page_columns : list string :=
  ["name_en"; "id_number"; "uae_id_number"; "mobile"] ++ property_columns.

(* ===================================================================== *)
(** * convert_data.py *)
(* ===================================================================== *)

Section ConvertData.

Context {dates : DateConventions}.

(** [s.dtype == 'object'].  The frame comes from [pd.read_csv] with
    [low_memory=False], which reads a column either as numbers throughout or
    as text with missing entries: the dtype of a column is [object] exactly
    when the column holds text. *)
Definition dtype_object (s : Series) : bool := existsb is_text s.

(** [s.astype(str)] on a series. *)
Definition astype_str_series (s : Series) : Series :=
  map (fun c => Str (astype_str c)) s.

(** Lines 12 and 13, for one label of the loop. *)
Definition convert_column (df : DataFrame) (col : string) : outcome DataFrame :=
  s <- getitem df col ;;
  if dtype_object s then
    s <- getitem df col ;;
    Ret (setitem df col (astype_str_series s))
  else Ret df.

(** Lines 11 to 13: [for col in df.columns: ...]. *)
Fixpoint convert_columns (cols : list string) (df : DataFrame) : outcome DataFrame :=
  match cols with
  | [] => Ret df
  | col :: cols' => df <- convert_column df col ;; convert_columns cols' df
  end.

(** What the script prints. *)
Inductive printed : Type :=
| Print (line : string)
| PrintError (e : exn).

(** The script.  Its environment is the argument: what [pd.read_csv] does,
    and what [df.to_parquet] does with the frame it is given.  The result is
    what the script prints and the frame it has written, if any; every
    exception is caught by [except Exception]. *)
Definition convert_data (read_csv : outcome DataFrame)
    (to_parquet : DataFrame -> outcome unit) : list printed * option DataFrame :=
  match read_csv with
  | Raise e => ([Print "Reading CSV..."; PrintError e], None)
  | Ret df =>
      match convert_columns (columns df) df with
      | Raise e =>
          ([Print "Reading CSV..."; Print "Converting object columns to string...";
            PrintError e], None)
      | Ret df =>
          match to_parquet df with
          | Raise e =>
              ([Print "Reading CSV..."; Print "Converting object columns to string...";
                Print "Saving to Parquet..."; PrintError e], None)
          | Ret _ =>
              ([Print "Reading CSV..."; Print "Converting object columns to string...";
                Print "Saving to Parquet..."; Print "Success!"], Some df)
          end
      end
  end.

(** The column [c] of [df] holds text. *)
Definition text_column (df : DataFrame) (c : string) : bool :=
  dtype_object (map (get df c) (rows df)).

(** The entry the script writes for the entry [x] of column [c] of [df]. *)
Definition converted_cell (df : DataFrame) (c : string) (x : cell) : cell :=
  if text_column df c then Str (astype_str x) else x.

End ConvertData.

(* ===================================================================== *)
(** * Lists, masks and frames *)
(* ===================================================================== *)

Lemma keep_map {A : Type} (p : A -> bool) (l : list A) :
  keep (map p l) l = filter p l.
Proof.
  induction l as [|x l IH]; simpl; [reflexivity|].
  destruct (p x); now rewrite IH.
Qed.

Lemma mask_or_map {A : Type} (p q : A -> bool) (l : list A) :
  mask_or (map p l) (map q l) = map (fun x => p x || q x) l.
Proof.
  unfold mask_or.
  induction l as [|x l IH]; simpl; [reflexivity|].
  now rewrite IH.
Qed.

Lemma filter_filter {A : Type} (p q : A -> bool) (l : list A) :
  filter q (filter p l) = filter (fun x => p x && q x) l.
Proof.
  induction l as [|x l IH]; simpl; [reflexivity|].
  destruct (p x); simpl; [destruct (q x)|]; now rewrite IH.
Qed.

Lemma filter_true {A : Type} (l : list A) : filter (fun _ => true) l = l.
Proof. induction l as [|x l IH]; simpl; congruence. Qed.

Lemma filter_none {A : Type} (p : A -> bool) (l : list A) :
  (forall x, In x l -> p x = false) -> filter p l = [].
Proof.
  induction l as [|x l IH]; simpl; intros H; [reflexivity|].
  rewrite (H x (or_introl eq_refl)). apply IH. intros y Hy. apply H. now right.
Qed.

Lemma filter_length_le {A : Type} (p : A -> bool) (l : list A) :
  (length (filter p l) <= length l)%nat.
Proof.
  induction l as [|x l IH]; simpl; [lia|].
  destruct (p x); simpl; lia.
Qed.

Lemma keep_length_le {A : Type} (m : Mask) (l : list A) :
  (length (keep m l) <= length l)%nat.
Proof.
  revert l. induction m as [|b m IH]; intros [|x l]; simpl; try lia.
  specialize (IH l). destruct b; simpl; lia.
Qed.

Lemma loc_len_le (df : DataFrame) (m : Mask) : (len (loc df m) <= len df)%nat.
Proof. apply keep_length_le. Qed.

Lemma select_all (df : DataFrame) : select df (fun _ => true) = df.
Proof. destruct df as [cs rs]. unfold select. simpl. now rewrite filter_true. Qed.

Lemma select_select (df : DataFrame) (p q : Row -> bool) :
  select (select df p) q = select df (fun r => p r && q r).
Proof. unfold select. simpl. now rewrite filter_filter. Qed.

Lemma select_ext (df : DataFrame) (p q : Row -> bool) :
  (forall r, p r = q r) -> select df p = select df q.
Proof.
  intros H. unfold select. f_equal. apply filter_ext. exact H.
Qed.

Lemma select_none (df : DataFrame) (p : Row -> bool) :
  (forall r, In r (rows df) -> p r = false) -> select df p = no_rows df.
Proof. intros H. unfold select, no_rows. now rewrite filter_none. Qed.

Lemma select_len_le (df : DataFrame) (p : Row -> bool) : (len (select df p) <= len df)%nat.
Proof. apply filter_length_le. Qed.

Lemma In_select (df : DataFrame) (p : Row -> bool) (r : Row) :
  In r (rows (select df p)) <-> In r (rows df) /\ p r = true.
Proof. unfold select. simpl. apply filter_In. Qed.

(** ** Columns *)

Lemma index_of_In (c : string) (l : list string) :
  (exists i, index_of c l = Some i) <-> In c l.
Proof.
  induction l as [|c' l IH]; simpl.
  - split; [intros [i H]; discriminate | intros []].
  - destruct (String.eqb_spec c' c) as [->|Hne].
    + split; [now left | intros _; now exists O].
    + destruct (index_of c l) as [i|].
      * split; [intros _; right; apply IH; now exists i | intros _; now exists (S i)].
      * split; [intros [i H]; discriminate|].
        intros [H|H]; [congruence|]. apply IH in H. destruct H as [i H]. discriminate.
Qed.

Lemma has_column_In (df : DataFrame) (c : string) :
  has_column df c = true <-> In c (columns df).
Proof.
  unfold has_column. rewrite <- index_of_In.
  destruct (index_of c (columns df)) as [i|].
  - split; [intros _; now exists i | reflexivity].
  - split; [discriminate | intros [i H]; discriminate].
Qed.

Lemma has_columns_In (df : DataFrame) (cs : list string) (c : string) :
  has_columns df cs = true -> In c cs -> has_column df c = true.
Proof.
  unfold has_columns. rewrite forallb_forall. auto.
Qed.

Lemma table_with_column (cs : list string) (df : DataFrame) (c : string) :
  table_with cs df = true -> In c cs -> has_column df c = true.
Proof.
  unfold table_with. intros H Hc. apply andb_true_iff in H as [_ H].
  eapply has_columns_In; eauto.
Qed.

(** [df[c]] on a frame that has the column: the cell under [c] of each row. *)
Lemma getitem_has (df : DataFrame) (c : string) :
  has_column df c = true -> getitem df c = Ret (map (get df c) (rows df)).
Proof.
  unfold has_column, getitem, get.
  destruct (index_of c (columns df)); [reflexivity | discriminate].
Qed.

Lemma getitem_lacks (df : DataFrame) (c : string) :
  has_column df c = false -> getitem df c = Raise (KeyError c).
Proof.
  unfold has_column, getitem.
  destruct (index_of c (columns df)); [discriminate | reflexivity].
Qed.

(** A boolean selection on a column of the frame itself. *)
Lemma loc_series_eq (df : DataFrame) (c : string) (p : cell -> bool) :
  loc df (series_eq p (map (get df c) (rows df))) = select df (fun r => p (get df c r)).
Proof.
  unfold loc, select, series_eq. f_equal.
  rewrite map_map. apply keep_map.
Qed.

Lemma eq_str_true (s : string) (c : cell) : eq_str (Some s) c = true <-> c = Str s.
Proof.
  destruct c; simpl; try (split; [discriminate | intros H; discriminate]).
  rewrite String.eqb_eq. split; [now intros -> | now intros [= ->]].
Qed.

Lemma eq_str_None (c : cell) : eq_str None c = false.
Proof. now destruct c. Qed.

(** [endswith]: the text is a prefix followed by the suffix. *)
Lemma endswith_spec (s t : string) :
  Py.endswith s t = true <-> exists p, s = (p ++ t)%string.
Proof.
  induction s as [|a s IH]; cbn [Py.endswith].
  - rewrite orb_false_r, String.eqb_eq. split.
    + intros <-. now exists "".
    + intros [p H]. destruct p; simpl in H; [congruence | discriminate].
  - rewrite orb_true_iff, String.eqb_eq, IH. split.
    + intros [<-|[p ->]]; [now exists "" | now exists (String a p)].
    + intros [p H]. destruct p as [|b p]; simpl in H; [now left|].
      right. exists p. congruence.
Qed.

Lemma append_empty (s : string) : (s ++ "")%string = s.
Proof. induction s as [|a s IH]; simpl; congruence. Qed.

Lemma endswith_empty (s : string) : Py.endswith s "" = true.
Proof. apply endswith_spec. exists s. now rewrite append_empty. Qed.

Lemma loc_mask (df : DataFrame) (f : Row -> bool) :
  loc df (map f (rows df)) = select df f.
Proof. unfold loc, select. f_equal. apply keep_map. Qed.

Lemma series_eq_get (df : DataFrame) (c : string) (p : cell -> bool) :
  series_eq p (map (get df c) (rows df)) = map (fun r => p (get df c r)) (rows df).
Proof. unfold series_eq. apply map_map. Qed.

(* ===================================================================== *)
(** * The query engine *)
(* ===================================================================== *)

Section QueryEngine.

Context {dates : DateConventions}.

(** ** What each search returns *)

Lemma search_name_spec (name : string) (df : DataFrame) :
  has_column df "name_en" = true ->
  search_name name df = Ret (select df (name_match df name)).
Proof.
  intros H. unfold search_name. rewrite (getitem_has _ _ H). simpl.
  now rewrite loc_series_eq.
Qed.

Lemma search_phone_spec (mobile : string) (df : DataFrame) :
  has_column df "mobile" = true ->
  search_phone mobile df = Ret (select df (phone_match df mobile)).
Proof.
  intros H. unfold search_phone. rewrite (getitem_has _ _ H). simpl.
  now rewrite loc_series_eq.
Qed.

Lemma search_id_spec (_id : string) (df : DataFrame) :
  has_column df "id_number" = true ->
  has_column df "uae_id_number" = true ->
  search_id _id df = Ret (select df (id_match df _id)).
Proof.
  intros H1 H2. unfold search_id.
  rewrite (getitem_has _ _ H1), (getitem_has _ _ H2). simpl.
  rewrite !series_eq_get, mask_or_map. now rewrite loc_mask.
Qed.

Lemma identity_stage_spec (property_name : option string) (df : DataFrame) :
  has_columns df identity_columns = true ->
  identity_stage property_name df = Ret (select df (identity_match df property_name)).
Proof.
  intros H. unfold identity_stage.
  rewrite (getitem_has df "master_project"), (getitem_has df "master_project_land"),
    (getitem_has df "project"), (getitem_has df "project_land"),
    (getitem_has df "building_name_en");
    try (apply (has_columns_In _ _ _ H); simpl; tauto).
  simpl. rewrite !series_eq_get, !mask_or_map. now rewrite loc_mask.
Qed.

(** A column the identity stage reads is missing: [KeyError], whatever the
    rows. *)
Lemma identity_stage_KeyError (property_name : option string) (df : DataFrame) :
  has_columns df identity_columns = false ->
  exists c, In c identity_columns /\ identity_stage property_name df = Raise (KeyError c).
Proof.
  unfold has_columns, identity_columns, identity_stage. simpl.
  destruct (has_column df "master_project") eqn:H1;
    [rewrite (getitem_has _ _ H1) | rewrite (getitem_lacks _ _ H1); eauto 10].
  destruct (has_column df "master_project_land") eqn:H2;
    [rewrite (getitem_has _ _ H2) | rewrite (getitem_lacks _ _ H2); eauto 10].
  destruct (has_column df "project") eqn:H3;
    [rewrite (getitem_has _ _ H3) | rewrite (getitem_lacks _ _ H3); eauto 10].
  destruct (has_column df "project_land") eqn:H4;
    [rewrite (getitem_has _ _ H4) | rewrite (getitem_lacks _ _ H4); eauto 10].
  destruct (has_column df "building_name_en") eqn:H5;
    [discriminate | rewrite (getitem_lacks _ _ H5); simpl; eauto 10].
Qed.

(** ** The refinement filters, one by one *)

Lemma filter_size_sqmt_spec (size_sqmt : option float) (m : DataFrame) :
  has_column m "size_sqmt" = true ->
  filter_size_sqmt size_sqmt m = Ret (select m (size_match m "size_sqmt" size_sqmt)).
Proof.
  intros H. unfold filter_size_sqmt, size_match.
  destruct size_sqmt as [v|]; [destruct (Py.float_truth v)|];
    try now rewrite select_all.
  rewrite (getitem_has _ _ H). simpl. now rewrite loc_series_eq.
Qed.

Lemma filter_size_sqft_spec (size_sqft : option float) (m : DataFrame) :
  has_column m "size_sqft" = true ->
  filter_size_sqft size_sqft m = Ret (select m (size_match m "size_sqft" size_sqft)).
Proof.
  intros H. unfold filter_size_sqft, size_match.
  destruct size_sqft as [v|]; [destruct (Py.float_truth v)|];
    try now rewrite select_all.
  rewrite (getitem_has _ _ H). simpl. now rewrite loc_series_eq.
Qed.

Lemma filter_transaction_date_spec (transaction_date : option datelike)
    (t : option (option Z)) (m : DataFrame) :
  has_column m "reg_date" = true ->
  date_filter transaction_date = Ret t ->
  filter_transaction_date transaction_date m = Ret (select m (date_match m t)).
Proof.
  intros H Ht. unfold filter_transaction_date, date_filter, date_match in *.
  destruct transaction_date as [d|]; [destruct (date_truth d)|];
    try (injection Ht as <-; now rewrite select_all).
  destruct (to_datetime_scalar d) as [t'|e]; simpl in *; [|discriminate].
  injection Ht as <-. rewrite (getitem_has _ _ H). simpl. now rewrite loc_series_eq.
Qed.

(** The value of the date filter is not a date: the search raises, whatever
    the rows. *)
Lemma filter_transaction_date_raises (transaction_date : option datelike)
    (e : exn) (m : DataFrame) :
  date_filter transaction_date = Raise e ->
  filter_transaction_date transaction_date m = Raise e.
Proof.
  unfold filter_transaction_date, date_filter.
  destruct transaction_date as [d|]; [destruct (date_truth d)|]; try discriminate.
  destruct (to_datetime_scalar d); simpl; intros H; [discriminate | congruence].
Qed.

Lemma filter_unit_number_spec (unit_number : option string) (m : DataFrame) :
  has_column m "unit_number" = true ->
  filter_unit_number unit_number m = Ret (select m (unit_match m unit_number)).
Proof.
  intros H. unfold filter_unit_number, unit_match.
  destruct unit_number as [v|]; [destruct (Py.str_truth v)|];
    try now rewrite select_all.
  rewrite (getitem_has _ _ H). simpl.
  unfold str_endswith. rewrite map_map. now rewrite loc_mask.
Qed.

(** Each filter returns some of the rows it was given, in their order. *)
Lemma filter_size_sqmt_narrows (size_sqmt : option float) (m res : DataFrame) :
  filter_size_sqmt size_sqmt m = Ret res -> (len res <= len m)%nat.
Proof.
  unfold filter_size_sqmt.
  destruct size_sqmt as [v|]; [destruct (Py.float_truth v)|];
    try (intros [= <-]; lia).
  destruct (getitem m "size_sqmt"); simpl; [|discriminate].
  intros [= <-]. apply loc_len_le.
Qed.

Lemma filter_size_sqft_narrows (size_sqft : option float) (m res : DataFrame) :
  filter_size_sqft size_sqft m = Ret res -> (len res <= len m)%nat.
Proof.
  unfold filter_size_sqft.
  destruct size_sqft as [v|]; [destruct (Py.float_truth v)|];
    try (intros [= <-]; lia).
  destruct (getitem m "size_sqft"); simpl; [|discriminate].
  intros [= <-]. apply loc_len_le.
Qed.

Lemma filter_transaction_date_narrows (transaction_date : option datelike) (m res : DataFrame) :
  filter_transaction_date transaction_date m = Ret res -> (len res <= len m)%nat.
Proof.
  unfold filter_transaction_date.
  destruct transaction_date as [d|]; [destruct (date_truth d)|];
    try (intros [= <-]; lia).
  destruct (to_datetime_scalar d); simpl; [|discriminate].
  destruct (getitem m "reg_date"); simpl; [|discriminate].
  intros [= <-]. apply loc_len_le.
Qed.

Lemma filter_unit_number_narrows (unit_number : option string) (m res : DataFrame) :
  filter_unit_number unit_number m = Ret res -> (len res <= len m)%nat.
Proof.
  unfold filter_unit_number.
  destruct unit_number as [v|]; [destruct (Py.str_truth v)|];
    try (intros [= <-]; lia).
  destruct (getitem m "unit_number"); simpl; [|discriminate].
  intros [= <-]. apply loc_len_le.
Qed.

Lemma identity_stage_narrows (property_name : option string) (df res : DataFrame) :
  identity_stage property_name df = Ret res -> (len res <= len df)%nat.
Proof.
  unfold identity_stage.
  destruct (getitem df "master_project"); simpl; [|discriminate].
  destruct (getitem df "master_project_land"); simpl; [|discriminate].
  destruct (getitem df "project"); simpl; [|discriminate].
  destruct (getitem df "project_land"); simpl; [|discriminate].
  destruct (getitem df "building_name_en"); simpl; [|discriminate].
  intros [= <-]. apply loc_len_le.
Qed.

(** ** [search_property] as a whole *)

Lemma search_property_spec (property_name : option string) (df : DataFrame)
    (size_sqmt size_sqft : option float) (transaction_date : option datelike)
    (unit_number : option string) (t : option (option Z)) :
  has_columns df property_columns = true ->
  date_filter transaction_date = Ret t ->
  search_property property_name df size_sqmt size_sqft transaction_date unit_number
  = Ret (select df (property_match df property_name size_sqmt size_sqft t unit_number)).
Proof.
  intros H Ht.
  assert (Hc : forall c, In c property_columns -> has_column df c = true)
    by (intros c; apply has_columns_In; exact H).
  unfold search_property.
  rewrite identity_stage_spec
    by (unfold has_columns; apply forallb_forall; intros c Hi; apply Hc; simpl in *; tauto).
  cbn [bind].
  rewrite filter_size_sqmt_spec by (apply Hc; simpl; tauto). cbn [bind].
  rewrite filter_size_sqft_spec by (apply Hc; simpl; tauto). cbn [bind].
  rewrite (filter_transaction_date_spec _ t) by (try apply Hc; simpl; tauto). cbn [bind].
  rewrite filter_unit_number_spec by (apply Hc; simpl; tauto). cbn [bind].
  rewrite !select_select. f_equal. apply select_ext. intros r.
  unfold property_match. rewrite !andb_assoc. reflexivity.
Qed.

End QueryEngine.

(* ===================================================================== *)
(** * The loader *)
(* ===================================================================== *)

(** ** Traversals *)

Lemma traverse_map {A B C : Type} (f : B -> outcome C) (g : A -> B) (l : list A) :
  traverse f (map g l) = traverse (fun x => f (g x)) l.
Proof.
  induction l as [|x l IH]; simpl; [reflexivity|]. now rewrite IH.
Qed.

(** Every element is accepted: the traversal returns their values. *)
Lemma traverse_returns {A B : Type} (d : B) (f : A -> outcome B) (l : list A) :
  (forall x, In x l -> exists y, f x = Ret y) ->
  traverse f l = Ret (map (fun x => value d (f x)) l).
Proof.
  induction l as [|x l IH]; simpl; intros H; [reflexivity|].
  destruct (H x (or_introl eq_refl)) as [y Hy]. rewrite Hy. simpl.
  rewrite IH by (intros z Hz; apply H; now right). reflexivity.
Qed.

Lemma traverse_Ret {A B : Type} (d : B) (f : A -> outcome B) (l : list A) (l' : list B) :
  traverse f l = Ret l' ->
  l' = map (fun x => value d (f x)) l /\ forall x, In x l -> exists y, f x = Ret y.
Proof.
  revert l'. induction l as [|x l IH]; simpl; intros l' H.
  - injection H as <-. split; [reflexivity | intros x []].
  - destruct (f x) as [y|e] eqn:Hx; simpl in H; [|discriminate].
    destruct (traverse f l) as [ys|e]; simpl in H; [|discriminate].
    injection H as <-. destruct (IH ys eq_refl) as [-> Hall]. split; [reflexivity|].
    intros z [<-|Hz]; [now exists y | now apply Hall].
Qed.

Lemma traverse_Raise {A B : Type} (f : A -> outcome B) (l : list A) (e : exn) :
  traverse f l = Raise e -> exists x, In x l /\ f x = Raise e.
Proof.
  induction l as [|x l IH]; simpl; intros H; [discriminate|].
  destruct (f x) as [y|e'] eqn:Hx; simpl in H.
  - destruct (traverse f l) as [ys|e']; simpl in H; [discriminate|].
    injection H as ->. destruct (IH eq_refl) as [z [Hz Hf]]. exists z. now split; [right|].
  - injection H as ->. exists x. now split; [left|].
Qed.

(** One element is refused, and [e] is the only exception [f] raises. *)
Lemma traverse_raises {A B : Type} (f : A -> outcome B) (l : list A) (e : exn) :
  (forall x e', f x = Raise e' -> e' = e) ->
  (exists x, In x l /\ f x = Raise e) ->
  traverse f l = Raise e.
Proof.
  intros Hu. induction l as [|x l IH]; simpl; intros [z [Hz Hf]]; [destruct Hz|].
  destruct (f x) as [y|e'] eqn:Hx; simpl.
  - destruct Hz as [->|Hz]; [congruence|].
    rewrite IH by (exists z; now split). reflexivity.
  - now rewrite (Hu _ _ Hx).
Qed.

(** ** Cells of a row *)

Lemma cell_at_nil (i : nat) : cell_at i [] = NaN.
Proof. unfold cell_at. now destruct i. Qed.

Lemma cell_at_set_cell (i : nat) (v : cell) (r : Row) :
  cell_at i (set_cell i v r) = v.
Proof.
  revert r. induction i as [|i IH]; intros [|x r]; simpl; try reflexivity; apply IH.
Qed.

Lemma cell_at_set_cell_other (i j : nat) (v : cell) (r : Row) :
  i <> j -> cell_at j (set_cell i v r) = cell_at j r.
Proof.
  revert j r. induction i as [|i IH]; intros j r H.
  - destruct j as [|j]; [congruence|].
    destruct r as [|x r]; [|reflexivity].
    unfold cell_at. simpl. now destruct j.
  - destruct j as [|j]; [now destruct r|].
    destruct r as [|x r]; simpl.
    + change (cell_at j (set_cell i v []) = cell_at (S j) []).
      rewrite IH by congruence. now rewrite !cell_at_nil.
    + apply (IH j r). congruence.
Qed.

(** ** Labels and positions *)

Lemma index_of_nth (c : string) (l : list string) (i : nat) :
  index_of c l = Some i -> nth_error l i = Some c.
Proof.
  revert i. induction l as [|c' l IH]; simpl; intros i H; [discriminate|].
  destruct (String.eqb_spec c' c) as [->|Hne].
  - now injection H as <-.
  - destruct (index_of c l) as [j|]; [|discriminate].
    injection H as <-. simpl. now apply IH.
Qed.

Lemma index_of_lt (c : string) (l : list string) (i : nat) :
  index_of c l = Some i -> (i < length l)%nat.
Proof.
  intros H. apply index_of_nth in H. apply nth_error_Some. congruence.
Qed.

Lemma index_of_inj (c c' : string) (l : list string) (i : nat) :
  index_of c l = Some i -> index_of c' l = Some i -> c = c'.
Proof.
  intros H H'. apply index_of_nth in H, H'. congruence.
Qed.

Lemma index_of_app_old (c : string) (l l' : list string) (i : nat) :
  index_of c l = Some i -> index_of c (l ++ l') = Some i.
Proof.
  revert i. induction l as [|x l IH]; simpl; intros i H; [discriminate|].
  destruct (x =? c)%string; [exact H|].
  destruct (index_of c l) as [j|]; [|discriminate].
  now rewrite (IH j eq_refl).
Qed.

Lemma index_of_app_new (c : string) (l : list string) :
  index_of c l = None -> index_of c (l ++ [c]) = Some (length l).
Proof.
  induction l as [|x l IH]; simpl; intros H.
  - now rewrite String.eqb_refl.
  - destruct (x =? c)%string; [discriminate|].
    destruct (index_of c l); [discriminate|]. now rewrite IH.
Qed.

Lemma index_of_app_other (c c' : string) (l : list string) :
  c <> c' -> index_of c l = None -> index_of c (l ++ [c']) = None.
Proof.
  intros Hne. induction l as [|x l IH]; simpl; intros H.
  - destruct (String.eqb_spec c' c); [congruence | reflexivity].
  - destruct (x =? c)%string; [discriminate|].
    destruct (index_of c l); [discriminate|]. now rewrite IH.
Qed.

(** ** Assigning a column *)

Lemma combine_map_r {A B : Type} (h : A -> B) (l : list A) :
  combine l (map h l) = map (fun x => (x, h x)) l.
Proof. induction l as [|x l IH]; simpl; congruence. Qed.

(** [df[c] = s] when [s] was computed from the rows of [df]. *)
Lemma setitem_map (df : DataFrame) (c : string) (h : Row -> cell) :
  setitem df c (map h (rows df))
  = mkFrame (if has_column df c then columns df else columns df ++ [c])
            (map (fun r => set_cell (position df c) (h r) r) (rows df)).
Proof.
  unfold setitem. f_equal. rewrite combine_map_r, map_map. reflexivity.
Qed.

Lemma index_of_setitem (df : DataFrame) (c : string) :
  index_of c (if has_column df c then columns df else columns df ++ [c])
  = Some (position df c).
Proof.
  unfold has_column, position.
  destruct (index_of c (columns df)) as [i|] eqn:H; [exact H|].
  now apply index_of_app_new.
Qed.

Lemma index_of_setitem_other (df : DataFrame) (c c' : string) :
  c' <> c ->
  index_of c' (if has_column df c then columns df else columns df ++ [c])
  = index_of c' (columns df).
Proof.
  intros Hne. destruct (has_column df c); [reflexivity|].
  destruct (index_of c' (columns df)) as [i|] eqn:H.
  - now apply index_of_app_old.
  - now apply index_of_app_other.
Qed.

Lemma position_other (df : DataFrame) (c c' : string) (i : nat) :
  c' <> c -> index_of c' (columns df) = Some i -> position df c <> i.
Proof.
  intros Hne H. unfold position.
  destruct (index_of c (columns df)) as [j|] eqn:Hj.
  - intros ->. apply Hne. eapply index_of_inj; eauto.
  - apply index_of_lt in H. lia.
Qed.

Lemma combine_map_map {A B C : Type} (g : A -> B) (h : A -> C) (l : list A) :
  combine (map g l) (map h l) = map (fun x => (g x, h x)) l.
Proof. induction l as [|x l IH]; simpl; congruence. Qed.

Lemma in_rename_map_values :
  forall src dst, In (src, dst) rename_map -> dst <> "size_sqft".
Proof.
  intros src dst H. unfold rename_map in H. simpl in H.
  repeat (destruct H as [H|H]; [injection H as <- <-; discriminate|]).
  destruct H.
Qed.

Section Loader.

Context {dates : DateConventions}.

Lemma to_datetime_cell_returns (c : cell) :
  unparseable c = false -> to_datetime_cell c = Ret (value NaN (to_datetime_cell c)).
Proof.
  unfold unparseable, to_datetime_cell.
  destruct c as [s|z|f|t]; try reflexivity;
    (destruct (isna _); [reflexivity|]);
    destruct (parse_datetime _); simpl; [reflexivity | discriminate | reflexivity | discriminate
                                        | reflexivity | discriminate].
Qed.

Lemma to_datetime_cell_raises (c : cell) :
  unparseable c = true <-> to_datetime_cell c = Raise ValueError.
Proof.
  unfold unparseable, to_datetime_cell.
  destruct c as [s|z|f|t]; try (split; discriminate);
    (destruct (isna _); [split; discriminate|]);
    destruct (parse_datetime _); simpl; split; try discriminate; reflexivity.
Qed.

Lemma to_datetime_cell_ValueError (c : cell) (e : exn) :
  to_datetime_cell c = Raise e -> e = ValueError.
Proof.
  unfold to_datetime_cell.
  destruct c as [s|z|f|t]; try discriminate;
    (destruct (isna _); [discriminate|]);
    destruct (parse_datetime _); congruence.
Qed.

Lemma unparseable_iff (c : cell) :
  unparseable c = false <-> exists y, to_datetime_cell c = Ret y.
Proof.
  split.
  - intros H. eexists. now apply to_datetime_cell_returns.
  - intros [y H]. destruct (unparseable c) eqn:Hu; [|reflexivity].
    apply to_datetime_cell_raises in Hu. congruence.
Qed.

Lemma sqft_of_returns (c : cell) :
  numeric c = true -> sqft_of c = Ret (value NaN (sqft_of c)).
Proof.
  unfold numeric, sqft_of. destruct (number c); [reflexivity | discriminate].
Qed.

Lemma numeric_iff (c : cell) :
  numeric c = true <-> exists y, sqft_of c = Ret y.
Proof.
  split.
  - intros H. eexists. now apply sqft_of_returns.
  - intros [y H]. unfold numeric, sqft_of in *. destruct (number c); [reflexivity | discriminate].
Qed.

Lemma sqft_of_TypeError (c : cell) (e : exn) :
  sqft_of c = Raise e -> e = TypeError /\ numeric c = false.
Proof.
  unfold sqft_of, numeric. destruct (number c); [discriminate|].
  intros [= <-]. now split.
Qed.

Lemma get_with_dates (df : DataFrame) (c : string) (r : Row) :
  c <> "reg_date" ->
  get (with_dates df) c (set_cell (position df "reg_date") (reg_date_of df r) r) = get df c r.
Proof.
  intros Hne. unfold get, with_dates. simpl.
  destruct (index_of c (columns df)) as [i|] eqn:Hi; [|reflexivity].
  apply cell_at_set_cell_other. now apply (position_other df "reg_date" c i).
Qed.

(** The loader on a frame it accepts. *)
Lemma load_Ret (raw : DataFrame) :
  loadable raw = true ->
  load_and_clean_data (Ret raw) = Ret (Some (normalized raw)).
Proof.
  unfold loadable. cbn zeta. set (df := rename rename_map raw).
  intros H. apply andb_true_iff in H as [H Hnum]. apply andb_true_iff in H as [H Hsize].
  apply andb_true_iff in H as [Hreg Hdates].
  rewrite forallb_forall in Hdates, Hnum.
  unfold load_and_clean_data. fold df.
  rewrite (getitem_has _ _ Hreg). cbn [bind].
  unfold to_datetime. rewrite traverse_map.
  rewrite (traverse_returns NaN)
    by (intros r Hr; apply unparseable_iff, negb_true_iff, Hdates; exact Hr).
  cbn [bind].
  change (map (fun x => value NaN (to_datetime_cell (get df "reg_date" x))) (rows df))
    with (map (reg_date_of df) (rows df)).
  rewrite setitem_map, Hreg. fold (with_dates df).
  assert (Hsize' : has_column (with_dates df) "size_sqmt" = true) by exact Hsize.
  rewrite (getitem_has _ _ Hsize'). cbn [bind].
  unfold with_dates at 2. cbn [rows]. rewrite map_map.
  rewrite traverse_map.
  rewrite (traverse_returns NaN).
  2:{ intros r Hr. rewrite get_with_dates by discriminate.
      apply numeric_iff, Hnum. exact Hr. }
  cbn [bind]. unfold setitem. f_equal. f_equal.
  unfold normalized. fold df. f_equal.
  change (rows (with_dates df))
    with (map (fun r => set_cell (position df "reg_date") (reg_date_of df r) r) (rows df)).
  rewrite combine_map_map, map_map. apply map_ext_in. intros r Hr.
  cbn [fst snd]. rewrite get_with_dates by discriminate.
  reflexivity.
Qed.

Lemma forallb_negb_existsb {A : Type} (p : A -> bool) (l : list A) :
  forallb (fun x => negb (p x)) l = negb (existsb p l).
Proof.
  induction l as [|x l IH]; simpl; [reflexivity|].
  rewrite IH. now destruct (p x).
Qed.

(** The loader on every frame: the first of its steps that fails decides. *)
Lemma load_frame (raw : DataFrame) :
  load_and_clean_data (Ret raw) =
  let df := rename rename_map raw in
  if negb (has_column df "reg_date") then Raise (KeyError "reg_date")
  else if existsb (fun r => unparseable (get df "reg_date" r)) (rows raw)
  then Raise ValueError
  else if negb (has_column df "size_sqmt") then Raise (KeyError "size_sqmt")
  else if existsb (fun r => negb (numeric (get df "size_sqmt" r))) (rows raw)
  then Raise TypeError
  else Ret (Some (normalized raw)).
Proof.
  cbn zeta. set (df := rename rename_map raw).
  destruct (has_column df "reg_date") eqn:Hreg; cbn [negb].
  2:{ unfold load_and_clean_data. fold df. now rewrite (getitem_lacks _ _ Hreg). }
  destruct (existsb (fun r => unparseable (get df "reg_date" r)) (rows raw)) eqn:Hdates.
  { unfold load_and_clean_data. fold df. rewrite (getitem_has _ _ Hreg). cbn [bind].
    unfold to_datetime. rewrite traverse_map.
    rewrite (traverse_raises _ _ ValueError); [reflexivity | |].
    - intros r e. apply to_datetime_cell_ValueError.
    - apply existsb_exists in Hdates as [r [Hr Hu]]. exists r. split; [exact Hr|].
      now apply to_datetime_cell_raises. }
  destruct (has_column df "size_sqmt") eqn:Hsize; cbn [negb].
  2:{ unfold load_and_clean_data. fold df. rewrite (getitem_has _ _ Hreg). cbn [bind].
      unfold to_datetime. rewrite traverse_map.
      rewrite (traverse_returns NaN).
      2:{ intros r Hr. apply unparseable_iff.
          destruct (unparseable (get df "reg_date" r)) eqn:Hu; [|reflexivity].
          assert (existsb (fun r => unparseable (get df "reg_date" r)) (rows raw) = true)
            by (apply existsb_exists; eauto).
          congruence. }
      cbn [bind].
      change (map (fun x => value NaN (to_datetime_cell (get df "reg_date" x))) (rows df))
        with (map (reg_date_of df) (rows df)).
      rewrite setitem_map, Hreg. fold (with_dates df).
      assert (Hsize' : has_column (with_dates df) "size_sqmt" = false) by exact Hsize.
      now rewrite (getitem_lacks _ _ Hsize'). }
  destruct (existsb (fun r => negb (numeric (get df "size_sqmt" r))) (rows raw)) eqn:Hnum.
  2:{ apply load_Ret. unfold loadable. cbn zeta. fold df.
      rewrite Hreg, Hsize, forallb_negb_existsb, Hdates. cbn [negb andb].
      apply forallb_forall. intros r Hr.
      destruct (numeric (get df "size_sqmt" r)) eqn:Hn; [reflexivity|].
      assert (existsb (fun r => negb (numeric (get df "size_sqmt" r))) (rows raw) = true)
        by (apply existsb_exists; exists r; now rewrite Hn).
      congruence. }
  unfold load_and_clean_data. fold df. rewrite (getitem_has _ _ Hreg). cbn [bind].
  unfold to_datetime. rewrite traverse_map.
  rewrite (traverse_returns NaN).
  2:{ intros r Hr. apply unparseable_iff.
      destruct (unparseable (get df "reg_date" r)) eqn:Hu; [|reflexivity].
      assert (existsb (fun r => unparseable (get df "reg_date" r)) (rows raw) = true)
        by (apply existsb_exists; eauto).
      congruence. }
  cbn [bind].
  change (map (fun x => value NaN (to_datetime_cell (get df "reg_date" x))) (rows df))
    with (map (reg_date_of df) (rows df)).
  rewrite setitem_map, Hreg. fold (with_dates df).
  assert (Hsize' : has_column (with_dates df) "size_sqmt" = true) by exact Hsize.
  rewrite (getitem_has _ _ Hsize'). cbn [bind].
  unfold with_dates at 2. cbn [rows]. rewrite map_map, traverse_map.
  rewrite (traverse_raises _ _ TypeError); [reflexivity | |].
  - intros r e H. now apply sqft_of_TypeError in H.
  - apply existsb_exists in Hnum as [r [Hr Hn]]. exists r. split; [exact Hr|].
    rewrite get_with_dates by discriminate.
    unfold sqft_of, numeric in *. destruct (number (get df "size_sqmt" r)); [discriminate|].
    reflexivity.
Qed.

End Loader.

(** ** The labels of the canonical table *)

Lemma distinct_NoDup (l : list string) : distinct l = true -> NoDup l.
Proof.
  induction l as [|c l IH]; simpl; intros H; constructor.
  - apply andb_true_iff in H as [H _]. apply negb_true_iff in H.
    intros Hin. assert (existsb (String.eqb c) l = true); [|congruence].
    apply existsb_exists. exists c. split; [exact Hin | apply String.eqb_refl].
  - apply IH. now apply andb_true_iff in H as [_ H].
Qed.

Lemma lookup_In (m : list (string * string)) (c v : string) :
  lookup m c = Some v -> In (c, v) m.
Proof.
  induction m as [|[k w] m IH]; simpl; intros H; [discriminate|].
  destruct (String.eqb_spec k c) as [->|Hne].
  - injection H as ->. now left.
  - right. now apply IH.
Qed.

Lemma values_inj (m : list (string * string)) (a b v : string) :
  NoDup (map snd m) -> In (a, v) m -> In (b, v) m -> a = b.
Proof.
  induction m as [|[k w] m IH]; simpl; intros Hnd Ha Hb; [destruct Ha|].
  inversion Hnd as [|? ? Hw Hnd']; subst.
  destruct Ha as [Ha|Ha], Hb as [Hb|Hb].
  - congruence.
  - injection Ha as -> ->. exfalso. apply Hw.
    change v with (snd (b, v)). now apply in_map.
  - injection Hb as -> ->. exfalso. apply Hw.
    change v with (snd (a, v)). now apply in_map.
  - now apply IH.
Qed.

(** A canonical name comes from its source header, or was already the
    header. *)
Lemma renamed_canonical (src dst c : string) :
  In (src, dst) rename_map -> renamed rename_map c = dst -> c = src \/ c = dst.
Proof.
  intros Hin. unfold renamed.
  destruct (lookup rename_map c) as [v|] eqn:Hl; intros <-; [left | now right].
  apply lookup_In in Hl.
  apply (values_inj rename_map c src v); [|exact Hl | exact Hin].
  apply distinct_NoDup. reflexivity.
Qed.

(* ===================================================================== *)
(** * Properties of the query engine *)
(* ===================================================================== *)

Lemma identity_match_iff (df : DataFrame) (name : string) (r : Row) :
  identity_match df (Some name) r = true <->
  get df "master_project" r = Str name \/ get df "master_project_land" r = Str name \/
  get df "project" r = Str name \/ get df "project_land" r = Str name \/
  get df "building_name_en" r = Str name.
Proof.
  unfold identity_match. rewrite !orb_true_iff, !eq_str_true. tauto.
Qed.

Lemma identity_match_None (df : DataFrame) (r : Row) : identity_match df None r = false.
Proof. unfold identity_match. now rewrite !eq_str_None. Qed.

Lemma id_match_iff (df : DataFrame) (key : string) (r : Row) :
  id_match df key r = true <->
  get df "id_number" r = Str key \/ get df "uae_id_number" r = Str key.
Proof. unfold id_match. now rewrite orb_true_iff, !eq_str_true. Qed.

Section EngineProperties.

Context {dates : DateConventions}.

(** C1. On a table that has the five identity columns, the identity stage
    of [search_property] (which is all of the search when no filter is
    given) returns exactly the rows in which the name equals
    [master_project], [master_project_land], [project], [project_land] or
    [building_name_en]; a row whose [building_no] is the name while none of
    the five is, is not returned. *)
Theorem identity_stage_five_columns (df : DataFrame) (name : string) :
  table_with identity_columns df = true ->
  identity_stage (Some name) df = Ret (select df (identity_match df (Some name)))
  /\ search_property (Some name) df None None None None
     = Ret (select df (identity_match df (Some name)))
  /\ (forall r,
        In r (rows (select df (identity_match df (Some name)))) <->
        In r (rows df) /\
        (get df "master_project" r = Str name \/ get df "master_project_land" r = Str name \/
         get df "project" r = Str name \/ get df "project_land" r = Str name \/
         get df "building_name_en" r = Str name))
  /\ (forall r,
        get df "building_no" r = Str name ->
        get df "master_project" r <> Str name ->
        get df "master_project_land" r <> Str name ->
        get df "project" r <> Str name ->
        get df "project_land" r <> Str name ->
        get df "building_name_en" r <> Str name ->
        ~ In r (rows (select df (identity_match df (Some name))))).
Proof.
  intros H. apply andb_true_iff in H as [_ H].
  assert (Hid := identity_stage_spec (Some name) df H).
  split; [exact Hid|]. split; [|split].
  - unfold search_property. now rewrite Hid.
  - intros r. now rewrite In_select, identity_match_iff.
  - intros r _ H1 H2 H3 H4 H5 Hin.
    apply In_select in Hin as [_ Hm]. apply identity_match_iff in Hm. tauto.
Qed.

(** C5. On a table that has the two ID columns, [search_id] returns exactly
    the rows in which [id_number] or [uae_id_number] equals the key: a row
    with [id_number] X and [uae_id_number] Y matches X, matches Y, and
    matches no other key Z. *)
Theorem search_id_either_column (df : DataFrame) (key : string) :
  table_with ["id_number"; "uae_id_number"] df = true ->
  search_id key df = Ret (select df (id_match df key))
  /\ (forall r,
        In r (rows (select df (id_match df key))) <->
        In r (rows df) /\
        (get df "id_number" r = Str key \/ get df "uae_id_number" r = Str key))
  /\ (forall r x y z,
        get df "id_number" r = Str x -> get df "uae_id_number" r = Str y ->
        z <> x -> z <> y ->
        id_match df x r = true /\ id_match df y r = true /\ id_match df z r = false).
Proof.
  intros H.
  assert (H1 := table_with_column _ _ "id_number" H (or_introl eq_refl)).
  assert (H2 := table_with_column _ _ "uae_id_number" H (or_intror (or_introl eq_refl))).
  split; [now apply search_id_spec|]. split.
  - intros r. now rewrite In_select, id_match_iff.
  - intros r x y z Hx Hy Hzx Hzy. repeat split.
    + apply id_match_iff. now left.
    + apply id_match_iff. now right.
    + destruct (id_match df z r) eqn:Hz; [|reflexivity].
      apply id_match_iff in Hz. rewrite Hx, Hy in Hz. destruct Hz; congruence.
Qed.

(** C9. A search whose key no row matches returns the columns of the
    table with no row: none of [search_name], [search_id], [search_phone]
    and [search_property] raises for want of a match, on any table that has
    the columns the search reads, and the page then shows a notice, not an
    error.  (For [search_property] the key is well formed when the value of
    its date filter is a date.) *)
Theorem no_match_is_empty (df : DataFrame) :
  unique_columns df = true ->
  (forall name,
     has_column df "name_en" = true ->
     (forall r, In r (rows df) -> name_match df name r = false) ->
     search_name name df = Ret (no_rows df))
  /\ (forall key,
        has_columns df ["id_number"; "uae_id_number"] = true ->
        (forall r, In r (rows df) -> id_match df key r = false) ->
        search_id key df = Ret (no_rows df))
  /\ (forall mobile,
        has_column df "mobile" = true ->
        (forall r, In r (rows df) -> phone_match df mobile r = false) ->
        search_phone mobile df = Ret (no_rows df))
  /\ (forall name size_sqmt size_sqft transaction_date unit_number t,
        has_columns df property_columns = true ->
        date_filter transaction_date = Ret t ->
        (forall r, In r (rows df) ->
                   property_match df name size_sqmt size_sqft t unit_number r = false) ->
        search_property name df size_sqmt size_sqft transaction_date unit_number
        = Ret (no_rows df))
  /\ display (no_rows df) = [StInfo "No matching records found."].
Proof.
  intros _. repeat split.
  - intros name Hc Hn. rewrite search_name_spec by exact Hc.
    now rewrite select_none.
  - intros key Hc Hn.
    rewrite search_id_spec by (apply (has_columns_In _ _ _ Hc); simpl; tauto).
    now rewrite select_none.
  - intros mobile Hc Hn. rewrite search_phone_spec by exact Hc.
    now rewrite select_none.
  - intros name sqmt sqft date unit t Hc Ht Hn.
    rewrite (search_property_spec _ _ _ _ _ _ t Hc Ht). now rewrite select_none.
Qed.

(** C6. On a table that has the columns of the property search, and for a
    date filter whose value is a date, [search_property] runs its five
    stages in turn, each on the result of the one before, and no stage
    returns more rows than it was given. *)
Theorem refinement_narrows (df : DataFrame) (property_name : option string)
    (size_sqmt size_sqft : option float) (transaction_date : option datelike)
    (unit_number : option string) (t : option (option Z)) :
  table_with property_columns df = true ->
  date_filter transaction_date = Ret t ->
  exists m0 m1 m2 m3 m4,
    identity_stage property_name df = Ret m0
    /\ filter_size_sqmt size_sqmt m0 = Ret m1
    /\ filter_size_sqft size_sqft m1 = Ret m2
    /\ filter_transaction_date transaction_date m2 = Ret m3
    /\ filter_unit_number unit_number m3 = Ret m4
    /\ search_property property_name df size_sqmt size_sqft transaction_date unit_number
       = Ret m4
    /\ (len m0 <= len df)%nat
    /\ (len m1 <= len m0)%nat
    /\ (len m2 <= len m1)%nat
    /\ (len m3 <= len m2)%nat
    /\ (len m4 <= len m3)%nat.
Proof.
  intros H Ht.
  assert (Hc : forall c, In c property_columns -> has_column df c = true)
    by (intros c; apply table_with_column; exact H).
  assert (H0 : identity_stage property_name df
               = Ret (select df (identity_match df property_name))).
  { apply identity_stage_spec. unfold has_columns. apply forallb_forall.
    intros c Hi. apply Hc. simpl in *. tauto. }
  set (m0 := select df (identity_match df property_name)) in *.
  assert (H1 := filter_size_sqmt_spec size_sqmt m0 (Hc "size_sqmt" ltac:(simpl; tauto))).
  set (m1 := select m0 _) in H1.
  assert (H2 := filter_size_sqft_spec size_sqft m1 (Hc "size_sqft" ltac:(simpl; tauto))).
  set (m2 := select m1 _) in H2.
  assert (H3 := filter_transaction_date_spec transaction_date t m2
                  (Hc "reg_date" ltac:(simpl; tauto)) Ht).
  set (m3 := select m2 _) in H3.
  assert (H4 := filter_unit_number_spec unit_number m3 (Hc "unit_number" ltac:(simpl; tauto))).
  set (m4 := select m3 _) in H4.
  exists m0, m1, m2, m3, m4.
  repeat (split; [assumption|]).
  split.
  - unfold search_property. rewrite H0. cbn [bind]. rewrite H1. cbn [bind].
    rewrite H2. cbn [bind]. rewrite H3. cbn [bind]. now rewrite H4.
  - repeat split; apply select_len_le.
Qed.

End EngineProperties.

Section UnitFilter.

Context {dates : DateConventions}.

Lemma unit_ends_with_iff (m : DataFrame) (v : string) (r : Row) :
  unit_ends_with m v r = true <->
  exists p, astype_str (get m "unit_number" r) = (p ++ v)%string.
Proof. apply endswith_spec. Qed.

(** The suffix test of the unit filter.  On a table that has the
    [unit_number] column, the unit filter with a value [v] returns, without
    raising, the rows for which the text [astype(str)] makes of the
    [unit_number] ends with [v]; a row whose [unit_number] is the text
    A-3-0601 is kept for 01 and for 0601, and is dropped for 06 and for
    601A.  What this test does with a row that has no unit number is
    stated with the properties on the sample file. *)
Theorem unit_number_suffix (m : DataFrame) (v : string) :
  table_with ["unit_number"] m = true ->
  filter_unit_number (Some v) m = Ret (select m (unit_ends_with m v))
  /\ (forall r,
        In r (rows (select m (unit_ends_with m v))) <->
        In r (rows m) /\ exists p, astype_str (get m "unit_number" r) = (p ++ v)%string)
  /\ (forall r,
        get m "unit_number" r = Str "A-3-0601" ->
        unit_ends_with m "01" r = true /\ unit_ends_with m "0601" r = true
        /\ unit_ends_with m "06" r = false /\ unit_ends_with m "601A" r = false).
Proof.
  intros H.
  assert (Hu := table_with_column _ _ "unit_number" H (or_introl eq_refl)).
  split; [|split].
  - rewrite (filter_unit_number_spec _ _ Hu). f_equal.
    unfold unit_match. destruct (Py.str_truth v) eqn:Hv; [reflexivity|].
    destruct v; [|discriminate]. apply select_ext. intros r.
    unfold unit_ends_with. now rewrite endswith_empty.
  - intros r. now rewrite In_select, unit_ends_with_iff.
  - intros r Hr. unfold unit_ends_with. rewrite Hr. simpl. repeat split.
Qed.

End UnitFilter.

Section NoName.

Context {dates : DateConventions}.

(** C10, as the code has it.  On a table that has the columns of the
    property search, and for a date filter whose value is a date,
    [search_property] without a name ([None]) returns no row, whatever the
    filters: its identity stage matches nothing.  With the empty text as the
    name it returns no row either, provided no row holds the empty text in
    one of the five identity columns. *)
Theorem no_property_name (df : DataFrame) (size_sqmt size_sqft : option float)
    (transaction_date : option datelike) (unit_number : option string)
    (t : option (option Z)) :
  table_with property_columns df = true ->
  date_filter transaction_date = Ret t ->
  identity_stage None df = Ret (no_rows df)
  /\ search_property None df size_sqmt size_sqft transaction_date unit_number
     = Ret (no_rows df)
  /\ ((forall r c, In r (rows df) -> In c identity_columns -> get df c r <> Str "") ->
      search_property (Some "") df size_sqmt size_sqft transaction_date unit_number
      = Ret (no_rows df)).
Proof.
  intros H Ht. apply andb_true_iff in H as [_ H].
  assert (Hid : has_columns df identity_columns = true).
  { unfold has_columns in *. rewrite forallb_forall in *. intros c Hc. apply H.
    unfold property_columns. apply in_or_app. now left. }
  split; [|split].
  - rewrite (identity_stage_spec _ _ Hid). f_equal. apply select_none.
    intros r _. apply identity_match_None.
  - rewrite (search_property_spec _ _ _ _ _ _ t H Ht). f_equal. apply select_none.
    intros r _. unfold property_match. now rewrite identity_match_None.
  - intros Hblank.
    rewrite (search_property_spec _ _ _ _ _ _ t H Ht). f_equal. apply select_none.
    intros r Hr. unfold property_match.
    destruct (identity_match df (Some "") r) eqn:Hm; [|reflexivity].
    apply identity_match_iff in Hm. exfalso.
    destruct Hm as [Hm|[Hm|[Hm|[Hm|Hm]]]];
      (eapply Hblank; [exact Hr | | exact Hm]); simpl; tauto.
Qed.

End NoName.

(* ===================================================================== *)
(** * Properties of the loader *)
(* ===================================================================== *)

Section LoaderProperties.

Context {dates : DateConventions}.

(** The loader returns a table exactly on the frames it accepts, and then
    the table is [normalized raw]. *)
Lemma load_Some (raw df : DataFrame) :
  load_and_clean_data (Ret raw) = Ret (Some df) ->
  loadable raw = true /\ df = normalized raw.
Proof.
  rewrite load_frame. cbn zeta. unfold loadable. cbn zeta.
  rewrite forallb_negb_existsb.
  destruct (has_column (rename rename_map raw) "reg_date"); cbn [negb andb]; [|discriminate].
  destruct (existsb _ (rows raw)); cbn [negb andb]; [discriminate|].
  destruct (has_column (rename rename_map raw) "size_sqmt"); cbn [negb andb]; [|discriminate].
  destruct (existsb _ (rows raw)) eqn:Hn; [discriminate|].
  intros [= <-]. split; [|reflexivity].
  apply forallb_forall. intros r Hr.
  destruct (numeric (get (rename rename_map raw) "size_sqmt" r)) eqn:Hr'; [reflexivity|].
  assert (existsb (fun r => negb (numeric (get (rename rename_map raw) "size_sqmt" r)))
            (rows raw) = true)
    by (apply existsb_exists; exists r; now rewrite Hr').
  congruence.
Qed.

Lemma load_never_None (raw : DataFrame) : load_and_clean_data (Ret raw) <> Ret None.
Proof.
  rewrite load_frame. cbn zeta.
  repeat match goal with |- context [if ?b then _ else _] => destruct b end; discriminate.
Qed.

Lemma loadable_columns (raw : DataFrame) :
  loadable raw = true ->
  has_column (rename rename_map raw) "reg_date" = true
  /\ has_column (rename rename_map raw) "size_sqmt" = true
  /\ forall r, In r (rows raw) -> numeric (get (rename rename_map raw) "size_sqmt" r) = true.
Proof.
  unfold loadable. cbn zeta. intros H.
  apply andb_true_iff in H as [H Hnum]. apply andb_true_iff in H as [H Hsize].
  apply andb_true_iff in H as [Hreg _]. rewrite forallb_forall in Hnum. auto.
Qed.

(** The cells of a row of the canonical table. *)
Lemma get_normalized_size_sqft (raw : DataFrame) (r : Row) :
  get (normalized raw) "size_sqft" (normalize_row (rename rename_map raw) r)
  = size_sqft_of (rename rename_map raw) r.
Proof.
  unfold get, normalized. cbn [columns]. rewrite index_of_setitem.
  unfold normalize_row. apply cell_at_set_cell.
Qed.

Lemma get_normalized_other (raw : DataFrame) (c : string) (r : Row) :
  c <> "size_sqft" -> c <> "reg_date" ->
  get (normalized raw) c (normalize_row (rename rename_map raw) r)
  = get (rename rename_map raw) c r.
Proof.
  intros H1 H2. unfold get, normalized. cbn [columns].
  rewrite index_of_setitem_other by exact H1.
  destruct (index_of c (columns (rename rename_map raw))) as [i|] eqn:Hi; [|reflexivity].
  unfold normalize_row.
  rewrite cell_at_set_cell_other by (now apply (position_other _ "size_sqft" c i)).
  apply cell_at_set_cell_other. now apply (position_other _ "reg_date" c i).
Qed.

(** C4. In the table the loader returns, [size_sqft] is
    [round(size_sqmt * 10.76391, 2)] in every row; each row of the table is
    computed from the row of the file at its place ([normalize_row]), and
    from no other row.  The loader returns a table exactly on the files it
    accepts ([loadable]). *)
Theorem size_sqft_derived (raw : DataFrame) :
  unique_columns (rename rename_map raw) = true ->
  (loadable raw = true <-> exists df, load_and_clean_data (Ret raw) = Ret (Some df))
  /\ forall df,
       load_and_clean_data (Ret raw) = Ret (Some df) ->
       rows df = map (normalize_row (rename rename_map raw)) (rows raw)
       /\ forall r, In r (rows df) ->
            exists x, number (get df "size_sqmt" r) = Some x
                      /\ get df "size_sqft" r = Float (Py.round2 (x * 10.76391)%float).
Proof.
  intros _. split.
  - split.
    + intros Hl. exists (normalized raw). now apply load_Ret.
    + intros [df H]. now apply load_Some in H.
  - intros df H. apply load_Some in H as [Hl ->].
    split; [reflexivity|].
    intros r Hr. unfold normalized in Hr. cbn [rows] in Hr.
    apply in_map_iff in Hr as [r0 [<- Hr0]].
    rewrite get_normalized_size_sqft, get_normalized_other by discriminate.
    apply loadable_columns in Hl as [_ [_ Hnum]]. specialize (Hnum r0 Hr0).
    unfold size_sqft_of, sqft_of, numeric in *.
    destruct (number (get (rename rename_map raw) "size_sqmt" r0)) as [x|]; [|discriminate].
    exists x. split; reflexivity.
Qed.

Lemma has_column_renamed (raw : DataFrame) (src dst : string) :
  In (src, dst) rename_map ->
  has_column (rename rename_map raw) dst = true ->
  In src (columns raw) \/ In dst (columns raw).
Proof.
  intros Hin H. apply has_column_In in H. unfold rename in H. cbn [columns] in H.
  apply in_map_iff in H as [c [Hc Hi]].
  destruct (renamed_canonical src dst c Hin Hc) as [->| ->]; auto.
Qed.

(** C7, as the code has it.  The loader needs the date column and the size
    column, and no other: on a file whose dates are dates and whose sizes
    are numbers it returns a table, whose columns are the columns of the file
    under their canonical names and [size_sqft], so that the canonical name
    of a header the file lacks is not among them; on a file without the date
    column it raises [KeyError('reg_date')], on one without the size column
    [KeyError('size_sqmt')]. *)
Theorem missing_columns_tolerated (raw : DataFrame) :
  unique_columns (rename rename_map raw) = true ->
  (loadable raw = true ->
   exists df,
     load_and_clean_data (Ret raw) = Ret (Some df)
     /\ (forall c, In c (columns df) <->
                   In c (map (renamed rename_map) (columns raw)) \/ c = "size_sqft")
     /\ (forall src dst,
           In (src, dst) rename_map ->
           ~ In src (columns raw) -> ~ In dst (columns raw) -> ~ In dst (columns df)))
  /\ (~ In "Regis" (columns raw) -> ~ In "reg_date" (columns raw) ->
      load_and_clean_data (Ret raw) = Raise (KeyError "reg_date"))
  /\ (dates_ok raw = true ->
      ~ In "Size" (columns raw) -> ~ In "size_sqmt" (columns raw) ->
      load_and_clean_data (Ret raw) = Raise (KeyError "size_sqmt")).
Proof.
  intros _. split; [|split].
  - intros Hl. exists (normalized raw). split; [now apply load_Ret|].
    assert (Hcols : forall c, In c (columns (normalized raw)) <->
                              In c (map (renamed rename_map) (columns raw)) \/ c = "size_sqft").
    { intros c. unfold normalized. cbn [columns].
      destruct (has_column (rename rename_map raw) "size_sqft") eqn:Hs.
      - split; [now left|]. intros [H| ->]; [exact H|]. now apply has_column_In in Hs.
      - rewrite in_app_iff. simpl. intuition congruence. }
    split; [exact Hcols|].
    intros src dst Hin Hsrc Hdst Hc. apply Hcols in Hc as [Hc|Hc].
    + apply in_map_iff in Hc as [c [Hc Hi]].
      destruct (renamed_canonical src dst c Hin Hc) as [->| ->]; contradiction.
    + now apply (in_rename_map_values src dst).
  - intros H1 H2. rewrite load_frame. cbn zeta.
    destruct (has_column (rename rename_map raw) "reg_date") eqn:Hreg; [|reflexivity].
    apply (has_column_renamed raw "Regis") in Hreg; [tauto | simpl; tauto].
  - intros Hd H1 H2. rewrite load_frame. cbn zeta.
    unfold dates_ok in Hd. cbn zeta in Hd. apply andb_true_iff in Hd as [Hreg Hd].
    rewrite forallb_negb_existsb in Hd. apply negb_true_iff in Hd.
    rewrite Hreg, Hd. cbn [negb].
    destruct (has_column (rename rename_map raw) "size_sqmt") eqn:Hsize; [|reflexivity].
    apply (has_column_renamed raw "Size") in Hsize; [tauto | simpl; tauto].
Qed.

(** C8, as the code has it.  The loader signals that there is no data by
    returning [None], and does so exactly when [pd.read_csv] raises
    [FileNotFoundError]; any other exception of [pd.read_csv] goes on to the
    caller.  On a file that was read it raises the [ValueError] of
    [pd.to_datetime] exactly when the date column holds an entry that is not
    a date.  The two signals differ, neither comes with a table, and in both
    cases [main] stops before any search: it shows the error message, or
    ends with the exception, whatever the widgets say. *)
Theorem load_errors (read_csv : outcome DataFrame) :
  (load_and_clean_data read_csv = Ret None <-> read_csv = Raise FileNotFoundError)
  /\ (forall e, read_csv = Raise e -> e <> FileNotFoundError ->
                load_and_clean_data read_csv = Raise e)
  /\ (forall raw,
        read_csv = Ret raw ->
        unique_columns (rename rename_map raw) = true ->
        (load_and_clean_data read_csv = Raise ValueError <->
         has_column (rename rename_map raw) "reg_date" = true /\
         exists r, In r (rows raw) /\
                   unparseable (get (rename rename_map raw) "reg_date" r) = true))
  /\ @Ret (option DataFrame) None <> Raise ValueError
  /\ (load_and_clean_data read_csv = Ret None \/
      load_and_clean_data read_csv = Raise ValueError ->
      forall df, load_and_clean_data read_csv <> Ret (Some df))
  /\ (load_and_clean_data read_csv = Ret None ->
      forall ui,
        main read_csv ui
        = Ret [StError "Could not load data. Please ensure 'data/cleaned_data/uae_realestate_old_cleaned.csv' exists."])
  /\ (forall e, load_and_clean_data read_csv = Raise e ->
                forall ui, main read_csv ui = Raise e).
Proof.
  split; [|split; [|split; [|split; [|split; [|split]]]]].
  - split.
    + destruct read_csv as [raw|e].
      * intros H. now apply load_never_None in H.
      * destruct e; simpl; intros H; try discriminate. reflexivity.
    + now intros ->.
  - intros e -> He. destruct e; try reflexivity. congruence.
  - intros raw -> _. rewrite load_frame. cbn zeta.
    destruct (has_column (rename rename_map raw) "reg_date"); cbn [negb].
    2:{ split; [discriminate | intros [H _]; discriminate]. }
    destruct (existsb _ (rows raw)) eqn:He.
    + split; [|reflexivity]. intros _. split; [reflexivity|].
      apply existsb_exists in He. exact He.
    + split.
      * repeat match goal with |- context [if ?b then _ else _] => destruct b end;
          discriminate.
      * intros [_ Hex]. apply existsb_exists in Hex. congruence.
  - discriminate.
  - intros [H|H] df; rewrite H; discriminate.
  - intros H ui. unfold main. now rewrite H.
  - intros e H ui. unfold main. now rewrite H.
Qed.

End LoaderProperties.

(* ===================================================================== *)
(** * The properties on the sample file *)
(* ===================================================================== *)

#[local] Existing Instance Iso.conventions.

(** [Hr : In r (rows Sample.table)]: one case for each row of the sample. *)
Ltac each_sample_row Hr :=
  vm_compute in Hr; destruct Hr as [<-|[<-|[<-|[]]]].

(** The scenario of the sample's first transaction: registered on
    2020-01-15, 100 square metres, hence 1076.39 square feet. *)
Example john_row_cells :
  get Sample.table "reg_date" Sample.john_row = Datetime (Iso.parse_date "2020-01-15")
  /\ get Sample.table "size_sqmt" Sample.john_row = Float 100
  /\ get Sample.table "size_sqft" Sample.john_row = Float 1076.39
  /\ get Sample.table "unit_number" Sample.john_row = Str "A-3-0601".
Proof. repeat split; vm_compute; reflexivity. Qed.

Example search_name_is_case_sensitive :
  search_name "JOHN SMITH" Sample.table
  = Ret (mkFrame (columns Sample.table) [Sample.john_row])
  /\ search_name "john smith" Sample.table = Ret (no_rows Sample.table).
Proof. split; vm_compute; reflexivity. Qed.

(** The text of a float: a unit number read as a float carries its
    decimals. *)
Example astype_str_examples :
  map astype_str [Str "A-3-0601"; Int 601; Float 601; NaN; Float 1076.39; Float 1e16;
                  Datetime (Iso.parse_date "2020-01-15")]
  = ["A-3-0601"; "601"; "601.0"; "nan"; "1076.39"; "1e+16"; "2020-01-15 00:00:00"].
Proof. vm_compute. reflexivity. Qed.

(** C2. A size filter that is given the value [0.0] is not applied: the
    test [if size_sqmt:] takes the number zero for an absent value.  Such a
    search is the search without the filter, on every table; on the sample,
    the search for OCEAN HEIGHTS with [size_sqmt = 0.0] returns the row of
    100 square metres, and so does the page when the size box is ticked and
    its field is left at [0.0]. *)
Theorem size_filter_zero_not_applied :
  (forall (name : option string) (df : DataFrame) (size_sqft : option float)
          (transaction_date : option datelike) (unit_number : option string),
      search_property name df (Some 0%float) size_sqft transaction_date unit_number
      = search_property name df None size_sqft transaction_date unit_number)
  /\ search_property (Some "OCEAN HEIGHTS") Sample.table (Some 0%float) None None None
     = Ret (mkFrame (columns Sample.table) [Sample.john_row])
  /\ eq_float 0 (get Sample.table "size_sqmt" Sample.john_row) = false
  /\ select Sample.table
       (fun r => identity_match Sample.table (Some "OCEAN HEIGHTS") r
                 && eq_float 0 (get Sample.table "size_sqmt" r))
     = no_rows Sample.table
  /\ main (Ret Sample.raw) Sample.ocean_heights_size_zero
     = Ret [StSuccess 1;
            StDataframe (project (mkFrame (columns Sample.table) [Sample.john_row])
                                 desired_columns)].
Proof.
  split; [reflexivity|]. repeat split; vm_compute; reflexivity.
Qed.

(** C3.  A row that has no unit number is not always excluded by the unit
    filter.  [astype(str)] writes the missing value as the text [nan] before
    [str.endswith(..., na=False)] looks at it, so that [na=False] finds
    nothing missing and the row passes for the values [n], [an] and [nan],
    whatever the conventions for dates.  On the sample the row of MARINA GATE
    has no unit number: the search for MARINA GATE with the unit filter [an]
    returns it, where the exclusion of rows without unit number leaves no
    row, and the page shows it as the one record found. *)
Theorem missing_unit_number_not_excluded :
  (forall (conventions : DateConventions) (m : DataFrame) (r : Row),
      get m "unit_number" r = NaN ->
      @unit_ends_with conventions m "n" r = true
      /\ @unit_ends_with conventions m "an" r = true
      /\ @unit_ends_with conventions m "nan" r = true)
  /\ In Cases.daoud_row (rows Sample.table)
  /\ identity_match Sample.table (Some "MARINA GATE") Cases.daoud_row = true
  /\ isna (get Sample.table "unit_number" Cases.daoud_row) = true
  /\ search_property (Some "MARINA GATE") Sample.table None None None (Some "an")
     = Ret (mkFrame (columns Sample.table) [Cases.daoud_row])
  /\ select Sample.table
       (fun r => identity_match Sample.table (Some "MARINA GATE") r
                 && negb (isna (get Sample.table "unit_number" r))
                 && unit_ends_with Sample.table "an" r)
     = no_rows Sample.table
  /\ main (Ret Sample.raw) Cases.marina_gate_unit_an
     = Ret [StSuccess 1;
            StDataframe (project (mkFrame (columns Sample.table) [Cases.daoud_row])
                                 desired_columns)].
Proof.
  split.
  - intros conventions m r Hr. unfold unit_ends_with. rewrite Hr.
    repeat split; vm_compute; reflexivity.
  - split; [right; left; reflexivity|]. repeat split; vm_compute; reflexivity.
Qed.

(** C1 on the sample: the first row has P1 as its [building_no] and is not
    returned by the search for P1. *)
Lemma identity_stage_five_columns_witness :
  table_with identity_columns Sample.table = true
  /\ identity_stage (Some "P1") Sample.table
     = Ret (select Sample.table (identity_match Sample.table (Some "P1")))
  /\ get Sample.table "building_no" Sample.john_row = Str "P1"
  /\ ~ In Sample.john_row
          (rows (select Sample.table (identity_match Sample.table (Some "P1")))).
Proof.
  assert (H : table_with identity_columns Sample.table = true) by reflexivity.
  split; [exact H|].
  destruct (identity_stage_five_columns Sample.table "P1" H) as [H1 [_ [_ H4]]].
  split; [exact H1|]. split; [reflexivity|].
  apply H4; try reflexivity; vm_compute; discriminate.
Defined.

(** C5 on the sample: the first row has X and Y as its two IDs. *)
Lemma search_id_either_column_witness :
  table_with ["id_number"; "uae_id_number"] Sample.table = true
  /\ search_id "Y" Sample.table = Ret (select Sample.table (id_match Sample.table "Y"))
  /\ id_match Sample.table "X" Sample.john_row = true
  /\ id_match Sample.table "Y" Sample.john_row = true
  /\ id_match Sample.table "Z" Sample.john_row = false.
Proof.
  assert (H : table_with ["id_number"; "uae_id_number"] Sample.table = true) by reflexivity.
  split; [exact H|].
  destruct (search_id_either_column Sample.table "Y" H) as [H1 [_ H3]].
  split; [exact H1|].
  apply (H3 Sample.john_row "X" "Y" "Z"); try reflexivity; discriminate.
Defined.

(** C9 on the sample: keys that no row matches. *)
Lemma no_match_is_empty_witness :
  unique_columns Sample.table = true
  /\ search_name "NOBODY" Sample.table = Ret (no_rows Sample.table)
  /\ search_id "Z" Sample.table = Ret (no_rows Sample.table)
  /\ search_phone "+971501112233" Sample.table = Ret (no_rows Sample.table)
  /\ search_property (Some "OCEAN HEIGHTS") Sample.table (Some 100%float) None
       (Some (DateText "2020-01-16")) (Some "0601")
     = Ret (no_rows Sample.table).
Proof.
  assert (H : unique_columns Sample.table = true) by reflexivity.
  split; [exact H|].
  destruct (no_match_is_empty Sample.table H) as [H1 [H2 [H3 [H4 _]]]].
  split; [|split; [|split]].
  - apply H1; [reflexivity|]. intros r Hr. each_sample_row Hr; reflexivity.
  - apply H2; [reflexivity|]. intros r Hr. each_sample_row Hr; reflexivity.
  - apply H3; [reflexivity|]. intros r Hr. each_sample_row Hr; reflexivity.
  - apply (H4 _ _ _ _ _ (Some (Iso.parse_date "2020-01-16"))); [reflexivity | reflexivity|].
    intros r Hr. each_sample_row Hr; vm_compute; reflexivity.
Defined.

(** C6 on the sample: a search with its four filters. *)
Lemma refinement_narrows_witness :
  table_with property_columns Sample.table = true
  /\ date_filter (Some (DateText "2020-01-15")) = Ret (Some (Iso.parse_date "2020-01-15"))
  /\ exists m0 m4,
       identity_stage (Some "DUBAI MARINA") Sample.table = Ret m0
       /\ search_property (Some "DUBAI MARINA") Sample.table (Some 100%float)
            (Some 1076.39%float) (Some (DateText "2020-01-15")) (Some "01")
          = Ret m4
       /\ (len m4 <= len m0 <= len Sample.table)%nat.
Proof.
  assert (H : table_with property_columns Sample.table = true) by reflexivity.
  assert (Ht : date_filter (Some (DateText "2020-01-15"))
               = Ret (Some (Iso.parse_date "2020-01-15"))) by reflexivity.
  split; [exact H|]. split; [exact Ht|].
  destruct (refinement_narrows Sample.table (Some "DUBAI MARINA") (Some 100%float)
              (Some 1076.39%float) (Some (DateText "2020-01-15")) (Some "01") _ H Ht)
    as [m0 [m1 [m2 [m3 [m4 [H0 [_ [_ [_ [_ [Hs [L0 [L1 [L2 [L3 L4]]]]]]]]]]]]]]].
  exists m0, m4. split; [exact H0|]. split; [exact Hs|]. lia.
Defined.

(** The suffix test on the sample: the first row is a row of OCEAN HEIGHTS
    whose [unit_number] is A-3-0601, and the search with the unit filter 06
    does not return it; A-3-0601 does not end with 06. *)
Lemma unit_filter_06_counterexample :
  In Sample.john_row (rows Sample.table)
  /\ identity_match Sample.table (Some "OCEAN HEIGHTS") Sample.john_row = true
  /\ get Sample.table "unit_number" Sample.john_row = Str "A-3-0601"
  /\ Py.endswith "A-3-0601" "06" = false
  /\ search_property (Some "OCEAN HEIGHTS") Sample.table None None None (Some "06")
     = Ret (no_rows Sample.table).
Proof.
  split; [left; reflexivity|]. repeat split; vm_compute; reflexivity.
Qed.

(** The suffix test on the sample: the same row is returned for 0601. *)
Lemma unit_number_suffix_witness :
  table_with ["unit_number"] Sample.table = true
  /\ filter_unit_number (Some "0601") Sample.table
     = Ret (select Sample.table (unit_ends_with Sample.table "0601"))
  /\ unit_ends_with Sample.table "01" Sample.john_row = true
  /\ unit_ends_with Sample.table "0601" Sample.john_row = true
  /\ unit_ends_with Sample.table "06" Sample.john_row = false
  /\ unit_ends_with Sample.table "601A" Sample.john_row = false.
Proof.
  assert (H : table_with ["unit_number"] Sample.table = true) by reflexivity.
  split; [exact H|].
  destruct (unit_number_suffix Sample.table "0601" H) as [H1 [_ H3]].
  split; [exact H1|]. apply H3. reflexivity.
Defined.

(** C10, the claim as it was stated, fails for the empty name on a table in
    which a project has the empty text as its name: the search returns that
    row, not the empty table. *)
Lemma empty_name_counterexample :
  table_with property_columns Sample.table_with_blank = true
  /\ search_property (Some "") Sample.table_with_blank None None None None
     = Ret (mkFrame (columns Sample.table_with_blank) [Sample.unnamed_project])
  /\ len (mkFrame (columns Sample.table_with_blank) [Sample.unnamed_project]) = 1%nat.
Proof. repeat split; vm_compute; reflexivity. Qed.

(** C10 on the sample: no name, two filters. *)
Lemma no_property_name_witness :
  table_with property_columns Sample.table = true
  /\ date_filter None = Ret None
  /\ search_property None Sample.table (Some 100%float) None None (Some "0601")
     = Ret (no_rows Sample.table)
  /\ search_property (Some "") Sample.table (Some 100%float) None None (Some "0601")
     = Ret (no_rows Sample.table).
Proof.
  assert (H : table_with property_columns Sample.table = true) by reflexivity.
  assert (Ht : date_filter None = Ret None) by reflexivity.
  split; [exact H|]. split; [exact Ht|].
  destruct (no_property_name Sample.table (Some 100%float) None None (Some "0601") None H Ht)
    as [_ [H2 H3]].
  split; [exact H2|]. apply H3.
  intros r c Hr Hc. simpl in Hc.
  each_sample_row Hr;
    destruct Hc as [<-|[<-|[<-|[<-|[<-|[]]]]]]; vm_compute; discriminate.
Defined.

(** C4 on the sample: the table the loader returns. *)
Lemma size_sqft_derived_witness :
  unique_columns (rename rename_map Sample.raw) = true
  /\ load_and_clean_data (Ret Sample.raw) = Ret (Some Sample.table)
  /\ rows Sample.table = map (normalize_row (rename rename_map Sample.raw)) (rows Sample.raw)
  /\ forall r, In r (rows Sample.table) ->
       exists x, number (get Sample.table "size_sqmt" r) = Some x
                 /\ get Sample.table "size_sqft" r = Float (Py.round2 (x * 10.76391)%float).
Proof.
  assert (H : unique_columns (rename rename_map Sample.raw) = true) by reflexivity.
  assert (Hl : load_and_clean_data (Ret Sample.raw) = Ret (Some Sample.table))
    by (vm_compute; reflexivity).
  split; [exact H|]. split; [exact Hl|].
  exact (proj2 (size_sqft_derived Sample.raw H) Sample.table Hl).
Defined.

(** C7, the claim as it was stated, fails on a file without its [Size]
    column: the loader raises. *)
Lemma missing_size_counterexample :
  load_and_clean_data (Ret Sample.raw_without_size) = Raise (KeyError "size_sqmt").
Proof. vm_compute. reflexivity. Qed.

(** C7 on a file that has the date and the size columns only: it is loaded,
    and the table has no [name_en] column. *)
Lemma missing_columns_tolerated_witness :
  unique_columns (rename rename_map Sample.raw_minimal) = true
  /\ loadable Sample.raw_minimal = true
  /\ exists df,
       load_and_clean_data (Ret Sample.raw_minimal) = Ret (Some df)
       /\ ~ In "name_en" (columns df).
Proof.
  assert (H : unique_columns (rename rename_map Sample.raw_minimal) = true) by reflexivity.
  assert (Hl : loadable Sample.raw_minimal = true) by reflexivity.
  split; [exact H|]. split; [exact Hl|].
  destruct (missing_columns_tolerated Sample.raw_minimal H) as [Hok _].
  destruct (Hok Hl) as [df [Hdf [_ Habsent]]].
  exists df. split; [exact Hdf|].
  apply (Habsent "NameEn" "name_en"); simpl; intuition discriminate.
Defined.

(** C8, the claim as it was stated, fails on a source that is there and
    cannot be opened (no permission, a directory): [pd.read_csv] raises an
    [OSError] other than [FileNotFoundError], which the loader does not turn
    into [None] but lets through, and the page ends with it instead of
    showing its message. *)
Lemma unopenable_source_counterexample :
  load_and_clean_data (Raise OSError) = Raise OSError
  /\ load_and_clean_data (Raise FileNotFoundError) = Ret None
  /\ main (Raise OSError) Cases.name_search_john = Raise OSError.
Proof. repeat split. Qed.

(** C8 on the sample: a missing file, and a file one of whose dates is not
    a date. *)
Lemma load_errors_witness :
  load_and_clean_data (Raise FileNotFoundError) = Ret None
  /\ load_and_clean_data
       (Ret (mkFrame ["Regis"; "Size"] [[Str "2020-01-15"; Float 100];
                                         [Str "15th of January"; Float 50.5]]))
     = Raise ValueError.
Proof.
  split.
  - apply (load_errors (Raise FileNotFoundError)). reflexivity.
  - set (raw := mkFrame ["Regis"; "Size"] [[Str "2020-01-15"; Float 100];
                                            [Str "15th of January"; Float 50.5]]).
    destruct (load_errors (Ret raw)) as [_ [_ [H _]]].
    apply (H raw eq_refl eq_refl). split; [reflexivity|].
    exists [Str "15th of January"; Float 50.5]. split; [right; left; reflexivity|].
    reflexivity.
Defined.

(* ===================================================================== *)
(** * Further properties of the query engine *)
(* ===================================================================== *)

Lemma Subseq_refl {A : Type} (l : list A) : Subseq l l.
Proof. induction l; constructor; assumption. Qed.

Lemma Subseq_trans {A : Type} (l1 l2 l3 : list A) :
  Subseq l1 l2 -> Subseq l2 l3 -> Subseq l1 l3.
Proof.
  intros H12 H23. revert l1 H12.
  induction H23 as [|x l2 l3 H IH|x l2 l3 H IH]; intros l1 H12.
  - exact H12.
  - constructor. now apply IH.
  - inversion H12; subst; constructor; now apply IH.
Qed.

Lemma Subseq_In {A : Type} (l1 l2 : list A) (x : A) :
  Subseq l1 l2 -> In x l1 -> In x l2.
Proof.
  induction 1 as [|y l1 l2 H IH|y l1 l2 H IH]; simpl; intros Hx; auto.
  destruct Hx; auto.
Qed.

Lemma Subseq_nil_l {A : Type} (l : list A) : Subseq [] l.
Proof. induction l; constructor; assumption. Qed.

Lemma keep_Subseq {A : Type} (m : Mask) (l : list A) : Subseq (keep m l) l.
Proof.
  revert l. induction m as [|b m IH]; intros l.
  - destruct l; apply Subseq_nil_l.
  - destruct l as [|x l]; [constructor|].
    simpl. destruct b; constructor; apply IH.
Qed.

Lemma subtable_refl (df : DataFrame) : subtable df df.
Proof. split; [reflexivity | apply Subseq_refl]. Qed.

Lemma subtable_trans (a b c : DataFrame) : subtable a b -> subtable b c -> subtable a c.
Proof.
  intros [H1 H2] [H3 H4]. split; [congruence | eapply Subseq_trans; eauto].
Qed.

Lemma loc_subtable (df : DataFrame) (m : Mask) : subtable (loc df m) df.
Proof. split; [reflexivity | apply keep_Subseq]. Qed.

Lemma select_conj_comm (df : DataFrame) (p q : Row -> bool) :
  select (select df p) q = select (select df q) p.
Proof.
  rewrite !select_select. apply select_ext. intros r. apply andb_comm.
Qed.

Lemma eq_str_text (v : option string) (c : cell) : is_text c = false -> eq_str v c = false.
Proof. now destruct c. Qed.

Section MoreEngineProperties.

Context {dates : DateConventions}.

Lemma identity_stage_subtable (name : option string) (df res : DataFrame) :
  identity_stage name df = Ret res -> subtable res df.
Proof.
  unfold identity_stage.
  destruct (getitem df "master_project"); simpl; [|discriminate].
  destruct (getitem df "master_project_land"); simpl; [|discriminate].
  destruct (getitem df "project"); simpl; [|discriminate].
  destruct (getitem df "project_land"); simpl; [|discriminate].
  destruct (getitem df "building_name_en"); simpl; [|discriminate].
  intros [= <-]. apply loc_subtable.
Qed.

Lemma filter_size_sqmt_subtable (v : option float) (m res : DataFrame) :
  filter_size_sqmt v m = Ret res -> subtable res m.
Proof.
  unfold filter_size_sqmt.
  destruct v as [v|]; [destruct (Py.float_truth v)|];
    try (intros [= <-]; apply subtable_refl).
  destruct (getitem m "size_sqmt"); simpl; [|discriminate].
  intros [= <-]. apply loc_subtable.
Qed.

Lemma filter_size_sqft_subtable (v : option float) (m res : DataFrame) :
  filter_size_sqft v m = Ret res -> subtable res m.
Proof.
  unfold filter_size_sqft.
  destruct v as [v|]; [destruct (Py.float_truth v)|];
    try (intros [= <-]; apply subtable_refl).
  destruct (getitem m "size_sqft"); simpl; [|discriminate].
  intros [= <-]. apply loc_subtable.
Qed.

Lemma filter_transaction_date_subtable (d : option datelike) (m res : DataFrame) :
  filter_transaction_date d m = Ret res -> subtable res m.
Proof.
  unfold filter_transaction_date.
  destruct d as [d|]; [destruct (date_truth d)|];
    try (intros [= <-]; apply subtable_refl).
  destruct (to_datetime_scalar d); simpl; [|discriminate].
  destruct (getitem m "reg_date"); simpl; [|discriminate].
  intros [= <-]. apply loc_subtable.
Qed.

Lemma filter_unit_number_subtable (v : option string) (m res : DataFrame) :
  filter_unit_number v m = Ret res -> subtable res m.
Proof.
  unfold filter_unit_number.
  destruct v as [v|]; [destruct (Py.str_truth v)|];
    try (intros [= <-]; apply subtable_refl).
  destruct (getitem m "unit_number"); simpl; [|discriminate].
  intros [= <-]. apply loc_subtable.
Qed.

(** X1. On a table that has the [name_en] column, [search_name] returns
    exactly the rows whose [name_en] is the text [name], compared as it is
    (a name in another case, a number or a missing entry is not a match). *)
Theorem search_name_exact (df : DataFrame) (name : string) :
  table_with ["name_en"] df = true ->
  search_name name df = Ret (select df (name_match df name))
  /\ (forall r,
        In r (rows (select df (name_match df name))) <->
        In r (rows df) /\ get df "name_en" r = Str name).
Proof.
  intros H.
  assert (Hc := table_with_column _ _ "name_en" H (or_introl eq_refl)).
  split; [now apply search_name_spec|].
  intros r. unfold name_match. now rewrite In_select, eq_str_true.
Qed.

(** X2. On a table that has the [mobile] column, [search_phone] returns
    exactly the rows whose [mobile] is the text given, character for
    character. *)
Theorem search_phone_exact (df : DataFrame) (mobile : string) :
  table_with ["mobile"] df = true ->
  search_phone mobile df = Ret (select df (phone_match df mobile))
  /\ (forall r,
        In r (rows (select df (phone_match df mobile))) <->
        In r (rows df) /\ get df "mobile" r = Str mobile).
Proof.
  intros H.
  assert (Hc := table_with_column _ _ "mobile" H (or_introl eq_refl)).
  split; [now apply search_phone_spec|].
  intros r. unfold phone_match. now rewrite In_select, eq_str_true.
Qed.

(** X3. Whatever a search returns is a sub-table of the table it was
    given: the same columns, and some of its rows in their order; no row is
    made up, changed or moved. *)
Theorem searches_return_subtables (df res : DataFrame) :
  (forall name, search_name name df = Ret res -> subtable res df)
  /\ (forall key, search_id key df = Ret res -> subtable res df)
  /\ (forall mobile, search_phone mobile df = Ret res -> subtable res df)
  /\ (forall name size_sqmt size_sqft transaction_date unit_number,
        search_property name df size_sqmt size_sqft transaction_date unit_number = Ret res ->
        subtable res df).
Proof.
  split; [|split; [|split]].
  - intros name. unfold search_name.
    destruct (getitem df "name_en"); simpl; [|discriminate].
    intros [= <-]. apply loc_subtable.
  - intros key. unfold search_id.
    destruct (getitem df "id_number"); simpl; [|discriminate].
    destruct (getitem df "uae_id_number"); simpl; [|discriminate].
    intros [= <-]. apply loc_subtable.
  - intros name. unfold search_phone.
    destruct (getitem df "mobile"); simpl; [|discriminate].
    intros [= <-]. apply loc_subtable.
  - intros name a b c d. unfold search_property.
    destruct (identity_stage name df) as [m0|] eqn:H0; simpl; [|discriminate].
    destruct (filter_size_sqmt a m0) as [m1|] eqn:H1; simpl; [|discriminate].
    destruct (filter_size_sqft b m1) as [m2|] eqn:H2; simpl; [|discriminate].
    destruct (filter_transaction_date c m2) as [m3|] eqn:H3; simpl; [|discriminate].
    destruct (filter_unit_number d m3) as [m4|] eqn:H4; simpl; [|discriminate].
    intros [= <-].
    apply identity_stage_subtable in H0. apply filter_size_sqmt_subtable in H1.
    apply filter_size_sqft_subtable in H2. apply filter_transaction_date_subtable in H3.
    apply filter_unit_number_subtable in H4.
    eauto using subtable_trans.
Qed.

(** X4. A search on a table that lacks a column it reads raises
    [KeyError] for that column, whatever the key and the rows: [name_en] for
    [search_name], [id_number] and then [uae_id_number] for [search_id],
    [mobile] for [search_phone], and for [search_property] one of the five
    identity columns, or the column of a size filter that is in force. *)
Theorem search_missing_column (df : DataFrame) :
  (has_column df "name_en" = false ->
   forall name, search_name name df = Raise (KeyError "name_en"))
  /\ (has_column df "id_number" = false ->
      forall key, search_id key df = Raise (KeyError "id_number"))
  /\ (has_column df "id_number" = true -> has_column df "uae_id_number" = false ->
      forall key, search_id key df = Raise (KeyError "uae_id_number"))
  /\ (has_column df "mobile" = false ->
      forall mobile, search_phone mobile df = Raise (KeyError "mobile"))
  /\ (has_columns df identity_columns = false ->
      forall name size_sqmt size_sqft transaction_date unit_number,
      exists c, In c identity_columns /\
                search_property name df size_sqmt size_sqft transaction_date unit_number
                = Raise (KeyError c))
  /\ (has_columns df identity_columns = true -> has_column df "size_sqmt" = false ->
      forall name v size_sqft transaction_date unit_number,
        Py.float_truth v = true ->
        search_property name df (Some v) size_sqft transaction_date unit_number
        = Raise (KeyError "size_sqmt")).
Proof.
  split; [|split; [|split; [|split; [|split]]]].
  - intros H name. unfold search_name. now rewrite (getitem_lacks _ _ H).
  - intros H key. unfold search_id. now rewrite (getitem_lacks _ _ H).
  - intros H1 H2 key. unfold search_id.
    now rewrite (getitem_has _ _ H1), (getitem_lacks _ _ H2).
  - intros H mobile. unfold search_phone. now rewrite (getitem_lacks _ _ H).
  - intros H name a b c d.
    destruct (identity_stage_KeyError name df H) as [c0 [Hc0 He]].
    exists c0. split; [exact Hc0|]. unfold search_property. now rewrite He.
  - intros Hid Hs name v b c d Hv. unfold search_property.
    rewrite (identity_stage_spec _ _ Hid). cbn [bind].
    unfold filter_size_sqmt. rewrite Hv.
    assert (Hs' : has_column (select df (identity_match df name)) "size_sqmt" = false)
      by exact Hs.
    now rewrite (getitem_lacks _ _ Hs').
Qed.

(** X5. On a table that has the columns of the property search, and for a
    date filter whose value converts to the instant [t], [search_property]
    returns exactly the rows that match the name in one of the five identity
    columns and that pass every filter in force: the filters combine as a
    conjunction. *)
Theorem search_property_conjunction (df : DataFrame) (name : option string)
    (size_sqmt size_sqft : option float) (transaction_date : option datelike)
    (unit_number : option string) (t : option (option Z)) :
  table_with property_columns df = true ->
  date_filter transaction_date = Ret t ->
  search_property name df size_sqmt size_sqft transaction_date unit_number
  = Ret (select df (property_match df name size_sqmt size_sqft t unit_number))
  /\ (forall r,
        In r (rows (select df (property_match df name size_sqmt size_sqft t unit_number))) <->
        In r (rows df)
        /\ identity_match df name r = true
        /\ size_match df "size_sqmt" size_sqmt r = true
        /\ size_match df "size_sqft" size_sqft r = true
        /\ date_match df t r = true
        /\ unit_match df unit_number r = true).
Proof.
  intros H Ht. apply andb_true_iff in H as [_ H].
  split; [now apply search_property_spec|].
  intros r. rewrite In_select. unfold property_match.
  rewrite !andb_true_iff. tauto.
Qed.

(** X6. On a table that has the four filter columns, two refinement
    filters give the same result in either order, also when the value of the
    date filter is not a date (both orders then raise [ValueError]). *)
Theorem filters_commute (m : DataFrame) (size_sqmt size_sqft : option float)
    (transaction_date : option datelike) (unit_number : option string) :
  table_with ["size_sqmt"; "size_sqft"; "reg_date"; "unit_number"] m = true ->
  (x <- filter_size_sqmt size_sqmt m ;; filter_size_sqft size_sqft x)
  = (x <- filter_size_sqft size_sqft m ;; filter_size_sqmt size_sqmt x)
  /\ (x <- filter_size_sqmt size_sqmt m ;; filter_transaction_date transaction_date x)
     = (x <- filter_transaction_date transaction_date m ;; filter_size_sqmt size_sqmt x)
  /\ (x <- filter_size_sqmt size_sqmt m ;; filter_unit_number unit_number x)
     = (x <- filter_unit_number unit_number m ;; filter_size_sqmt size_sqmt x)
  /\ (x <- filter_size_sqft size_sqft m ;; filter_transaction_date transaction_date x)
     = (x <- filter_transaction_date transaction_date m ;; filter_size_sqft size_sqft x)
  /\ (x <- filter_size_sqft size_sqft m ;; filter_unit_number unit_number x)
     = (x <- filter_unit_number unit_number m ;; filter_size_sqft size_sqft x)
  /\ (x <- filter_transaction_date transaction_date m ;; filter_unit_number unit_number x)
     = (x <- filter_unit_number unit_number m ;; filter_transaction_date transaction_date x).
Proof.
  intros H.
  assert (H1 := table_with_column _ _ "size_sqmt" H ltac:(simpl; tauto)).
  assert (H2 := table_with_column _ _ "size_sqft" H ltac:(simpl; tauto)).
  assert (H3 := table_with_column _ _ "reg_date" H ltac:(simpl; tauto)).
  assert (H4 := table_with_column _ _ "unit_number" H ltac:(simpl; tauto)).
  assert (S1 : forall p, filter_size_sqmt size_sqmt (select m p)
                         = Ret (select (select m p) (size_match m "size_sqmt" size_sqmt)))
    by (intros p; now rewrite filter_size_sqmt_spec).
  assert (S2 : forall p, filter_size_sqft size_sqft (select m p)
                         = Ret (select (select m p) (size_match m "size_sqft" size_sqft)))
    by (intros p; now rewrite filter_size_sqft_spec).
  assert (S4 : forall p, filter_unit_number unit_number (select m p)
                         = Ret (select (select m p) (unit_match m unit_number)))
    by (intros p; now rewrite filter_unit_number_spec).
  rewrite (filter_size_sqmt_spec _ _ H1), (filter_size_sqft_spec _ _ H2),
    (filter_unit_number_spec _ _ H4). cbn [bind].
  rewrite !S1, !S2, !S4.
  destruct (date_filter transaction_date) as [t|e] eqn:Ht.
  - assert (S3 : forall p, filter_transaction_date transaction_date (select m p)
                           = Ret (select (select m p) (date_match m t)))
      by (intros p; now rewrite (filter_transaction_date_spec _ t)).
    rewrite (filter_transaction_date_spec _ t _ H3 Ht). cbn [bind].
    rewrite !S1, !S2, !S3, !S4.
    repeat split; f_equal; apply select_conj_comm.
  - rewrite !(filter_transaction_date_raises _ e) by exact Ht. cbn [bind].
    repeat split; f_equal; apply select_conj_comm.
Qed.

End MoreEngineProperties.

(** ** Comparisons with NaN *)

Lemma SFcompare_refl (x : spec_float) : x <> S754_nan -> SFcompare x x = Some Eq.
Proof.
  destruct x as [s|s| |s m e]; intros H; simpl; try congruence.
  - now destruct s.
  - destruct s; rewrite Z.compare_refl, Pos.compare_cont_refl; reflexivity.
Qed.

Lemma is_nan_Prim2SF (x : float) : is_nan x = true -> Prim2SF x = S754_nan.
Proof.
  unfold is_nan. rewrite FloatAxioms.eqb_spec. unfold SFeqb. intros H.
  destruct (Prim2SF x) eqn:E; try reflexivity; exfalso;
    rewrite SFcompare_refl in H by discriminate; discriminate.
Qed.

Lemma eqb_nan_l (x y : float) : is_nan x = true -> (x =? y)%float = false.
Proof.
  intros H. rewrite FloatAxioms.eqb_spec, (is_nan_Prim2SF x H). reflexivity.
Qed.

Lemma eqb_nan_r (x y : float) : is_nan y = true -> (x =? y)%float = false.
Proof.
  intros H. rewrite FloatAxioms.eqb_spec, (is_nan_Prim2SF y H). unfold SFeqb.
  now destruct (Prim2SF x).
Qed.

Lemma eq_float_missing (v : float) (c : cell) : isna c = true -> eq_float v c = false.
Proof.
  destruct c as [s|z|f|t]; simpl; try discriminate; try reflexivity.
  apply eqb_nan_l.
Qed.

Lemma eq_float_nan (v : float) (c : cell) : is_nan v = true -> eq_float v c = false.
Proof.
  intros H. destruct c as [s|z|f|t]; simpl; try reflexivity; now apply eqb_nan_r.
Qed.

Lemma eq_datetime_missing (t : option Z) (c : cell) : isna c = true -> eq_datetime t c = false.
Proof.
  destruct c as [s|z|f|[t'|]]; simpl; try discriminate; reflexivity.
Qed.

Lemma endswith_nan (v : string) :
  Py.endswith "nan" v = true <-> v = "" \/ v = "n" \/ v = "an" \/ v = "nan".
Proof.
  cbn [Py.endswith]. rewrite orb_false_r, !orb_true_iff, !String.eqb_eq.
  intuition congruence.
Qed.

Section EdgeCases.

Context {dates : DateConventions}.

(** X7. When the date filter is given a text that is not a date,
    [search_property] raises [ValueError] on every table that has the
    identity and the size columns: the date is converted before the date
    column is read, so this happens even if no row matches the name and even
    if the table has no date column. *)
Theorem unparseable_date_aborts (df : DataFrame) (name : option string)
    (size_sqmt size_sqft : option float) (s : string) (unit_number : option string) :
  table_with (identity_columns ++ ["size_sqmt"; "size_sqft"]) df = true ->
  s <> "" ->
  parse_datetime (Str s) = None ->
  search_property name df size_sqmt size_sqft (Some (DateText s)) unit_number
  = Raise ValueError.
Proof.
  intros H Hs Hp.
  assert (Hc : forall c, In c (identity_columns ++ ["size_sqmt"; "size_sqft"]) ->
                         has_column df c = true)
    by (intros c; apply table_with_column; exact H).
  unfold search_property.
  rewrite identity_stage_spec
    by (unfold has_columns; apply forallb_forall; intros c Hi; apply Hc;
        apply in_or_app; now left).
  cbn [bind].
  rewrite filter_size_sqmt_spec by (apply Hc; simpl; tauto). cbn [bind].
  rewrite filter_size_sqft_spec by (apply Hc; simpl; tauto). cbn [bind].
  rewrite (filter_transaction_date_raises _ ValueError); [reflexivity|].
  unfold date_filter, date_truth, to_datetime_scalar.
  destruct s; [congruence|]. cbn [Py.str_truth]. now rewrite Hp.
Qed.

(** X8. A row whose size is missing is never returned by a size filter in
    force, a row whose date is missing is never returned by the date filter,
    and a size filter whose value is NaN returns no row at all: a missing
    value equals nothing. *)
Theorem missing_values_never_match (m : DataFrame) (v : float) (t : Z) :
  table_with ["size_sqmt"; "size_sqft"; "reg_date"] m = true ->
  Py.float_truth v = true ->
  filter_size_sqmt (Some v) m = Ret (select m (fun r => eq_float v (get m "size_sqmt" r)))
  /\ filter_size_sqft (Some v) m = Ret (select m (fun r => eq_float v (get m "size_sqft" r)))
  /\ filter_transaction_date (Some (DateObj t)) m
     = Ret (select m (fun r => eq_datetime (Some t) (get m "reg_date" r)))
  /\ (forall r, isna (get m "size_sqmt" r) = true ->
                ~ In r (rows (select m (fun r => eq_float v (get m "size_sqmt" r)))))
  /\ (forall r, isna (get m "size_sqft" r) = true ->
                ~ In r (rows (select m (fun r => eq_float v (get m "size_sqft" r)))))
  /\ (forall r, isna (get m "reg_date" r) = true ->
                ~ In r (rows (select m (fun r => eq_datetime (Some t) (get m "reg_date" r)))))
  /\ (is_nan v = true ->
      filter_size_sqmt (Some v) m = Ret (no_rows m)
      /\ filter_size_sqft (Some v) m = Ret (no_rows m)).
Proof.
  intros H Hv.
  assert (H1 := table_with_column _ _ "size_sqmt" H ltac:(simpl; tauto)).
  assert (H2 := table_with_column _ _ "size_sqft" H ltac:(simpl; tauto)).
  assert (H3 := table_with_column _ _ "reg_date" H ltac:(simpl; tauto)).
  assert (E1 : filter_size_sqmt (Some v) m
               = Ret (select m (fun r => eq_float v (get m "size_sqmt" r)))).
  { rewrite (filter_size_sqmt_spec _ _ H1). unfold size_match. now rewrite Hv. }
  assert (E2 : filter_size_sqft (Some v) m
               = Ret (select m (fun r => eq_float v (get m "size_sqft" r)))).
  { rewrite (filter_size_sqft_spec _ _ H2). unfold size_match. now rewrite Hv. }
  split; [exact E1|]. split; [exact E2|]. split; [|split; [|split; [|split]]].
  - now rewrite (filter_transaction_date_spec _ (Some (Some t)) _ H3).
  - intros r Hr Hin. apply In_select in Hin as [_ Hin].
    now rewrite eq_float_missing in Hin.
  - intros r Hr Hin. apply In_select in Hin as [_ Hin].
    now rewrite eq_float_missing in Hin.
  - intros r Hr Hin. apply In_select in Hin as [_ Hin].
    now rewrite eq_datetime_missing in Hin.
  - intros Hn. rewrite E1, E2.
    split; f_equal; apply select_none; intros r _; now apply eq_float_nan.
Qed.

(** X9. [astype(str)] turns a missing unit number into the text [nan]
    before the suffix test, so that [na=False] has no effect: a row whose
    unit number is missing is returned by the unit filter exactly for the
    values [n], [an] and [nan] (and for the empty value, which is no
    filter). *)
Theorem missing_unit_number_is_nan (m : DataFrame) (v : string) (r : Row) :
  table_with ["unit_number"] m = true ->
  In r (rows m) ->
  get m "unit_number" r = NaN ->
  filter_unit_number (Some v) m = Ret (select m (unit_ends_with m v))
  /\ (In r (rows (select m (unit_ends_with m v))) <->
      v = "" \/ v = "n" \/ v = "an" \/ v = "nan").
Proof.
  intros H Hr Hn.
  assert (Hu := table_with_column _ _ "unit_number" H (or_introl eq_refl)).
  split.
  - rewrite (filter_unit_number_spec _ _ Hu). f_equal.
    unfold unit_match. destruct (Py.str_truth v) eqn:Hv; [reflexivity|].
    destruct v; [|discriminate]. apply select_ext. intros r0.
    unfold unit_ends_with. now rewrite endswith_empty.
  - rewrite In_select. unfold unit_ends_with. rewrite Hn.
    change (astype_str NaN) with "nan". rewrite endswith_nan. tauto.
Qed.

(** X10. A search key is text, and text equals no number: on a table
    whose two ID columns hold no text (numbers, as [pd.read_csv] reads a
    column of digits, or missing entries), [search_id] returns no row for
    any key. *)
Theorem text_key_never_matches_numbers (df : DataFrame) (key : string) :
  table_with ["id_number"; "uae_id_number"] df = true ->
  (forall r, In r (rows df) ->
             is_text (get df "id_number" r) = false
             /\ is_text (get df "uae_id_number" r) = false) ->
  search_id key df = Ret (no_rows df).
Proof.
  intros H Hnum.
  rewrite search_id_spec
    by (apply (table_with_column _ _ _ H); simpl; tauto).
  f_equal. apply select_none. intros r Hr. destruct (Hnum r Hr) as [H1 H2].
  unfold id_match. now rewrite !eq_str_text.
Qed.

(** X11. The key searches compose: searching the result of a search again
    with the same key changes nothing, and a search by name followed by a
    search by ID is the search by ID followed by the search by name, namely
    the rows that match both. *)
Theorem searches_compose (df : DataFrame) (name key : string) :
  table_with ["name_en"; "id_number"; "uae_id_number"] df = true ->
  (x <- search_name name df ;; search_name name x) = search_name name df
  /\ (x <- search_id key df ;; search_id key x) = search_id key df
  /\ (x <- search_name name df ;; search_id key x)
     = (x <- search_id key df ;; search_name name x)
  /\ (x <- search_name name df ;; search_id key x)
     = Ret (select df (fun r => name_match df name r && id_match df key r)).
Proof.
  intros H.
  assert (H1 := table_with_column _ _ "name_en" H ltac:(simpl; tauto)).
  assert (H2 := table_with_column _ _ "id_number" H ltac:(simpl; tauto)).
  assert (H3 := table_with_column _ _ "uae_id_number" H ltac:(simpl; tauto)).
  assert (N : forall p, search_name name (select df p)
                        = Ret (select (select df p) (name_match df name)))
    by (intros p; now rewrite search_name_spec).
  assert (I : forall p, search_id key (select df p)
                        = Ret (select (select df p) (id_match df key)))
    by (intros p; now rewrite search_id_spec).
  rewrite (search_name_spec _ _ H1), (search_id_spec _ _ H2 H3). cbn [bind].
  rewrite !N, !I, !select_select.
  repeat split; f_equal; apply select_ext; intros r.
  - now destruct (name_match df name r).
  - now destruct (id_match df key r).
  - apply andb_comm.
Qed.

End EdgeCases.

(* ===================================================================== *)
(** * Further properties of the loader *)
(* ===================================================================== *)

Lemma index_of_map_inj (f : string -> string) (l : list string) (h : string) :
  distinct (map f l) = true -> In h l -> index_of (f h) (map f l) = index_of h l.
Proof.
  induction l as [|c l IH]; simpl; intros Hd Hin; [destruct Hin|].
  apply andb_true_iff in Hd as [Hc Hd]. apply negb_true_iff in Hc.
  destruct (String.eqb_spec c h) as [->|Hne].
  - now rewrite String.eqb_refl.
  - destruct Hin as [Hin|Hin]; [congruence|].
    destruct (String.eqb_spec (f c) (f h)) as [Heq|_].
    + exfalso. assert (existsb (String.eqb (f c)) (map f l) = true); [|congruence].
      apply existsb_exists. exists (f h). split; [now apply in_map|].
      rewrite Heq. apply String.eqb_refl.
    + now rewrite IH.
Qed.

(** Under distinct canonical labels, the cell under the canonical name of a
    header is the cell of the file under that header. *)
Lemma get_rename (raw : DataFrame) (h : string) (r : Row) :
  unique_columns (rename rename_map raw) = true ->
  In h (columns raw) ->
  get (rename rename_map raw) (renamed rename_map h) r = get raw h r.
Proof.
  intros Hu Hin. unfold get, rename. cbn [columns].
  now rewrite index_of_map_inj.
Qed.

Lemma length_set_cell (i : nat) (v : cell) (r : Row) :
  (S i <= length (set_cell i v r))%nat /\ (length r <= length (set_cell i v r))%nat.
Proof.
  revert r. induction i as [|i IH]; intros [|x r]; simpl; try lia.
  - specialize (IH []). simpl in IH. lia.
  - specialize (IH r). lia.
Qed.

Lemma set_cell_same (i : nat) (r : Row) :
  (i < length r)%nat -> set_cell i (cell_at i r) r = r.
Proof.
  revert r. induction i as [|i IH]; intros [|x r]; simpl; intros H; try lia.
  - reflexivity.
  - f_equal. apply IH. lia.
Qed.

Lemma values_are_not_keys (c v : string) :
  In (c, v) rename_map -> lookup rename_map v = None.
Proof.
  intros H. unfold rename_map in H. simpl in H.
  repeat (destruct H as [H|H]; [injection H as <- <-; reflexivity|]).
  destruct H.
Qed.

(** Renaming twice is renaming once: no canonical name is a source
    header. *)
Lemma renamed_idempotent (c : string) :
  renamed rename_map (renamed rename_map c) = renamed rename_map c.
Proof.
  unfold renamed at 2 3. destruct (lookup rename_map c) as [v|] eqn:E.
  - unfold renamed. apply lookup_In in E. now rewrite (values_are_not_keys c v E).
  - unfold renamed. now rewrite E.
Qed.

Lemma Forall2_map_r {A B : Type} (R : A -> B -> Prop) (f : A -> B) (l : list A) :
  (forall x, In x l -> R x (f x)) -> Forall2 R l (map f l).
Proof.
  induction l as [|x l IH]; simpl; intros H; constructor.
  - apply H. now left.
  - apply IH. intros y Hy. apply H. now right.
Qed.

Section MoreLoaderProperties.

Context {dates : DateConventions}.

Lemma get_normalized_reg_date (raw : DataFrame) (r : Row) :
  has_column (rename rename_map raw) "reg_date" = true ->
  get (normalized raw) "reg_date" (normalize_row (rename rename_map raw) r)
  = reg_date_of (rename rename_map raw) r.
Proof.
  intros H. unfold get, normalized. cbn [columns].
  rewrite index_of_setitem_other by discriminate.
  unfold has_column in H. unfold normalize_row, position.
  destruct (index_of "reg_date" (columns (rename rename_map raw))) as [i|] eqn:Hi;
    [|discriminate].
  rewrite cell_at_set_cell_other.
  - apply cell_at_set_cell.
  - fold (position (rename rename_map raw) "size_sqft").
    now apply (position_other _ "size_sqft" "reg_date" i).
Qed.

(** X12. On a file that was read, the loader ends in one of five ways,
    decided by the first step that fails: [KeyError('reg_date')] without the
    date column, the [ValueError] of the date conversion, [KeyError('size_sqmt')]
    without the size column, [TypeError] when a size is text (exactly when
    the dates are fine, the size column is there and one of its entries is
    not a number), and the table otherwise. *)
Theorem loader_outcomes (raw : DataFrame) :
  unique_columns (rename rename_map raw) = true ->
  (load_and_clean_data (Ret raw) = Raise (KeyError "reg_date")
   \/ load_and_clean_data (Ret raw) = Raise ValueError
   \/ load_and_clean_data (Ret raw) = Raise (KeyError "size_sqmt")
   \/ load_and_clean_data (Ret raw) = Raise TypeError
   \/ load_and_clean_data (Ret raw) = Ret (Some (normalized raw)))
  /\ (load_and_clean_data (Ret raw) = Raise (KeyError "reg_date") <->
      has_column (rename rename_map raw) "reg_date" = false)
  /\ (load_and_clean_data (Ret raw) = Raise (KeyError "size_sqmt") <->
      dates_ok raw = true /\ has_column (rename rename_map raw) "size_sqmt" = false)
  /\ (load_and_clean_data (Ret raw) = Raise TypeError <->
      dates_ok raw = true
      /\ has_column (rename rename_map raw) "size_sqmt" = true
      /\ exists r, In r (rows raw)
                   /\ numeric (get (rename rename_map raw) "size_sqmt" r) = false).
Proof.
  intros _. rewrite load_frame. cbn zeta. unfold dates_ok. cbn zeta.
  rewrite forallb_negb_existsb.
  destruct (has_column (rename rename_map raw) "reg_date"); cbn [negb andb].
  2:{ repeat split; try tauto; try discriminate; intros [H _]; discriminate. }
  destruct (existsb (fun r => unparseable (get (rename rename_map raw) "reg_date" r))
              (rows raw)); cbn [negb andb].
  { repeat split; try tauto; try discriminate; intros [H _]; discriminate. }
  destruct (has_column (rename rename_map raw) "size_sqmt"); cbn [negb andb].
  2:{ repeat split; try tauto; try discriminate.
      intros [_ [H _]]. discriminate. }
  destruct (existsb (fun r => negb (numeric (get (rename rename_map raw) "size_sqmt" r)))
              (rows raw)) eqn:Hn.
  - repeat split; try tauto; try discriminate.
    + intros [_ H]; discriminate.
    + apply existsb_exists in Hn as [r [Hr Hn]]. exists r. split; [exact Hr|].
      now apply negb_true_iff in Hn.
  - repeat split; try tauto; try discriminate.
    + intros [_ H]; discriminate.
    + intros [_ [_ [r [Hr Hr']]]].
      assert (existsb (fun r => negb (numeric (get (rename rename_map raw) "size_sqmt" r)))
                (rows raw) = true)
        by (apply existsb_exists; exists r; now rewrite Hr').
      congruence.
Qed.

(** X13. The loader keeps every row and every entry it does not compute:
    the table has as many rows as the file, in the same order, and under the
    canonical name of each header of the file, other than the date and
    [size_sqft], each row holds the entry the file had under that header. *)
Theorem load_preserves_cells (raw df : DataFrame) :
  unique_columns (rename rename_map raw) = true ->
  load_and_clean_data (Ret raw) = Ret (Some df) ->
  len df = len raw
  /\ Forall2
       (fun r r' =>
          forall h, In h (columns raw) ->
                    renamed rename_map h <> "reg_date" ->
                    renamed rename_map h <> "size_sqft" ->
                    In (renamed rename_map h) (columns df)
                    /\ get df (renamed rename_map h) r' = get raw h r)
       (rows raw) (rows df).
Proof.
  intros Hu H. apply load_Some in H as [_ ->]. split.
  - unfold len, normalized. cbn [rows]. apply length_map.
  - unfold normalized at 1. cbn [rows]. apply Forall2_map_r.
    intros r _ h Hh H1 H2. split.
    + unfold normalized. cbn [columns].
      assert (In (renamed rename_map h) (columns (rename rename_map raw)))
        by (unfold rename; cbn [columns]; now apply in_map).
      destruct (has_column (rename rename_map raw) "size_sqft"); [assumption|].
      apply in_or_app. now left.
    + rewrite get_normalized_other by assumption. now apply get_rename.
Qed.

(** X14. In the table the loader returns every entry of [reg_date] is an
    instant or [NaT]: it is what [pd.to_datetime] makes of the entry of the
    file, and a missing date of the file is [NaT]. *)
Theorem reg_date_is_datetime (raw df : DataFrame) :
  unique_columns (rename rename_map raw) = true ->
  load_and_clean_data (Ret raw) = Ret (Some df) ->
  Forall2
    (fun r r' =>
       exists t,
         get df "reg_date" r' = Datetime t
         /\ to_datetime_cell (get (rename rename_map raw) "reg_date" r) = Ret (Datetime t)
         /\ (isna (get (rename rename_map raw) "reg_date" r) = true -> t = None))
    (rows raw) (rows df).
Proof.
  intros _ H. apply load_Some in H as [Hl ->].
  unfold normalized at 1. cbn [rows]. apply Forall2_map_r. intros r Hr.
  unfold loadable in Hl. cbn zeta in Hl.
  apply andb_true_iff in Hl as [Hl _]. apply andb_true_iff in Hl as [Hl _].
  apply andb_true_iff in Hl as [Hreg Hd]. rewrite forallb_forall in Hd.
  specialize (Hd r Hr). apply negb_true_iff in Hd.
  rewrite (get_normalized_reg_date _ _ Hreg). unfold reg_date_of.
  set (c := get (rename rename_map raw) "reg_date" r) in *.
  unfold unparseable, to_datetime_cell in *.
  destruct c as [s|z|f|t]; cbn [isna] in *.
  - destruct (parse_datetime (Str s)) as [t|]; [|discriminate].
    exists t. repeat split. discriminate.
  - destruct (parse_datetime (Int z)) as [t|]; [|discriminate].
    exists t. repeat split. discriminate.
  - destruct (is_nan f) eqn:Hf; cbn [negb andb] in *.
    + exists None. repeat split.
    + destruct (parse_datetime (Float f)) as [t|]; [|discriminate].
      exists t. repeat split. discriminate.
  - exists t. repeat split. now destruct t.
Qed.

End MoreLoaderProperties.

Section Reload.

Context {dates : DateConventions}.

Lemma position_normalized_size_sqft (raw : DataFrame) :
  position (normalized raw) "size_sqft" = position (rename rename_map raw) "size_sqft".
Proof.
  unfold position at 1. unfold normalized. cbn [columns].
  now rewrite index_of_setitem.
Qed.

Lemma position_normalized_reg_date (raw : DataFrame) :
  has_column (rename rename_map raw) "reg_date" = true ->
  position (normalized raw) "reg_date" = position (rename rename_map raw) "reg_date".
Proof.
  intros H. unfold position at 1. unfold normalized. cbn [columns].
  rewrite index_of_setitem_other by discriminate.
  unfold has_column in H. unfold position.
  now destruct (index_of "reg_date" (columns (rename rename_map raw))).
Qed.

Lemma rename_normalized (raw : DataFrame) :
  rename rename_map (normalized raw) = normalized raw.
Proof.
  unfold rename, normalized. cbn [columns rows]. f_equal.
  destruct (has_column _ "size_sqft").
  - unfold rename. cbn [columns]. rewrite map_map. apply map_ext. apply renamed_idempotent.
  - rewrite map_app. f_equal.
    unfold rename. cbn [columns]. rewrite map_map. apply map_ext. apply renamed_idempotent.
Qed.

Lemma has_column_normalized (raw : DataFrame) (c : string) :
  has_column (rename rename_map raw) c = true -> has_column (normalized raw) c = true.
Proof.
  intros H. apply has_column_In. apply has_column_In in H.
  unfold normalized. cbn [columns].
  destruct (has_column _ "size_sqft"); [exact H | apply in_or_app; now left].
Qed.

Lemma has_size_sqft_normalized (raw : DataFrame) :
  has_column (normalized raw) "size_sqft" = true.
Proof.
  unfold has_column, normalized. cbn [columns]. now rewrite index_of_setitem.
Qed.

Lemma converted_is_datetime (c : cell) :
  unparseable c = false -> exists t, value NaN (to_datetime_cell c) = Datetime t.
Proof.
  unfold unparseable, to_datetime_cell.
  destruct c as [s|z|f|t]; cbn [isna].
  - destruct (parse_datetime (Str s)) as [t|]; [|discriminate]. now exists t.
  - destruct (parse_datetime (Int z)) as [t|]; [|discriminate]. now exists t.
  - destruct (is_nan f); [now exists None|].
    destruct (parse_datetime (Float f)) as [t|]; [|discriminate]. now exists t.
  - now exists t.
Qed.

Lemma cell_at_normalized_reg_date (raw : DataFrame) (r : Row) :
  has_column (rename rename_map raw) "reg_date" = true ->
  cell_at (position (rename rename_map raw) "reg_date")
          (normalize_row (rename rename_map raw) r)
  = reg_date_of (rename rename_map raw) r.
Proof.
  intros H. unfold normalize_row.
  rewrite cell_at_set_cell_other; [apply cell_at_set_cell|].
  unfold has_column in H. unfold position at 2.
  destruct (index_of "reg_date" (columns (rename rename_map raw))) as [i|] eqn:Hi;
    [|discriminate].
  now apply (position_other _ "size_sqft" "reg_date" i).
Qed.

(** X15. Loading the table the loader returned gives that table again:
    canonical names are renamed to themselves, instants stay as they are, and
    [size_sqft] is computed anew to the value it has. *)
Theorem load_idempotent (raw df : DataFrame) :
  unique_columns (rename rename_map raw) = true ->
  load_and_clean_data (Ret raw) = Ret (Some df) ->
  load_and_clean_data (Ret df) = Ret (Some df).
Proof.
  intros _ H. apply load_Some in H as [Hl ->].
  assert (Hcols := loadable_columns raw Hl). destruct Hcols as [Hreg [Hsize Hnum]].
  assert (Hd : forall r, In r (rows raw) ->
               unparseable (get (rename rename_map raw) "reg_date" r) = false).
  { unfold loadable in Hl. cbn zeta in Hl.
    apply andb_true_iff in Hl as [Hl _]. apply andb_true_iff in Hl as [Hl _].
    apply andb_true_iff in Hl as [_ Hd]. rewrite forallb_forall in Hd.
    intros r Hr. now apply negb_true_iff, Hd. }
  assert (Hrow : forall r, In r (rows raw) ->
            normalize_row (normalized raw) (normalize_row (rename rename_map raw) r)
            = normalize_row (rename rename_map raw) r).
  { intros r Hr.
    set (r' := normalize_row (rename rename_map raw) r).
    unfold normalize_row at 1.
    rewrite position_normalized_size_sqft, (position_normalized_reg_date _ Hreg).
    assert (E1 : reg_date_of (normalized raw) r'
                 = cell_at (position (rename rename_map raw) "reg_date") r').
    { unfold reg_date_of at 1. unfold r'.
      rewrite (get_normalized_reg_date _ _ Hreg), (cell_at_normalized_reg_date _ _ Hreg).
      unfold reg_date_of. destruct (converted_is_datetime _ (Hd r Hr)) as [t ->].
      reflexivity. }
    assert (E2 : size_sqft_of (normalized raw) r'
                 = cell_at (position (rename rename_map raw) "size_sqft") r').
    { unfold size_sqft_of at 1. unfold r'. rewrite get_normalized_other by discriminate.
      unfold normalize_row. now rewrite cell_at_set_cell. }
    rewrite E1, E2.
    assert (L : (position (rename rename_map raw) "reg_date" < length r')%nat
                /\ (position (rename rename_map raw) "size_sqft" < length r')%nat).
    { unfold r', normalize_row.
      pose proof (length_set_cell (position (rename rename_map raw) "size_sqft")
                    (size_sqft_of (rename rename_map raw) r)
                    (set_cell (position (rename rename_map raw) "reg_date")
                       (reg_date_of (rename rename_map raw) r) r)) as [La La'].
      pose proof (length_set_cell (position (rename rename_map raw) "reg_date")
                    (reg_date_of (rename rename_map raw) r) r) as [Lb _].
      lia. }
    destruct L as [L1 L2].
    rewrite (set_cell_same _ _ L1). now apply set_cell_same. }
  assert (Hn : normalized (normalized raw) = normalized raw).
  { unfold normalized at 1. cbn zeta. rewrite rename_normalized.
    rewrite has_size_sqft_normalized.
    transitivity (mkFrame (columns (normalized raw)) (rows (normalized raw)));
      [|now destruct (normalized raw)].
    f_equal.
    change (rows (normalized raw))
      with (map (normalize_row (rename rename_map raw)) (rows raw)).
    rewrite map_map. apply map_ext_in. exact Hrow. }
  rewrite <- Hn at 2. apply load_Ret.
  unfold loadable. cbn zeta. rewrite rename_normalized.
  rewrite (has_column_normalized _ _ Hreg), (has_column_normalized _ _ Hsize).
  cbn [andb]. rewrite andb_true_r. apply andb_true_iff. split.
  - apply forallb_forall. intros r' Hr'. unfold normalized in Hr'. cbn [rows] in Hr'.
    apply in_map_iff in Hr' as [r [<- Hr]]. apply negb_true_iff.
    rewrite (get_normalized_reg_date _ _ Hreg). unfold reg_date_of.
    destruct (converted_is_datetime _ (Hd r Hr)) as [t ->]. reflexivity.
  - apply forallb_forall. intros r' Hr'. unfold normalized in Hr'. cbn [rows] in Hr'.
    apply in_map_iff in Hr' as [r [<- Hr]].
    rewrite get_normalized_other by discriminate. now apply Hnum.
Qed.

End Reload.

(* ===================================================================== *)
(** * Properties of the page *)
(* ===================================================================== *)

Lemma filter_map_comm {A B : Type} (p : B -> bool) (f : A -> B) (l : list A) :
  filter p (map f l) = map f (filter (fun x => p (f x)) l).
Proof.
  induction l as [|x l IH]; simpl; [reflexivity|].
  destruct (p (f x)); simpl; now rewrite IH.
Qed.

Lemma cell_at_map_index (g : string -> cell) (cs : list string) (c : string) (i : nat) :
  index_of c cs = Some i -> cell_at i (map g cs) = g c.
Proof.
  revert i. induction cs as [|c' cs IH]; simpl; intros i H; [discriminate|].
  destruct (String.eqb_spec c' c) as [->|Hne].
  - now injection H as <-.
  - destruct (index_of c cs) as [j|]; [|discriminate].
    injection H as <-. now apply IH.
Qed.

(** A cell of the projection is the cell of the frame. *)
Lemma get_project (df : DataFrame) (cs : list string) (c : string) (r : Row) :
  In c cs -> get (project df cs) c (map (fun c => get df c r) cs) = get df c r.
Proof.
  intros H. unfold get at 1, project. cbn [columns].
  apply index_of_In in H as [i Hi]. rewrite Hi.
  now apply (cell_at_map_index (fun c => get df c r)).
Qed.

Lemma len_project (df : DataFrame) (cs : list string) : len (project df cs) = len df.
Proof. unfold len, project. cbn [rows]. apply length_map. Qed.

Section Page.

Context {dates : DateConventions}.

(** X16. The results section shows a table with rows and columns as the
    count of its rows followed by its projection on the columns of the fixed
    display list that it has, in the order of that list: every row is shown,
    each shown entry is the entry of the result, and a column outside the
    list is not shown. *)
Theorem display_shows_known_columns (results : DataFrame) :
  frame_empty results = false ->
  exists shown,
    display results = [StSuccess (len results); StDataframe shown]
    /\ columns shown = filter (has_column results) desired_columns
    /\ (forall c, In c (columns shown) <-> In c desired_columns /\ In c (columns results))
    /\ len shown = len results
    /\ Forall2 (fun r r' => forall c, In c (columns shown) -> get shown c r' = get results c r)
               (rows results) (rows shown).
Proof.
  intros H. unfold display. rewrite H. cbn [negb].
  eexists. split; [reflexivity|]. split; [reflexivity|]. split; [|split].
  - intros c. unfold project. cbn [columns]. rewrite filter_In, has_column_In. tauto.
  - apply len_project.
  - unfold project. cbn [rows columns]. apply Forall2_map_r.
    intros r _ c Hc. now apply (get_project results).
Qed.

(** X17. A search with nothing typed in its key field does not reach the
    query engine: whatever the table that was loaded, the page shows the
    warning of the mode, followed by the notice that nothing was found. *)
Theorem empty_key_is_rejected (read_csv : outcome DataFrame) (df : DataFrame) (ui : widgets) :
  load_and_clean_data read_csv = Ret (Some df) ->
  button ui = true ->
  key_input ui = "" ->
  main read_csv ui
  = Ret [StWarning match search_type ui with
                   | NameSearch => "Please enter a name."
                   | IDSearch => "Please enter an ID."
                   | PhoneSearch => "Please enter a phone number."
                   | PropertySearch => "Property Name is required for this search."
                   end;
         StInfo "No matching records found."].
Proof.
  intros Hl Hb Hk. unfold main. rewrite Hl. cbn [bind]. rewrite Hb.
  unfold run_search. rewrite Hk. now destruct (search_type ui).
Qed.

(** What [run_search] returns on a table that has the columns the searches
    read: a selection of its rows, or the empty frame and a warning. *)
Lemma run_search_returns (ui : widgets) (df : DataFrame) :
  table_with page_columns df = true ->
  exists results msgs,
    run_search ui df = Ret (results, msgs)
    /\ ((msgs = [] /\ exists p, results = select df p)
        \/ (results = empty_frame /\ exists msg, msgs = [StWarning msg])).
Proof.
  intros H.
  assert (Hc : forall c, In c page_columns -> has_column df c = true)
    by (intros c; apply table_with_column; exact H).
  unfold run_search.
  destruct (search_type ui); (destruct (Py.str_truth (key_input ui)); [|eauto 10]).
  - rewrite search_name_spec by (apply Hc; simpl; tauto). cbn [bind]. eauto 10.
  - rewrite search_id_spec by (apply Hc; simpl; tauto). cbn [bind]. eauto 10.
  - rewrite search_phone_spec by (apply Hc; simpl; tauto). cbn [bind]. eauto 10.
  - assert (Hp : has_columns df property_columns = true).
    { unfold has_columns. apply forallb_forall. intros c Hi. apply Hc.
      unfold page_columns. apply in_or_app. now right. }
    cbn zeta. destruct (enable_date ui).
    + rewrite (search_property_spec _ _ _ _ (Some (DateObj (trans_date ui))) _
                 (Some (Some (trans_date ui))) Hp eq_refl).
      cbn [bind]. eauto 10.
    + rewrite (search_property_spec _ _ _ _ None _ None Hp eq_refl).
      cbn [bind]. eauto 10.
Qed.

(** X18. Once a table that has the columns the searches read is loaded,
    the page never ends with an exception, whatever the widgets say: it
    shows nothing (no button pressed), a warning and the notice (no key),
    the notice (no match), or the number of rows found, at most the number
    of rows of the table, with that many rows. *)
Theorem page_never_raises (read_csv : outcome DataFrame) (df : DataFrame) (ui : widgets) :
  load_and_clean_data read_csv = Ret (Some df) ->
  table_with page_columns df = true ->
  exists out,
    main read_csv ui = Ret out
    /\ (out = []
        \/ (exists msg, out = [StWarning msg; StInfo "No matching records found."])
        \/ out = [StInfo "No matching records found."]
        \/ (exists shown,
              out = [StSuccess (len shown); StDataframe shown]
              /\ (0 < len shown <= len df)%nat)).
Proof.
  intros Hl H. unfold main. rewrite Hl. cbn [bind].
  destruct (button ui); [|eauto].
  destruct (run_search_returns ui df H) as [results [msgs [Hr Hcase]]].
  rewrite Hr. cbn [bind fst snd]. eexists. split; [reflexivity|].
  destruct Hcase as [[-> [p ->]]|[-> [msg ->]]].
  - cbn [app]. destruct (frame_empty (select df p)) eqn:He.
    + right. right. left. unfold display. now rewrite He.
    + right. right. right.
      destruct (display_shows_known_columns _ He) as [shown [Hd [_ [_ [Hlen _]]]]].
      exists shown. rewrite Hd, Hlen. split; [reflexivity|].
      split; [|apply select_len_le].
      unfold frame_empty, len in *. destruct (rows (select df p)); [discriminate|].
      simpl. lia.
  - right. left. now exists msg.
Qed.

(** X19. The exception of a search is not caught: on a loaded table that
    lacks the [name_en] column a name search with a key ends the page with
    [KeyError('name_en')], and likewise an ID search without [id_number] and
    a phone search without [mobile]. *)
Theorem page_raises_on_missing_column (read_csv : outcome DataFrame) (df : DataFrame)
    (ui : widgets) :
  load_and_clean_data read_csv = Ret (Some df) ->
  button ui = true ->
  key_input ui <> "" ->
  (search_type ui = NameSearch -> has_column df "name_en" = false ->
   main read_csv ui = Raise (KeyError "name_en"))
  /\ (search_type ui = IDSearch -> has_column df "id_number" = false ->
      main read_csv ui = Raise (KeyError "id_number"))
  /\ (search_type ui = PhoneSearch -> has_column df "mobile" = false ->
      main read_csv ui = Raise (KeyError "mobile")).
Proof.
  intros Hl Hb Hk.
  assert (Ht : Py.str_truth (key_input ui) = true)
    by (destruct (key_input ui); [congruence | reflexivity]).
  unfold main. rewrite Hl. cbn [bind]. rewrite Hb. unfold run_search. rewrite Ht.
  split; [|split]; intros -> Hc.
  - unfold search_name. now rewrite (getitem_lacks _ _ Hc).
  - unfold search_id. now rewrite (getitem_lacks _ _ Hc).
  - unfold search_phone. now rewrite (getitem_lacks _ _ Hc).
Qed.

(** X20. From the file to the page: on a file that is loaded and has the
    [NameEn] header, a name search with a key shows as its count the number
    of rows of the file whose [NameEn] is the key, with that many rows, or
    the notice when there is none. *)
Theorem name_search_end_to_end (raw : DataFrame) (ui : widgets) :
  unique_columns (rename rename_map raw) = true ->
  loadable raw = true ->
  In "NameEn" (columns raw) ->
  search_type ui = NameSearch ->
  button ui = true ->
  key_input ui <> "" ->
  (length (filter (fun r => eq_str (Some (key_input ui)) (get raw "NameEn" r)) (rows raw)) = 0%nat ->
   main (Ret raw) ui = Ret [StInfo "No matching records found."])
  /\ (length (filter (fun r => eq_str (Some (key_input ui)) (get raw "NameEn" r)) (rows raw))
      <> 0%nat ->
      exists shown,
        main (Ret raw) ui
        = Ret [StSuccess
                 (length (filter (fun r => eq_str (Some (key_input ui)) (get raw "NameEn" r))
                                 (rows raw)));
               StDataframe shown]
        /\ len shown
           = length (filter (fun r => eq_str (Some (key_input ui)) (get raw "NameEn" r))
                            (rows raw))).
Proof.
  intros Hu Hl Hin Hmode Hb Hk.
  assert (Ht : Py.str_truth (key_input ui) = true)
    by (destruct (key_input ui); [congruence | reflexivity]).
  assert (Hname : has_column (normalized raw) "name_en" = true).
  { apply has_column_normalized, has_column_In. unfold rename. cbn [columns].
    change "name_en" with (renamed rename_map "NameEn"). now apply in_map. }
  set (res := select (normalized raw) (name_match (normalized raw) (key_input ui))).
  assert (Hmain : main (Ret raw) ui = Ret (display res)).
  { unfold main. rewrite (load_Ret _ Hl). cbn [bind]. rewrite Hb.
    unfold run_search. rewrite Hmode, Ht, (search_name_spec _ _ Hname). reflexivity. }
  assert (Hrows : rows res
                  = map (normalize_row (rename rename_map raw))
                        (filter (fun r => eq_str (Some (key_input ui)) (get raw "NameEn" r))
                                (rows raw))).
  { unfold res, select. cbn [rows]. unfold normalized at 2. cbn [rows].
    rewrite filter_map_comm. f_equal. apply filter_ext. intros r.
    unfold name_match. rewrite get_normalized_other by discriminate.
    change "name_en" with (renamed rename_map "NameEn").
    now rewrite get_rename. }
  assert (Hlen : len res
                 = length (filter (fun r => eq_str (Some (key_input ui)) (get raw "NameEn" r))
                                  (rows raw))).
  { unfold len. rewrite Hrows. apply length_map. }
  rewrite Hmain. split; intros Hn.
  - unfold display, frame_empty. rewrite Hrows.
    apply length_zero_iff_nil in Hn. now rewrite Hn.
  - assert (He : frame_empty res = false).
    { unfold frame_empty. rewrite Hrows.
      destruct (filter _ (rows raw)) as [|r l]; [now contradiction Hn|].
      cbn [map]. apply has_column_In in Hname.
      change (columns res) with (columns (normalized raw)).
      destruct (columns (normalized raw)); [destruct Hname | reflexivity]. }
    destruct (display_shows_known_columns _ He) as [shown [Hd [_ [_ [Hs _]]]]].
    exists shown. rewrite Hd, <- Hlen. split; [reflexivity | exact Hs].
Qed.

End Page.

(* ===================================================================== *)
(** * Properties of convert_data.py *)
(* ===================================================================== *)

Lemma Forall2_map_eq {A B C : Type} (f : A -> C) (g : B -> C) (l : list A) (l' : list B) :
  Forall2 (fun x y => f x = g y) l l' -> map f l = map g l'.
Proof. induction 1; simpl; congruence. Qed.

Lemma Forall2_map_step {A B : Type} (R R' : A -> B -> Prop) (g : B -> B)
    (l : list A) (l' : list B) :
  (forall x y, R x y -> R' x (g y)) -> Forall2 R l l' -> Forall2 R' l (map g l').
Proof. intros H. induction 1; simpl; constructor; auto. Qed.

Lemma Forall2_same {A : Type} (R : A -> A -> Prop) (l : list A) :
  (forall x, R x x) -> Forall2 R l l.
Proof. intros H. induction l; constructor; auto. Qed.

Lemma Forall2_len {A B : Type} (R : A -> B -> Prop) (l : list A) (l' : list B) :
  Forall2 R l l' -> length l' = length l.
Proof. induction 1; simpl; congruence. Qed.

Lemma existsb_app_one (c col : string) (done : list string) :
  existsb (String.eqb c) (done ++ [col]) = existsb (String.eqb c) done || (c =? col)%string.
Proof. rewrite existsb_app. simpl. now rewrite orb_false_r. Qed.

Lemma distinct_app_head (done todo : list string) (col : string) :
  distinct (done ++ col :: todo) = true -> existsb (String.eqb col) done = false.
Proof.
  induction done as [|d done IH]; simpl; intros H; [reflexivity|].
  apply andb_true_iff in H as [Hd H]. apply negb_true_iff in Hd.
  rewrite (IH H), orb_false_r.
  destruct (String.eqb_spec col d) as [->|Hne]; [|reflexivity].
  rewrite existsb_app in Hd. simpl in Hd. rewrite String.eqb_refl in Hd.
  now rewrite orb_true_r in Hd.
Qed.

Lemma existsb_eqb_In (c : string) (l : list string) :
  In c l -> existsb (String.eqb c) l = true.
Proof.
  intros H. apply existsb_exists. exists c. split; [exact H | apply String.eqb_refl].
Qed.

Section ConvertDataProperties.

Context {dates : DateConventions}.

(** One turn of the loop on a label the frame has. *)
Lemma convert_column_spec (cur : DataFrame) (col : string) (i : nat) :
  index_of col (columns cur) = Some i ->
  convert_column cur col
  = Ret (if dtype_object (map (cell_at i) (rows cur))
         then mkFrame (columns cur)
                      (map (fun r => set_cell i (Str (astype_str (cell_at i r))) r) (rows cur))
         else cur).
Proof.
  intros Hi. unfold convert_column, getitem. rewrite Hi. cbn [bind].
  destruct (dtype_object (map (cell_at i) (rows cur))); [|reflexivity].
  cbn [bind]. f_equal. unfold setitem, has_column, position. rewrite Hi. f_equal.
  unfold astype_str_series. rewrite map_map, combine_map_r, map_map. reflexivity.
Qed.

(** The loop, from the labels already visited to the end. *)
Lemma convert_columns_loop (df : DataFrame) (todo done : list string) (cur : DataFrame) :
  distinct (columns df) = true ->
  columns df = done ++ todo ->
  columns cur = columns df ->
  Forall2 (fun r r' =>
             forall c, In c (columns df) ->
                       get cur c r'
                       = if existsb (String.eqb c) done
                         then converted_cell df c (get df c r) else get df c r)
          (rows df) (rows cur) ->
  exists res,
    convert_columns todo cur = Ret res
    /\ columns res = columns df
    /\ Forall2 (fun r r' =>
                  forall c, In c (columns df) ->
                            get res c r' = converted_cell df c (get df c r))
               (rows df) (rows res).
Proof.
  intros Hd. revert done cur. induction todo as [|col todo IH]; intros done cur Hsplit Hcols Hinv.
  - exists cur. split; [reflexivity|]. split; [exact Hcols|].
    rewrite app_nil_r in Hsplit. subst done.
    eapply Forall2_impl; [|exact Hinv]. intros r r' H c Hc. cbn beta in H.
    now rewrite (H c Hc), (existsb_eqb_In c _ Hc).
  - assert (Hnew : existsb (String.eqb col) done = false)
      by (apply (distinct_app_head done todo); now rewrite <- Hsplit).
    assert (Hin : In col (columns df))
      by (rewrite Hsplit; apply in_or_app; right; now left).
    destruct (proj2 (index_of_In col (columns df)) Hin) as [i Hi].
    assert (Hi' : index_of col (columns cur) = Some i) by now rewrite Hcols.
    assert (Hcol : map (cell_at i) (rows cur) = map (get df col) (rows df)).
    { symmetry. apply Forall2_map_eq. eapply Forall2_impl; [|exact Hinv].
      intros r r' H. cbn beta in H. specialize (H col Hin). rewrite Hnew in H.
      rewrite <- H. unfold get. now rewrite Hi'. }
    cbn [convert_columns]. rewrite (convert_column_spec _ _ _ Hi'), Hcol. cbn [bind].
    fold (text_column df col).
    apply (IH (done ++ [col])).
    + now rewrite <- app_assoc.
    + now destruct (text_column df col).
    + destruct (text_column df col) eqn:Ht.
      * cbn [rows]. eapply Forall2_map_step; [|exact Hinv].
        intros r r' H c Hc. cbn beta in H. rewrite existsb_app_one.
        unfold get at 1. cbn [columns]. rewrite Hcols.
        destruct (String.eqb_spec c col) as [->|Hne].
        -- rewrite Hi, orb_true_r, cell_at_set_cell.
           unfold converted_cell. rewrite Ht. do 2 f_equal.
           specialize (H col Hin). rewrite Hnew in H. rewrite <- H.
           unfold get. now rewrite Hi'.
        -- rewrite orb_false_r. rewrite <- (H c Hc). unfold get. rewrite Hcols.
           destruct (index_of c (columns df)) as [j|] eqn:Hj; [|reflexivity].
           apply cell_at_set_cell_other. intros ->. apply Hne.
           now apply (index_of_inj c col (columns df) j).
      * eapply Forall2_impl; [|exact Hinv].
        intros r r' H c Hc. cbn beta in H. rewrite existsb_app_one, (H c Hc).
        destruct (String.eqb_spec c col) as [->|Hne].
        -- rewrite Hnew. cbn [orb]. unfold converted_cell. now rewrite Ht.
        -- now rewrite orb_false_r.
Qed.

(** X21. On a frame with distinct labels the conversion loop never
    raises, and keeps the labels and the number of rows; in a column that
    holds text every entry becomes the text [str] gives it, a missing entry
    becoming the text [nan], and every other column is left as it is. *)
Theorem convert_columns_spec (df : DataFrame) :
  unique_columns df = true ->
  exists res,
    convert_columns (columns df) df = Ret res
    /\ columns res = columns df
    /\ len res = len df
    /\ Forall2 (fun r r' =>
                  forall c, In c (columns df) ->
                            get res c r' = converted_cell df c (get df c r)
                            /\ (text_column df c = true -> is_text (get res c r') = true)
                            /\ (text_column df c = true -> get df c r = NaN ->
                                get res c r' = Str "nan")
                            /\ (text_column df c = false -> get res c r' = get df c r))
               (rows df) (rows res).
Proof.
  intros Hu.
  destruct (convert_columns_loop df (columns df) [] df Hu eq_refl eq_refl)
    as [res [Hres [Hcols Hall]]].
  { apply Forall2_same. intros r c _. reflexivity. }
  exists res. split; [exact Hres|]. split; [exact Hcols|]. split.
  - unfold len. now apply Forall2_len in Hall.
  - eapply Forall2_impl; [|exact Hall]. intros r r' H c Hc. cbn beta in H.
    rewrite (H c Hc). unfold converted_cell.
    destruct (text_column df c); repeat split; try discriminate; try reflexivity.
    intros _ ->. reflexivity.
Qed.

(** X22. The script reports a failure only of the reading or of the
    writing: when [pd.read_csv] raises it prints the error and writes
    nothing; on a frame that was read (its labels distinct) the conversion
    cannot fail, and the script prints [Success!] and has written the
    converted frame exactly when [to_parquet] returns, and otherwise prints
    the error of [to_parquet]. *)
Theorem convert_data_outcomes (read_csv : outcome DataFrame)
    (to_parquet : DataFrame -> outcome unit) :
  (forall e, read_csv = Raise e ->
             convert_data read_csv to_parquet
             = ([Print "Reading CSV..."; PrintError e], None))
  /\ (forall df, read_csv = Ret df -> unique_columns df = true ->
        exists res,
          convert_columns (columns df) df = Ret res
          /\ (forall u, to_parquet res = Ret u ->
                convert_data read_csv to_parquet
                = ([Print "Reading CSV..."; Print "Converting object columns to string...";
                    Print "Saving to Parquet..."; Print "Success!"], Some res))
          /\ (forall e, to_parquet res = Raise e ->
                convert_data read_csv to_parquet
                = ([Print "Reading CSV..."; Print "Converting object columns to string...";
                    Print "Saving to Parquet..."; PrintError e], None))).
Proof.
  split.
  - now intros e ->.
  - intros df -> Hu.
    destruct (convert_columns_spec df Hu) as [res [Hres _]].
    exists res. split; [exact Hres|].
    unfold convert_data. rewrite Hres.
    split; intros x Hx; now rewrite Hx.
Qed.

(** A text column of the frame has text in every row once converted, and
    any other column is the same series as before. *)
Lemma converted_column (df res : DataFrame) (c : string) :
  Forall2 (fun r r' => get res c r' = converted_cell df c (get df c r))
          (rows df) (rows res) ->
  if text_column df c
  then Forall (fun r' => is_text (get res c r') = true) (rows res)
  else text_column res c = false.
Proof.
  intros Hall. destruct (text_column df c) eqn:Ht.
  - induction Hall as [|r r' l l' H _ IH]; constructor; [|exact IH].
    rewrite H. unfold converted_cell. now rewrite Ht.
  - unfold text_column in *. rewrite <- Ht. f_equal. symmetry.
    apply Forall2_map_eq. eapply Forall2_impl; [|exact Hall].
    intros r r' H. cbn beta in H. rewrite H. unfold converted_cell.
    fold (text_column df c). unfold text_column. now rewrite Ht.
Qed.

Lemma Forall2_impl_l {A B : Type} (P : A -> Prop) (R R' : A -> B -> Prop)
    (l : list A) (l' : list B) :
  (forall x y, P x -> R x y -> R' x y) ->
  Forall P l -> Forall2 R l l' -> Forall2 R' l l'.
Proof.
  intros H HP Hall. induction Hall as [|x y l l' Hxy _ IH]; constructor.
  - apply H; [now inversion HP | exact Hxy].
  - apply IH. now inversion HP.
Qed.

Lemma Forall2_forall_label {A B : Type} (R : string -> A -> B -> Prop)
    (cols : list string) (l : list A) (l' : list B) (c : string) :
  In c cols ->
  Forall2 (fun x y => forall c, In c cols -> R c x y) l l' ->
  Forall2 (R c) l l'.
Proof.
  intros Hc Hall. eapply Forall2_impl; [|exact Hall]. intros x y H. now apply H.
Qed.

(** X23. Converting a second time changes nothing: on the frame the loop
    has produced, the loop succeeds again and every entry of the result is
    the entry it was given. *)
Theorem convert_columns_idempotent (df res : DataFrame) :
  unique_columns df = true ->
  convert_columns (columns df) df = Ret res ->
  exists again,
    convert_columns (columns res) res = Ret again
    /\ columns again = columns res
    /\ Forall2 (fun r r' => forall c, In c (columns res) -> get again c r' = get res c r)
               (rows res) (rows again).
Proof.
  intros Hu Hres.
  destruct (convert_columns_loop df (columns df) [] df Hu eq_refl eq_refl)
    as [res' [Hres' [Hcols Hall]]].
  { apply Forall2_same. intros r c _. reflexivity. }
  rewrite Hres in Hres'. injection Hres' as <-.
  assert (Hu' : distinct (columns res) = true) by now rewrite Hcols.
  destruct (convert_columns_loop res (columns res) [] res Hu' eq_refl eq_refl)
    as [again [Hagain [Hcols' Hall']]].
  { apply Forall2_same. intros r c _. reflexivity. }
  exists again. split; [exact Hagain|]. split; [exact Hcols'|].
  assert (Hfix : Forall (fun r' => forall c, In c (columns res) ->
                          converted_cell res c (get res c r') = get res c r') (rows res)).
  { apply Forall_forall. intros r' Hr' c Hc. rewrite Hcols in Hc.
    pose proof (converted_column df res c
                  (Forall2_forall_label
                     (fun c r r' => get res c r' = converted_cell df c (get df c r))
                     _ _ _ c Hc Hall)) as Hcol.
    unfold converted_cell at 1.
    destruct (text_column df c).
    - rewrite Forall_forall in Hcol. specialize (Hcol r' Hr').
      destruct (get res c r'); try discriminate.
      now destruct (text_column res c).
    - now rewrite Hcol. }
  eapply Forall2_impl_l; [|exact Hfix|exact Hall'].
  intros r r' Hr H c Hc. cbn beta in Hr, H. now rewrite (H c Hc), (Hr c Hc).
Qed.

End ConvertDataProperties.

(* ===================================================================== *)
(** * The further properties on the sample files *)
(* ===================================================================== *)

(** X1 on the sample: JOHN SMITH is found under his name as it is written,
    and not under the same name in small letters. *)
Lemma search_name_exact_witness :
  table_with ["name_en"] Sample.table = true
  /\ search_name "JOHN SMITH" Sample.table
     = Ret (select Sample.table (name_match Sample.table "JOHN SMITH"))
  /\ In Sample.john_row (rows (select Sample.table (name_match Sample.table "JOHN SMITH")))
  /\ ~ In Sample.john_row (rows (select Sample.table (name_match Sample.table "John Smith"))).
Proof.
  assert (H : table_with ["name_en"] Sample.table = true) by reflexivity.
  split; [exact H|].
  destruct (search_name_exact Sample.table "JOHN SMITH" H) as [H1 H2].
  destruct (search_name_exact Sample.table "John Smith" H) as [_ H3].
  split; [exact H1|]. split.
  - apply H2. split; [vm_compute; auto | reflexivity].
  - intros Hin. apply H3 in Hin as [_ Heq]. vm_compute in Heq. discriminate.
Defined.

(** X2 on the sample: the phone number of the first row. *)
Lemma search_phone_exact_witness :
  table_with ["mobile"] Sample.table = true
  /\ search_phone "971-50-1112233" Sample.table
     = Ret (select Sample.table (phone_match Sample.table "971-50-1112233"))
  /\ In Sample.john_row
        (rows (select Sample.table (phone_match Sample.table "971-50-1112233")))
  /\ ~ In Sample.john_row
          (rows (select Sample.table (phone_match Sample.table "971501112233"))).
Proof.
  assert (H : table_with ["mobile"] Sample.table = true) by reflexivity.
  split; [exact H|].
  destruct (search_phone_exact Sample.table "971-50-1112233" H) as [H1 H2].
  destruct (search_phone_exact Sample.table "971501112233" H) as [_ H3].
  split; [exact H1|]. split.
  - apply H2. split; [vm_compute; auto | reflexivity].
  - intros Hin. apply H3 in Hin as [_ Heq]. vm_compute in Heq. discriminate.
Defined.

(** X3 on the sample: the result of the search for JOHN SMITH. *)
Lemma searches_return_subtables_witness :
  search_name "JOHN SMITH" Sample.table
  = Ret (select Sample.table (name_match Sample.table "JOHN SMITH"))
  /\ subtable (select Sample.table (name_match Sample.table "JOHN SMITH")) Sample.table.
Proof.
  assert (H : search_name "JOHN SMITH" Sample.table
              = Ret (select Sample.table (name_match Sample.table "JOHN SMITH")))
    by (vm_compute; reflexivity).
  split; [exact H|].
  exact (proj1 (searches_return_subtables Sample.table _) "JOHN SMITH" H).
Defined.

(** X4 on the table of a file that has the date and the size only. *)
Lemma search_missing_column_witness :
  has_column Cases.minimal_table "name_en" = false
  /\ search_name "JOHN SMITH" Cases.minimal_table = Raise (KeyError "name_en")
  /\ has_column Cases.minimal_table "mobile" = false
  /\ search_phone "971-50-1112233" Cases.minimal_table = Raise (KeyError "mobile").
Proof.
  destruct (search_missing_column Cases.minimal_table) as [H1 [_ [_ [H4 _]]]].
  split; [reflexivity|]. split; [apply H1; reflexivity|].
  split; [reflexivity|]. apply H4. reflexivity.
Defined.

(** X5 on the sample: OCEAN HEIGHTS with a size of 100 and a unit number
    that ends with [01]. *)
Lemma search_property_conjunction_witness :
  table_with property_columns Sample.table = true
  /\ date_filter None = Ret None
  /\ search_property (Some "OCEAN HEIGHTS") Sample.table (Some 100%float) None None (Some "01")
     = Ret (select Sample.table
              (property_match Sample.table (Some "OCEAN HEIGHTS") (Some 100%float) None None
                              (Some "01")))
  /\ In Sample.john_row
        (rows (select Sample.table
                 (property_match Sample.table (Some "OCEAN HEIGHTS") (Some 100%float) None None
                                 (Some "01")))).
Proof.
  assert (H : table_with property_columns Sample.table = true) by reflexivity.
  split; [exact H|]. split; [reflexivity|].
  destruct (search_property_conjunction Sample.table (Some "OCEAN HEIGHTS") (Some 100%float)
              None None (Some "01") None H eq_refl) as [H1 H2].
  split; [exact H1|].
  apply H2. split; [vm_compute; auto|]. repeat split; vm_compute; reflexivity.
Defined.

(** X6 on the sample: the size filter and the unit filter, in both orders. *)
Lemma filters_commute_witness :
  table_with ["size_sqmt"; "size_sqft"; "reg_date"; "unit_number"] Sample.table = true
  /\ (x <- filter_size_sqmt (Some 100%float) Sample.table ;; filter_unit_number (Some "01") x)
     = (x <- filter_unit_number (Some "01") Sample.table ;; filter_size_sqmt (Some 100%float) x).
Proof.
  assert (H : table_with ["size_sqmt"; "size_sqft"; "reg_date"; "unit_number"] Sample.table
              = true) by reflexivity.
  split; [exact H|].
  destruct (filters_commute Sample.table (Some 100%float) None None (Some "01") H)
    as [_ [_ [H3 _]]].
  exact H3.
Defined.

(** X7 on the sample: a date filter that is not a date, with a name that no
    row has. *)
Lemma unparseable_date_aborts_witness :
  table_with (identity_columns ++ ["size_sqmt"; "size_sqft"]) Sample.table = true
  /\ "15th of January" <> ""
  /\ parse_datetime (Str "15th of January") = None
  /\ search_property (Some "NOBODY") Sample.table None None
                     (Some (DateText "15th of January")) None
     = Raise ValueError.
Proof.
  assert (H : table_with (identity_columns ++ ["size_sqmt"; "size_sqft"]) Sample.table = true)
    by reflexivity.
  assert (Hs : "15th of January" <> "") by discriminate.
  assert (Hp : parse_datetime (Str "15th of January") = None) by reflexivity.
  split; [exact H|]. split; [exact Hs|]. split; [exact Hp|].
  exact (unparseable_date_aborts Sample.table (Some "NOBODY") None None "15th of January"
                                 None H Hs Hp).
Defined.

(** X8 on the sample: the third row has no date, and is not returned by the
    date filter. *)
Lemma missing_values_never_match_witness :
  table_with ["size_sqmt"; "size_sqft"; "reg_date"] Sample.table = true
  /\ Py.float_truth 100 = true
  /\ isna (get Sample.table "reg_date" Cases.jane_row) = true
  /\ filter_transaction_date (Some (DateObj 0)) Sample.table
     = Ret (select Sample.table
              (fun r => eq_datetime (Some 0) (get Sample.table "reg_date" r)))
  /\ ~ In Cases.jane_row
          (rows (select Sample.table
                   (fun r => eq_datetime (Some 0) (get Sample.table "reg_date" r)))).
Proof.
  assert (H : table_with ["size_sqmt"; "size_sqft"; "reg_date"] Sample.table = true)
    by reflexivity.
  assert (Hv : Py.float_truth 100 = true) by reflexivity.
  split; [exact H|]. split; [exact Hv|]. split; [reflexivity|].
  destruct (missing_values_never_match Sample.table 100%float 0 H Hv)
    as [_ [_ [H3 [_ [_ [H6 _]]]]]].
  split; [exact H3|]. apply H6. reflexivity.
Defined.

(** X9 on the sample: the second row has no unit number, and is returned
    for [an]. *)
Lemma missing_unit_number_is_nan_witness :
  table_with ["unit_number"] Sample.table = true
  /\ In Cases.daoud_row (rows Sample.table)
  /\ get Sample.table "unit_number" Cases.daoud_row = NaN
  /\ filter_unit_number (Some "an") Sample.table
     = Ret (select Sample.table (unit_ends_with Sample.table "an"))
  /\ In Cases.daoud_row (rows (select Sample.table (unit_ends_with Sample.table "an"))).
Proof.
  assert (H : table_with ["unit_number"] Sample.table = true) by reflexivity.
  assert (Hr : In Cases.daoud_row (rows Sample.table)) by (vm_compute; auto).
  assert (Hn : get Sample.table "unit_number" Cases.daoud_row = NaN) by reflexivity.
  split; [exact H|]. split; [exact Hr|]. split; [exact Hn|].
  destruct (missing_unit_number_is_nan Sample.table "an" Cases.daoud_row H Hr Hn) as [H1 H2].
  split; [exact H1|]. apply H2. right. right. left. reflexivity.
Defined.

(** X10 on a table whose IDs were read as numbers: the digits of an ID of
    the table find nothing. *)
Lemma text_key_never_matches_numbers_witness :
  table_with ["id_number"; "uae_id_number"] Cases.numeric_ids = true
  /\ (forall r, In r (rows Cases.numeric_ids) ->
                is_text (get Cases.numeric_ids "id_number" r) = false
                /\ is_text (get Cases.numeric_ids "uae_id_number" r) = false)
  /\ search_id "530946649" Cases.numeric_ids = Ret (no_rows Cases.numeric_ids).
Proof.
  assert (H : table_with ["id_number"; "uae_id_number"] Cases.numeric_ids = true)
    by reflexivity.
  assert (Hn : forall r, In r (rows Cases.numeric_ids) ->
                         is_text (get Cases.numeric_ids "id_number" r) = false
                         /\ is_text (get Cases.numeric_ids "uae_id_number" r) = false).
  { intros r Hr. simpl in Hr. destruct Hr as [<-|[<-|[]]]; split; reflexivity. }
  split; [exact H|]. split; [exact Hn|].
  exact (text_key_never_matches_numbers Cases.numeric_ids "530946649" H Hn).
Defined.

(** X11 on the sample: a search by name and a search by ID, in both
    orders. *)
Lemma searches_compose_witness :
  table_with ["name_en"; "id_number"; "uae_id_number"] Sample.table = true
  /\ (x <- search_name "JOHN SMITH" Sample.table ;; search_id "Y" x)
     = (x <- search_id "Y" Sample.table ;; search_name "JOHN SMITH" x)
  /\ (x <- search_name "JOHN SMITH" Sample.table ;; search_id "Y" x)
     = Ret (select Sample.table
              (fun r => name_match Sample.table "JOHN SMITH" r && id_match Sample.table "Y" r)).
Proof.
  assert (H : table_with ["name_en"; "id_number"; "uae_id_number"] Sample.table = true)
    by reflexivity.
  split; [exact H|].
  destruct (searches_compose Sample.table "JOHN SMITH" "Y" H) as [_ [_ [H3 H4]]].
  split; [exact H3 | exact H4].
Defined.

(** X12 on a file one of whose sizes is text. *)
Lemma loader_outcomes_witness :
  unique_columns (rename rename_map Cases.raw_text_size) = true
  /\ load_and_clean_data (Ret Cases.raw_text_size) = Raise TypeError.
Proof.
  assert (H : unique_columns (rename rename_map Cases.raw_text_size) = true) by reflexivity.
  split; [exact H|].
  destruct (loader_outcomes Cases.raw_text_size H) as [_ [_ [_ H4]]].
  apply H4. split; [reflexivity|]. split; [reflexivity|].
  exists [Str "2021-03-02"; Str "50 sqm"]. split; [right; left; reflexivity | reflexivity].
Defined.

(** X13 on the sample. *)
Lemma load_preserves_cells_witness :
  unique_columns (rename rename_map Sample.raw) = true
  /\ load_and_clean_data (Ret Sample.raw) = Ret (Some Sample.table)
  /\ len Sample.table = len Sample.raw
  /\ Forall2
       (fun r r' =>
          forall h, In h (columns Sample.raw) ->
                    renamed rename_map h <> "reg_date" ->
                    renamed rename_map h <> "size_sqft" ->
                    In (renamed rename_map h) (columns Sample.table)
                    /\ get Sample.table (renamed rename_map h) r' = get Sample.raw h r)
       (rows Sample.raw) (rows Sample.table).
Proof.
  assert (H : unique_columns (rename rename_map Sample.raw) = true) by reflexivity.
  assert (Hl : load_and_clean_data (Ret Sample.raw) = Ret (Some Sample.table))
    by (vm_compute; reflexivity).
  split; [exact H|]. split; [exact Hl|].
  exact (load_preserves_cells Sample.raw Sample.table H Hl).
Defined.

(** X14 on the sample. *)
Lemma reg_date_is_datetime_witness :
  unique_columns (rename rename_map Sample.raw) = true
  /\ load_and_clean_data (Ret Sample.raw) = Ret (Some Sample.table)
  /\ Forall2
       (fun r r' =>
          exists t,
            get Sample.table "reg_date" r' = Datetime t
            /\ to_datetime_cell (get (rename rename_map Sample.raw) "reg_date" r)
               = Ret (Datetime t)
            /\ (isna (get (rename rename_map Sample.raw) "reg_date" r) = true -> t = None))
       (rows Sample.raw) (rows Sample.table).
Proof.
  assert (H : unique_columns (rename rename_map Sample.raw) = true) by reflexivity.
  assert (Hl : load_and_clean_data (Ret Sample.raw) = Ret (Some Sample.table))
    by (vm_compute; reflexivity).
  split; [exact H|]. split; [exact Hl|].
  exact (reg_date_is_datetime Sample.raw Sample.table H Hl).
Defined.

(** X15 on the sample: the table is loaded to itself. *)
Lemma load_idempotent_witness :
  unique_columns (rename rename_map Sample.raw) = true
  /\ load_and_clean_data (Ret Sample.raw) = Ret (Some Sample.table)
  /\ load_and_clean_data (Ret Sample.table) = Ret (Some Sample.table).
Proof.
  assert (H : unique_columns (rename rename_map Sample.raw) = true) by reflexivity.
  assert (Hl : load_and_clean_data (Ret Sample.raw) = Ret (Some Sample.table))
    by (vm_compute; reflexivity).
  split; [exact H|]. split; [exact Hl|].
  exact (load_idempotent Sample.raw Sample.table H Hl).
Defined.

(** X16 on the sample: its three rows are shown. *)
Lemma display_shows_known_columns_witness :
  frame_empty Sample.table = false
  /\ exists shown,
       display Sample.table = [StSuccess (len Sample.table); StDataframe shown]
       /\ columns shown = filter (has_column Sample.table) desired_columns
       /\ len shown = len Sample.table.
Proof.
  assert (H : frame_empty Sample.table = false) by reflexivity.
  split; [exact H|].
  destruct (display_shows_known_columns Sample.table H) as [shown [H1 [H2 [_ [H4 _]]]]].
  exists shown. split; [exact H1|]. split; [exact H2 | exact H4].
Defined.

(** X17 on the sample: a name search with nothing typed. *)
Lemma empty_key_is_rejected_witness :
  load_and_clean_data (Ret Sample.raw) = Ret (Some Sample.table)
  /\ button Cases.name_search_blank = true
  /\ key_input Cases.name_search_blank = ""
  /\ main (Ret Sample.raw) Cases.name_search_blank
     = Ret [StWarning "Please enter a name."; StInfo "No matching records found."].
Proof.
  assert (Hl : load_and_clean_data (Ret Sample.raw) = Ret (Some Sample.table))
    by (vm_compute; reflexivity).
  split; [exact Hl|]. split; [reflexivity|]. split; [reflexivity|].
  exact (empty_key_is_rejected (Ret Sample.raw) Sample.table Cases.name_search_blank
                               Hl eq_refl eq_refl).
Defined.

(** X18 on the sample: the page of a name search. *)
Lemma page_never_raises_witness :
  load_and_clean_data (Ret Sample.raw) = Ret (Some Sample.table)
  /\ table_with page_columns Sample.table = true
  /\ exists out, main (Ret Sample.raw) Cases.name_search_john = Ret out.
Proof.
  assert (Hl : load_and_clean_data (Ret Sample.raw) = Ret (Some Sample.table))
    by (vm_compute; reflexivity).
  assert (H : table_with page_columns Sample.table = true) by reflexivity.
  split; [exact Hl|]. split; [exact H|].
  destruct (page_never_raises (Ret Sample.raw) Sample.table Cases.name_search_john Hl H)
    as [out [Hout _]].
  exists out. exact Hout.
Defined.

(** X19 on the table of a file that has the date and the size only. *)
Lemma page_raises_on_missing_column_witness :
  load_and_clean_data (Ret Sample.raw_minimal) = Ret (Some Cases.minimal_table)
  /\ button Cases.name_search_john = true
  /\ key_input Cases.name_search_john <> ""
  /\ has_column Cases.minimal_table "name_en" = false
  /\ main (Ret Sample.raw_minimal) Cases.name_search_john = Raise (KeyError "name_en").
Proof.
  assert (Hl : load_and_clean_data (Ret Sample.raw_minimal) = Ret (Some Cases.minimal_table))
    by (vm_compute; reflexivity).
  assert (Hk : key_input Cases.name_search_john <> "") by discriminate.
  split; [exact Hl|]. split; [reflexivity|]. split; [exact Hk|]. split; [reflexivity|].
  destruct (page_raises_on_missing_column (Ret Sample.raw_minimal) Cases.minimal_table
              Cases.name_search_john Hl eq_refl Hk) as [H1 _].
  apply H1; reflexivity.
Defined.

(** X20 on the sample: one row of the file has JOHN SMITH as its name. *)
Lemma name_search_end_to_end_witness :
  unique_columns (rename rename_map Sample.raw) = true
  /\ loadable Sample.raw = true
  /\ In "NameEn" (columns Sample.raw)
  /\ search_type Cases.name_search_john = NameSearch
  /\ button Cases.name_search_john = true
  /\ key_input Cases.name_search_john <> ""
  /\ exists shown,
       main (Ret Sample.raw) Cases.name_search_john
       = Ret [StSuccess 1; StDataframe shown]
       /\ len shown = 1%nat.
Proof.
  assert (H : unique_columns (rename rename_map Sample.raw) = true) by reflexivity.
  assert (Hl : loadable Sample.raw = true) by reflexivity.
  assert (Hin : In "NameEn" (columns Sample.raw)) by (simpl; tauto).
  assert (Hk : key_input Cases.name_search_john <> "") by discriminate.
  split; [exact H|]. split; [exact Hl|]. split; [exact Hin|]. split; [reflexivity|].
  split; [reflexivity|]. split; [exact Hk|].
  destruct (name_search_end_to_end Sample.raw Cases.name_search_john H Hl Hin
              eq_refl eq_refl Hk) as [_ H2].
  destruct H2 as [shown [Hmain Hlen]]; [vm_compute; discriminate|].
  exists shown. split; [exact Hmain | exact Hlen].
Defined.

(** X21 on a file with a text column and a column of numbers: the missing
    unit number becomes the text [nan], the sizes stay numbers. *)
Lemma convert_columns_spec_witness :
  unique_columns Cases.raw_units = true
  /\ exists res,
       convert_columns (columns Cases.raw_units) Cases.raw_units = Ret res
       /\ columns res = ["Unit Number"; "Size"]
       /\ len res = 2%nat.
Proof.
  assert (H : unique_columns Cases.raw_units = true) by reflexivity.
  split; [exact H|].
  destruct (convert_columns_spec Cases.raw_units H) as [res [H1 [H2 [H3 _]]]].
  exists res. split; [exact H1|]. split; [exact H2 | exact H3].
Defined.

(** X22 on the same file, when the Parquet file cannot be written. *)
Lemma convert_data_outcomes_witness :
  unique_columns Cases.raw_units = true
  /\ exists res,
       convert_columns (columns Cases.raw_units) Cases.raw_units = Ret res
       /\ convert_data (Ret Cases.raw_units) (fun _ => Raise OSError)
          = ([Print "Reading CSV..."; Print "Converting object columns to string...";
              Print "Saving to Parquet..."; PrintError OSError], None).
Proof.
  assert (H : unique_columns Cases.raw_units = true) by reflexivity.
  split; [exact H|].
  destruct (convert_data_outcomes (Ret Cases.raw_units) (fun _ => Raise OSError)) as [_ H2].
  destruct (H2 Cases.raw_units eq_refl H) as [res [H3 [_ H5]]].
  exists res. split; [exact H3|]. apply H5. reflexivity.
Defined.

(** X23 on the same file, converted. *)
Lemma convert_columns_idempotent_witness :
  unique_columns Cases.raw_units = true
  /\ convert_columns (columns Cases.raw_units) Cases.raw_units
     = Ret (mkFrame ["Unit Number"; "Size"]
                    [[Str "A-3-0601"; Float 100]; [Str "nan"; Float 50.5]])
  /\ exists again,
       convert_columns ["Unit Number"; "Size"]
                       (mkFrame ["Unit Number"; "Size"]
                                [[Str "A-3-0601"; Float 100]; [Str "nan"; Float 50.5]])
       = Ret again
       /\ columns again = ["Unit Number"; "Size"].
Proof.
  assert (H : unique_columns Cases.raw_units = true) by reflexivity.
  assert (Hc : convert_columns (columns Cases.raw_units) Cases.raw_units
               = Ret (mkFrame ["Unit Number"; "Size"]
                              [[Str "A-3-0601"; Float 100]; [Str "nan"; Float 50.5]]))
    by (vm_compute; reflexivity).
  split; [exact H|]. split; [exact Hc|].
  destruct (convert_columns_idempotent Cases.raw_units _ H Hc) as [again [H1 [H2 _]]].
  exists again. split; [exact H1 | exact H2].
Defined.
